(** * homeboard: the generic widget pipeline of [widgets/generic_api_widget.py]

    A shallow embedding of [WidgetExecutor]: the path resolver
    ([extract_json_path]), the mapping applier ([apply_data_mapping]), the
    thirteen template renderers behind [render_template], the error fragment
    ([render_error]), the acquisition tiers ([fetch_api_data],
    [fetch_rss_data], [fetch_rss_direct]) and the top level [execute].

    Conventions of the embedding.
    - A Python [str] is a Rocq [string]; a character is a code point in
      U+0000..U+00FF and the character classes below ([is_space],
      [is_digit], [lower_char], printability in [repr]) are CPython's on that
      range.  The few template glyphs beyond U+00FF are spelled by their
      UTF-8 bytes, exactly as they stand in the source file.
    - A decoded JSON value is a [json]; an [int] is a [Z] and a [float] is
      a binary64 value ([py_float]) with its correctly rounded arithmetic
      and the shortest [repr] of CPython.
    - A raised exception is a value [exn] (class and [str(e)]); code that can
      raise returns a [result].
    - Warnings printed to stderr are diagnostics and are not modelled. *)

From Stdlib Require Import String Ascii List ZArith Lia Bool Arith.
Import ListNotations.
Local Open Scope list_scope.
Local Open Scope string_scope.
Local Open Scope Z_scope.
Set Warnings "-register-all".

(** ** Python strings *)

Module PyStr.

Definition ord (c : ascii) : Z := Z.of_N (N_of_ascii c).
Definition chr (n : Z) : ascii := ascii_of_N (Z.to_N n).

Definition dquote : ascii := Eval compute in ascii_of_N 34.
Definition squote : ascii := Eval compute in ascii_of_N 39.
Definition backquote : ascii := Eval compute in ascii_of_N 96.
Definition backslash : ascii := Eval compute in ascii_of_N 92.
Definition newline : ascii := Eval compute in ascii_of_N 10.

Definition str1 (c : ascii) : string := String c EmptyString.

Fixpoint map_chars (f : ascii -> ascii) (s : string) : string :=
  match s with
  | EmptyString => EmptyString
  | String c s' => String (f c) (map_chars f s')
  end.

(** Template text is written with a backquote wherever the source has a
    double quote; [html] puts the double quotes back.  No template of the
    source contains a backquote. *)
Definition html (s : string) : string :=
  map_chars (fun c => if Ascii.eqb c backquote then dquote else c) s.

Fixpoint forall_chars (p : ascii -> bool) (s : string) : bool :=
  match s with
  | EmptyString => true
  | String c s' => p c && forall_chars p s'
  end.

(** [c in s] for a one-character [c]. *)
Fixpoint char_in (c : ascii) (s : string) : bool :=
  match s with
  | EmptyString => false
  | String a s' => Ascii.eqb a c || char_in c s'
  end.

Fixpoint starts_with (p s : string) : bool :=
  match p, s with
  | EmptyString, _ => true
  | String a p', String b s' => Ascii.eqb a b && starts_with p' s'
  | String _ _, EmptyString => false
  end.

(** [needle in hay]. *)
Fixpoint str_in (needle hay : string) : bool :=
  starts_with needle hay ||
  match hay with
  | EmptyString => false
  | String _ hay' => str_in needle hay'
  end.

(** [s.split(sep)] for a one-character separator. *)
Fixpoint split (sep : ascii) (s : string) : list string :=
  match s with
  | EmptyString => [EmptyString]
  | String c s' =>
      if Ascii.eqb c sep then EmptyString :: split sep s'
      else match split sep s' with
           | [] => [str1 c]
           | w :: ws => String c w :: ws
           end
  end.

(** The two halves of [s.split(sep, 1)] when [sep] occurs in [s]. *)
Fixpoint split_once (sep : ascii) (s : string) : string * string :=
  match s with
  | EmptyString => (EmptyString, EmptyString)
  | String c s' =>
      if Ascii.eqb c sep then (EmptyString, s')
      else let (a, b) := split_once sep s' in (String c a, b)
  end.

(** [s.rstrip(c)] for a one-character [c]. *)
Fixpoint rstrip_char (c : ascii) (s : string) : string :=
  match s with
  | EmptyString => EmptyString
  | String a s' =>
      let r := rstrip_char c s' in
      if (r =? EmptyString)%string && Ascii.eqb a c then EmptyString else String a r
  end.

(** Character classes (CPython, code points below 256).  [is_space] is the
    white space of [str.strip]. *)
Definition is_space (c : ascii) : bool :=
  let n := ord c in
  ((9 <=? n) && (n <=? 13)) || ((28 <=? n) && (n <=? 32)) || (n =? 133) || (n =? 160).

Definition is_decimal (c : ascii) : bool :=
  let n := ord c in (48 <=? n) && (n <=? 57).

(** [str.isdigit] also accepts the superscripts U+00B2, U+00B3 and U+00B9. *)
Definition is_digit (c : ascii) : bool :=
  let n := ord c in is_decimal c || (n =? 178) || (n =? 179) || (n =? 185).

Definition is_upper (c : ascii) : bool :=
  let n := ord c in
  ((65 <=? n) && (n <=? 90)) || ((192 <=? n) && (n <=? 222) && negb (n =? 215)).

Definition lower_char (c : ascii) : ascii :=
  if is_upper c then chr (ord c + 32) else c.

Definition lower (s : string) : string := map_chars lower_char s.

Definition is_printable (c : ascii) : bool :=
  let n := ord c in
  ((32 <=? n) && (n <=? 126)) || ((161 <=? n) && negb (n =? 173)).

Fixpoint lstrip_by (p : ascii -> bool) (s : string) : string :=
  match s with
  | EmptyString => EmptyString
  | String c s' => if p c then lstrip_by p s' else s
  end.

Fixpoint rstrip_by (p : ascii -> bool) (s : string) : string :=
  match s with
  | EmptyString => EmptyString
  | String c s' =>
      let r := rstrip_by p s' in
      if (r =? EmptyString)%string && p c then EmptyString else String c r
  end.

(** [s.strip()]. *)
Definition strip (s : string) : string := lstrip_by is_space (rstrip_by is_space s).

(** The white space [int()] and [float()] skip around a literal: unlike
    [str.strip] they do not skip U+001C..U+001F. *)
Definition is_literal_space (c : ascii) : bool :=
  let n := ord c in
  ((9 <=? n) && (n <=? 13)) || (n =? 32) || (n =? 133) || (n =? 160).

Definition literal_strip (s : string) : string :=
  lstrip_by is_literal_space (rstrip_by is_literal_space s).

(** [s.isdigit()]. *)
Definition isdigit (s : string) : bool :=
  negb (s =? EmptyString)%string && forall_chars is_digit s.

Definition digit_val (c : ascii) : Z := ord c - 48.
Definition digit_char (d : Z) : ascii := chr (48 + d).

(** A [digitpart]: decimal digits, single underscores allowed between two
    digits.  [seen] tells whether the previous character was a digit. *)
Fixpoint digits_value (s : string) (acc : Z) (seen : bool) : option Z :=
  match s with
  | EmptyString => if seen then Some acc else None
  | String c s' =>
      if is_decimal c then digits_value s' (10 * acc + digit_val c) true
      else if Ascii.eqb c "_" && seen then digits_value s' acc false
      else None
  end.

(** [int(s)]: [None] stands for the [ValueError]. *)
Definition parse_int (s : string) : option Z :=
  match literal_strip s with
  | String "-" r => option_map Z.opp (digits_value r 0 false)
  | String "+" r => digits_value r 0 false
  | r => digits_value r 0 false
  end.

(** Whether [float(s)] succeeds.  The grammar is
    [sign? (inf | infinity | nan | number exponent?)] between optional white
    space, with [number ::= digitpart? . digitpart | digitpart .?]. *)
Fixpoint skip_digitpart (s : string) (seen : bool) : option string :=
  match s with
  | EmptyString => if seen then Some s else None
  | String c s' =>
      if is_decimal c then skip_digitpart s' true
      else if Ascii.eqb c "_" then (if seen then skip_digitpart s' false else None)
      else if seen then Some s else None
  end.

Definition starts_decimal (s : string) : bool :=
  match s with String c _ => is_decimal c | EmptyString => false end.

Definition exponent_ok (s : string) : bool :=
  match s with
  | EmptyString => true
  | String c r =>
      if Ascii.eqb c "e" || Ascii.eqb c "E" then
        let r' := match r with
                  | String "+" t => t
                  | String "-" t => t
                  | _ => r
                  end in
        match skip_digitpart r' false with
        | Some EmptyString => true
        | _ => false
        end
      else false
  end.

Definition number_ok (s : string) : bool :=
  match s with
  | String "." r =>
      match skip_digitpart r false with
      | Some t => exponent_ok t
      | None => false
      end
  | _ =>
      match skip_digitpart s false with
      | Some (String "." r) =>
          if starts_decimal r then
            match skip_digitpart r false with
            | Some t => exponent_ok t
            | None => false
            end
          else exponent_ok r
      | Some t => exponent_ok t
      | None => false
      end
  end.

Definition float_ok (s : string) : bool :=
  let t := literal_strip s in
  let u := match t with
           | String "+" r => r
           | String "-" r => r
           | _ => t
           end in
  let l := lower u in
  (l =? "inf")%string || (l =? "infinity")%string || (l =? "nan")%string || number_ok u.

(** [str(n)] for an [int]. *)
Fixpoint digits_of (fuel : nat) (n : Z) (acc : string) : string :=
  match fuel with
  | O => acc
  | S f =>
      let acc' := String (digit_char (n mod 10)) acc in
      if n <? 10 then acc' else digits_of f (n / 10) acc'
  end.

Definition str_of_nonneg (n : Z) : string :=
  digits_of (S (Z.to_nat (Z.log2 n))) n EmptyString.

Definition str_of_Z (z : Z) : string :=
  if z <? 0 then String "-" (str_of_nonneg (- z)) else str_of_nonneg z.

Definition hex_char (d : Z) : ascii :=
  if d <? 10 then chr (48 + d) else chr (87 + d).

(** [repr(s)] for a [str]. *)
Definition repr_char (quote : ascii) (c : ascii) : string :=
  let n := ord c in
  if Ascii.eqb c backslash then String backslash (str1 backslash)
  else if Ascii.eqb c quote then String backslash (str1 quote)
  else if n =? 9 then String backslash "t"
  else if n =? 10 then String backslash "n"
  else if n =? 13 then String backslash "r"
  else if is_printable c then str1 c
  else String backslash (String "x" (String (hex_char (n / 16)) (str1 (hex_char (n mod 16))))).

Fixpoint concat_map_chars (f : ascii -> string) (s : string) : string :=
  match s with
  | EmptyString => EmptyString
  | String c s' => f c ++ concat_map_chars f s'
  end.

Definition repr (s : string) : string :=
  let quote := if char_in squote s && negb (char_in dquote s) then dquote else squote in
  String quote (concat_map_chars (repr_char quote) s ++ str1 quote).

(** [html.escape(s)] with its default [quote=True]. *)
Definition escape_char (c : ascii) : string :=
  if Ascii.eqb c "&" then "&amp;"
  else if Ascii.eqb c "<" then "&lt;"
  else if Ascii.eqb c ">" then "&gt;"
  else if Ascii.eqb c dquote then "&quot;"
  else if Ascii.eqb c squote then "&#x27;"
  else str1 c.

Definition html_escape (s : string) : string := concat_map_chars escape_char s.

(** [s[:n]] for [n >= 0]. *)
Fixpoint take (n : nat) (s : string) : string :=
  match n, s with
  | S n', String c s' => String c (take n' s')
  | _, _ => EmptyString
  end.

(** [s[i]] with Python's negative indices; [None] is the [IndexError]. *)
Definition char_at (s : string) (i : Z) : option ascii :=
  let len := Z.of_nat (String.length s) in
  let j := if i <? 0 then i + len else i in
  if (0 <=? j) && (j <? len) then String.get (Z.to_nat j) s else None.

(** Code-point order of [str]: [a < b]. *)
Fixpoint str_ltb (a b : string) : bool :=
  match a, b with
  | _, EmptyString => false
  | EmptyString, String _ _ => true
  | String x a', String y b' =>
      if ord x <? ord y then true
      else if ord y <? ord x then false
      else str_ltb a' b'
  end.

End PyStr.
Import PyStr.

(** ** Exceptions and results *)

(** The exception classes the pipeline can meet.  The classes of the
    [requests] package carry the prefix [Requests] where a builtin of the same
    name exists. *)
Inductive exn_class : Type :=
| Exception | ValueError | TypeError | KeyError | IndexError | AttributeError
| OverflowError | RequestException | RequestsConnectionError | HTTPError
| Timeout | ConnectTimeout | JSONDecodeError | RequestsJSONDecodeError
| ParseError.

Definition exn_class_eqb (a b : exn_class) : bool :=
  match a, b with
  | Exception, Exception | ValueError, ValueError | TypeError, TypeError
  | KeyError, KeyError | IndexError, IndexError
  | AttributeError, AttributeError | OverflowError, OverflowError
  | RequestException, RequestException
  | RequestsConnectionError, RequestsConnectionError | HTTPError, HTTPError
  | Timeout, Timeout | ConnectTimeout, ConnectTimeout
  | JSONDecodeError, JSONDecodeError
  | RequestsJSONDecodeError, RequestsJSONDecodeError
  | ParseError, ParseError => true
  | _, _ => false
  end.

(** [issubclass(c, base)]. *)
Definition subclass (c base : exn_class) : bool :=
  exn_class_eqb c base ||
  match base, c with
  | Exception, _ => true
  | ValueError, (JSONDecodeError | RequestsJSONDecodeError) => true
  | JSONDecodeError, RequestsJSONDecodeError => true
  | RequestException,
    (RequestsConnectionError | HTTPError | Timeout | ConnectTimeout
     | RequestsJSONDecodeError) => true
  | RequestsConnectionError, ConnectTimeout => true
  | Timeout, ConnectTimeout => true
  | _, _ => false
  end.

(** An exception value: its class and [str(e)]. *)
Record exn : Type := Exn { exn_cls : exn_class; exn_msg : string }.

Definition isinstance_of (e : exn) (bases : list exn_class) : bool :=
  existsb (subclass (exn_cls e)) bases.

Inductive result (A : Type) : Type :=
| Ok (a : A)
| Raise (e : exn).
Arguments Ok {A} a.
Arguments Raise {A} e.

Definition bind {A B : Type} (r : result A) (k : A -> result B) : result B :=
  match r with
  | Ok a => k a
  | Raise e => Raise e
  end.

Notation "x <- c1 ;; c2" := (bind c1 (fun x => c2))
  (at level 61, c1 at next level, right associativity).

Definition is_ok {A : Type} (r : result A) : bool :=
  match r with Ok _ => true | Raise _ => false end.

(** ** Floats *)

(** [n / d] rounded to the nearest integer, ties to even ([n >= 0], [d > 0]). *)
Definition div_half_even (n d : Z) : Z :=
  let q := n / d in
  let r := n mod d in
  if 2 * r <? d then q
  else if d <? 2 * r then q + 1
  else if Z.even q then q else q + 1.

(** A finite binary64 value [(-1)^neg * man * 2^exp]. *)
Record float64 : Type := Float64 { f_neg : bool; f_man : Z; f_exp : Z }.

(** [a / b] of two [int]s with [b > 0]: the quotient correctly rounded to
    binary64 (53 bits, ties to even, exponents from -1074), or the
    [OverflowError] of CPython. *)
Definition int_true_div (a b : Z) : result float64 :=
  if a =? 0 then Ok (Float64 false 0 0)
  else
    let n := Z.abs a in
    let k := Z.log2 n - Z.log2 b in
    let l := if (if 0 <=? k then b * 2 ^ k <=? n else b <=? n * 2 ^ (- k)) then k else k - 1 in
    let e := Z.max (l - 52) (-1074) in
    let m := if 0 <=? e then div_half_even n (b * 2 ^ e)
             else div_half_even (n * 2 ^ (- e)) b in
    if (971 <=? e) && (2 ^ 1024 <=? m * 2 ^ e)
    then Raise (Exn OverflowError "integer division result too large for a float")
    else Ok (Float64 (a <? 0) m e).

(** The magnitude of [x] in tenths: ten times its exact value, rounded to an
    integer with ties to even. *)
Definition tenths (x : float64) : Z :=
  if 0 <=? f_exp x then 10 * f_man x * 2 ^ f_exp x
  else div_half_even (10 * f_man x) (2 ^ (- f_exp x)).

(** [format(x, '.1f')] of a finite float. *)
Definition format_1f (x : float64) : string :=
  (if f_neg x then "-" else EmptyString)
  ++ str_of_Z (tenths x / 10) ++ "." ++ str_of_Z (tenths x mod 10).

(** A Python [float]: a finite binary64 value, an infinity or the NaN (the
    JSON decoder accepts [Infinity], [-Infinity] and [NaN], and reads a
    number beyond the range as an infinity). *)
Inductive py_float : Type :=
| Finite (x : float64)
| Inf (neg : bool)
| NaN.

(** The mantissa of a finite float with its sign. *)
Definition signed_man (x : float64) : Z := if f_neg x then - f_man x else f_man x.

(** The float nearest to [n / d] for [d > 0]; an infinity beyond the range. *)
Definition float_of_ratio (n d : Z) : py_float :=
  match int_true_div n d with
  | Ok x => Finite x
  | Raise _ => Inf (n <? 0)
  end.

(** [float(n)], as the arithmetic of [float] converts an [int] operand. *)
Definition float_of_int (n : Z) : result float64 :=
  match int_true_div n 1 with
  | Ok x => Ok x
  | Raise _ => Raise (Exn OverflowError "int too large to convert to float")
  end.

(** [x + y] of two floats: the exact sum, correctly rounded. *)
Definition float_add (x y : py_float) : py_float :=
  match x, y with
  | NaN, _ | _, NaN => NaN
  | Inf a, Inf b => if Bool.eqb a b then Inf a else NaN
  | Inf a, Finite _ => Inf a
  | Finite _, Inf b => Inf b
  | Finite a, Finite b =>
      let e := Z.min (f_exp a) (f_exp b) in
      let n := signed_man a * 2 ^ (f_exp a - e) + signed_man b * 2 ^ (f_exp b - e) in
      if n =? 0 then Finite (Float64 (f_neg a && f_neg b) 0 0)
      else if 0 <=? e then float_of_ratio (n * 2 ^ e) 1
      else float_of_ratio n (2 ^ (- e))
  end.

(** [x / n] of a float by an [int] [n > 0] that a float holds exactly. *)
Definition float_div_int (x : py_float) (n : Z) : py_float :=
  match x with
  | Finite a =>
      if f_man a =? 0 then x
      else if 0 <=? f_exp a then float_of_ratio (signed_man a * 2 ^ f_exp a) n
      else float_of_ratio (signed_man a) (n * 2 ^ (- f_exp a))
  | _ => x
  end.

(** [x < y], [x == y] or [x > y] by the exact values; [None] when one of the
    two is the NaN. *)
Definition float_compare (x y : py_float) : option comparison :=
  match x, y with
  | NaN, _ | _, NaN => None
  | Inf a, Inf b => Some (if a then (if b then Eq else Lt) else (if b then Gt else Eq))
  | Inf a, Finite _ => Some (if a then Lt else Gt)
  | Finite _, Inf b => Some (if b then Gt else Lt)
  | Finite a, Finite b =>
      let e := Z.min (f_exp a) (f_exp b) in
      Some (signed_man a * 2 ^ (f_exp a - e) ?= signed_man b * 2 ^ (f_exp b - e))
  end.

(** [format(x, '.1f')]. *)
Definition py_format_1f (x : py_float) : string :=
  match x with
  | Finite a => format_1f a
  | Inf false => "inf"
  | Inf true => "-inf"
  | NaN => "nan"
  end.

(** *** [repr] of a float: the shortest digits that read back as the float *)

(** A positive finite value [m * 2^e] with its mantissa on 53 bits, or with
    the least exponent -1074. *)
Definition canonical (m e : Z) : Z * Z :=
  let e' := Z.max (e + Z.log2 m - 52) (-1074) in
  (if e' <=? e then m * 2 ^ (e - e') else m / 2 ^ (e' - e), e').

(** The decimal exponent: [s] and [k] grow while the upper end [(r + mp) / s]
    of the rounding interval reaches 1 ... *)
Fixpoint scale_up (fuel : nat) (r s mp k : Z) (even : bool) : Z * Z :=
  match fuel with
  | O => (s, k)
  | S fuel' =>
      if (if even then s <=? r + mp else s <? r + mp)
      then scale_up fuel' r (s * 10) mp (k + 1) even
      else (s, k)
  end.

(** ... and [r], [mp], [mm] grow and [k] falls while it stays below 1/10. *)
Fixpoint scale_down (fuel : nat) (r s mp mm k : Z) (even : bool) : Z * Z * Z * Z :=
  match fuel with
  | O => (r, mp, mm, k)
  | S fuel' =>
      if (if even then (r + mp) * 10 <? s else (r + mp) * 10 <=? s)
      then scale_down fuel' (r * 10) s (mp * 10) (mm * 10) (k - 1) even
      else (r, mp, mm, k)
  end.

(** The digits of [r / s] in [0, 1), up to the first one after which the
    digits written so far, or their successor, lie within [mm / s] below or
    [mp / s] above the value; the nearer of the two ends the list. *)
Fixpoint gen_digits (fuel : nat) (r s mp mm : Z) (even : bool) : list Z :=
  match fuel with
  | O => []
  | S fuel' =>
      let d := (r * 10) / s in
      let r' := (r * 10) mod s in
      let mp' := mp * 10 in
      let mm' := mm * 10 in
      let low := if even then r' <=? mm' else r' <? mm' in
      let high := if even then s <=? r' + mp' else s <? r' + mp' in
      match low, high with
      | false, false => d :: gen_digits fuel' r' s mp' mm' even
      | true, false => [d]
      | false, true => [d + 1]
      | true, true =>
          if 2 * r' <? s then [d]
          else if s <? 2 * r' then [d + 1]
          else if Z.even d then [d] else [d + 1]
      end
  end.

(** The shortest decimal digits [d1 d2 ...] and the exponent [k] such that
    [0.d1d2... * 10^k] reads back as the positive value [m * 2^e]. *)
Definition shortest_digits (m e : Z) : list Z * Z :=
  let (m, e) := canonical m e in
  let even := Z.even m in
  let narrow := (m =? 2 ^ 52) && (-1074 <? e) in
  let '(r, s, mp, mm) :=
    if 0 <=? e then
      if narrow then (m * 2 ^ e * 4, 4, 2 ^ e * 2, 2 ^ e)
      else (m * 2 ^ e * 2, 2, 2 ^ e, 2 ^ e)
    else
      if narrow then (m * 4, 2 ^ (- e) * 4, 2, 1)
      else (m * 2, 2 ^ (- e) * 2, 1, 1) in
  let '(s, k) := scale_up 400 r s mp 0 even in
  let '(r, mp, mm, k) := scale_down 400 r s mp mm k even in
  (gen_digits 20 r s mp mm even, k).

Fixpoint digits_str (ds : list Z) : string :=
  match ds with
  | [] => EmptyString
  | d :: ds' => str_of_Z d ++ digits_str ds'
  end.

Fixpoint repeat_zero (n : nat) : string :=
  match n with
  | O => EmptyString
  | S n' => String "0" (repeat_zero n')
  end.

Definition zeros (n : Z) : string := repeat_zero (Z.to_nat n).

(** The digits laid out as [repr] does: plain notation for a decimal point
    from 3 zeros after it to 16 digits before it, scientific notation with
    an exponent of two digits at least otherwise. *)
Definition format_short (ds : list Z) (k : Z) : string :=
  let n := Z.of_nat (List.length ds) in
  if (-4 <? k) && (k <=? 16) then
    if k <=? 0 then "0." ++ zeros (- k) ++ digits_str ds
    else if n <=? k then digits_str ds ++ zeros (k - n) ++ ".0"
    else digits_str (firstn (Z.to_nat k) ds) ++ "." ++ digits_str (skipn (Z.to_nat k) ds)
  else
    let exponent := k - 1 in
    digits_str (firstn 1 ds)
    ++ (match skipn 1 ds with [] => EmptyString | rest => "." ++ digits_str rest end)
    ++ "e" ++ (if exponent <? 0 then "-" else "+")
    ++ (if Z.abs exponent <? 10 then "0" else EmptyString) ++ str_of_Z (Z.abs exponent).

(** [repr(x)], also [str(x)], of a float. *)
Definition float_repr (x : py_float) : string :=
  match x with
  | Finite a =>
      (if f_neg a then "-" else EmptyString)
      ++ (if f_man a =? 0 then "0.0"
          else let (ds, k) := shortest_digits (f_man a) (f_exp a) in format_short ds k)
  | Inf false => "inf"
  | Inf true => "-inf"
  | NaN => "nan"
  end.

(** ** JSON values *)

Inductive json : Type :=
| JNull
| JBool (b : bool)
| JInt (z : Z)
| JFloat (x : py_float)
| JStr (s : string)
| JList (l : list json)
| JDict (d : list (string * json)).

(** A Python dict with string keys, in insertion order. *)
Definition dict : Type := list (string * json).

Fixpoint dict_lookup (d : dict) (k : string) : option json :=
  match d with
  | [] => None
  | (k', v) :: d' => if (k' =? k)%string then Some v else dict_lookup d' k
  end.

(** [d.get(k, default)]. *)
Definition dict_get (d : dict) (k : string) (default : json) : json :=
  match dict_lookup d k with
  | Some v => v
  | None => default
  end.

(** [d[k] = v]. *)
Fixpoint dict_set (d : dict) (k : string) (v : json) : dict :=
  match d with
  | [] => [(k, v)]
  | (k', v') :: d' =>
      if (k' =? k)%string then (k', v) :: d' else (k', v') :: dict_set d' k v
  end.

Definition keys (d : dict) : list string := map fst d.

(** [type(v).__name__]. *)
Definition type_name (v : json) : string :=
  match v with
  | JNull => "NoneType"
  | JBool _ => "bool"
  | JInt _ => "int"
  | JFloat _ => "float"
  | JStr _ => "str"
  | JList _ => "list"
  | JDict _ => "dict"
  end.

(** [bool(v)]. *)
Definition truthy (v : json) : bool :=
  match v with
  | JNull => false
  | JBool b => b
  | JInt z => negb (z =? 0)
  | JFloat x => match x with Finite a => negb (f_man a =? 0) | _ => true end
  | JStr s => negb (s =? EmptyString)%string
  | JList l => match l with [] => false | _ => true end
  | JDict d => match d with [] => false | _ => true end
  end.

Fixpoint join (sep : string) (l : list string) : string :=
  match l with
  | [] => EmptyString
  | [s] => s
  | s :: l' => s ++ sep ++ join sep l'
  end.

(** [repr(v)]. *)
Fixpoint py_repr (v : json) : string :=
  match v with
  | JNull => "None"
  | JBool true => "True"
  | JBool false => "False"
  | JInt z => str_of_Z z
  | JFloat x => float_repr x
  | JStr s => repr s
  | JList l => "[" ++ join ", " (map py_repr l) ++ "]"
  | JDict d =>
      "{" ++ join ", " (map (fun kv => match kv with
                                       | (k, x) => repr k ++ ": " ++ py_repr x
                                       end) d) ++ "}"
  end.

(** [str(v)]. *)
Definition py_str (v : json) : string :=
  match v with
  | JStr s => s
  | _ => py_repr v
  end.

(** ** The path resolver *)

(** [l[i]] with Python's negative indices; [None] is the [IndexError]. *)
Definition list_at (l : list json) (i : Z) : option json :=
  let len := Z.of_nat (List.length l) in
  let j := if i <? 0 then i + len else i in
  if (0 <=? j) && (j <? len) then nth_error l (Z.to_nat j) else None.

(** [current[name]] for a [str] subscript. *)
Definition subscript_key (current : json) (name : string) : result json :=
  match current with
  | JDict d =>
      match dict_lookup d name with
      | Some v => Ok v
      | None => Raise (Exn KeyError (repr name))
      end
  | JList _ => Raise (Exn TypeError "list indices must be integers or slices, not str")
  | JStr _ => Raise (Exn TypeError "string indices must be integers, not 'str'")
  | _ => Raise (Exn TypeError ("'" ++ type_name current ++ "' object is not subscriptable"))
  end.

(** [current[index]] for an [int] subscript. *)
Definition subscript_int (current : json) (index : Z) : result json :=
  match current with
  | JList l =>
      match list_at l index with
      | Some v => Ok v
      | None => Raise (Exn IndexError "list index out of range")
      end
  | JStr s =>
      match char_at s index with
      | Some c => Ok (JStr (str1 c))
      | None => Raise (Exn IndexError "string index out of range")
      end
  | JDict _ => Raise (Exn KeyError (str_of_Z index))
  | _ => Raise (Exn TypeError ("'" ++ type_name current ++ "' object is not subscriptable"))
  end.

(** The loop of [extract_json_path] over the dot-separated parts. *)
Fixpoint walk (parts : list string) (current : json) : result json :=
  match parts with
  | [] => Ok current
  | part :: rest =>
      if (part =? EmptyString)%string then walk rest current
      else if char_in "[" part && char_in "]" part then
        let (array_name, bracket_part) := split_once "[" part in
        let index_str := rstrip_char "]" bracket_part in
        current1 <- (if (array_name =? EmptyString)%string then Ok current
                     else subscript_key current array_name) ;;
        current2 <- match parse_int index_str with
                    | None => Raise (Exn ValueError ("Invalid array index: " ++ index_str))
                    | Some index =>
                        match subscript_int current1 index with
                        | Ok v => Ok v
                        | Raise e =>
                            if isinstance_of e [ValueError; IndexError; TypeError]
                            then Raise (Exn ValueError ("Invalid array index: " ++ index_str))
                            else Raise e
                        end
                    end ;;
        walk rest current2
      else
        match current with
        | JDict d =>
            match dict_lookup d part with
            | Some v => walk rest v
            | None => Raise (Exn KeyError (repr part))
            end
        | _ => Raise (Exn ValueError ("Cannot access '" ++ part ++ "' on non-dict type"))
        end
  end.

(** The single-key shortcut at the head of [extract_json_path]: [Some r] when
    one of its [return]s is taken, [None] when control falls through to the
    loop. *)
Definition shortcut (data : json) (path : string) : option (result json) :=
  if negb (char_in "." path) && negb (char_in "[" path) && negb (char_in "]" path) then
    match (match data with JDict d => dict_lookup d path | _ => None end) with
    | Some v => Some (Ok v)
    | None =>
        if isdigit path then Some (Ok (JStr path))
        else if float_ok path then Some (Ok (JStr path))
        else match data with
             | JDict d => Some (Ok (dict_get d path JNull))
             | _ => None
             end
    end
  else None.

Definition extract_json_path (data : json) (path : string) : result json :=
  if (path =? EmptyString)%string then Ok data
  else match shortcut data path with
       | Some r => r
       | None => walk (split "." path) data
       end.

(** [extract_json_path] as the list renderers call it: there the path is a
    value of the mapped data and need not be a [str].  A falsy path returns
    the data; a path that is not a [str] fails on the first string operation
    applied to it. *)
Definition non_str_path_error (data path : json) : exn :=
  match path with
  | JList l =>
      if existsb (fun x => match x with
                           | JStr s => (s =? ".")%string || (s =? "[")%string || (s =? "]")%string
                           | _ => false
                           end) l
      then Exn AttributeError "'list' object has no attribute 'split'"
      else match data with
           | JDict _ => Exn TypeError "unhashable type: 'list'"
           | _ => Exn AttributeError "'list' object has no attribute 'isdigit'"
           end
  | JDict d =>
      if existsb (fun kv => let k := fst kv in
                            (k =? ".")%string || (k =? "[")%string || (k =? "]")%string) d
      then Exn AttributeError "'dict' object has no attribute 'split'"
      else match data with
           | JDict _ => Exn TypeError "unhashable type: 'dict'"
           | _ => Exn AttributeError "'dict' object has no attribute 'isdigit'"
           end
  | _ => Exn TypeError ("argument of type '" ++ type_name path ++ "' is not iterable")
  end.

Definition extract_json_path_of (data path : json) : result json :=
  match path with
  | JStr s => extract_json_path data s
  | _ => if truthy path then Raise (non_str_path_error data path) else Ok data
  end.

(** ** The mapping applier *)

Definition apply_data_mapping (data_mapping : list (string * string)) (api_data : json)
  : result dict :=
  Ok (fold_left
        (fun mapped_data fp =>
           match fp with
           | (field_name, json_path) =>
               match extract_json_path api_data json_path with
               | Ok value => dict_set mapped_data field_name value
               | Raise _ => dict_set mapped_data field_name JNull
               end
           end)
        data_mapping []).

(** The field names of a mapping table. *)
Definition keys_of_mapping (data_mapping : list (string * string)) : list string :=
  map fst data_mapping.

(** ** Numbers: comparison, [min], [max], [sum], true division, ['.1f'] *)

(** [bool] is a subclass of [int]. *)
Definition as_int (v : json) : option Z :=
  match v with
  | JInt z => Some z
  | JBool b => Some (if b then 1 else 0)
  | _ => None
  end.

(** A number: an [int] (or a [bool]) or a [float]. *)
Inductive number : Type :=
| NInt (z : Z)
| NFloat (x : py_float).

Definition as_number (v : json) : option number :=
  match v with
  | JFloat x => Some (NFloat x)
  | _ => option_map NInt (as_int v)
  end.

(** A number by its exact value: an [int] is an integer mantissa. *)
Definition exact (a : number) : py_float :=
  match a with
  | NInt z => Finite (Float64 (z <? 0) (Z.abs z) 0)
  | NFloat x => x
  end.

(** [x == y] as a container compares its elements: identity first, then
    equality.  Two numbers are equal by their exact values, and a NaN, which
    equals nothing, is identical to itself: the JSON decoder returns one
    object for every [NaN]. *)
Fixpoint py_eq (x y : json) {struct x} : bool :=
  match x, y with
  | JNull, JNull => true
  | JStr a, JStr b => (a =? b)%string
  | JList a, JList b =>
      (fix go (a b : list json) {struct a} : bool :=
         match a, b with
         | [], [] => true
         | x' :: a', y' :: b' => py_eq x' y' && go a' b'
         | _, _ => false
         end) a b
  | JDict a, JDict b =>
      Nat.eqb (List.length a) (List.length b) &&
      forallb (fun kv => match kv with
                         | (k, v) =>
                             match dict_lookup b k with
                             | Some v' => py_eq v v'
                             | None => false
                             end
                         end) a
  | _, _ =>
      match as_int x, as_int y with
      | Some m, Some n => m =? n
      | _, _ =>
          match as_number x, as_number y with
          | Some a, Some b =>
              match exact a, exact b with
              | NaN, NaN => true
              | a', b' => match float_compare a' b' with Some Eq => true | _ => false end
              end
          | _, _ => false
          end
      end
  end.

Inductive cmp_op : Type := OpLt | OpGt.

Definition cmp_symbol (op : cmp_op) : string :=
  match op with OpLt => "<" | OpGt => ">" end.

Definition cmp_Z (op : cmp_op) (m n : Z) : bool :=
  match op with OpLt => m <? n | OpGt => n <? m end.

Definition cmp_str (op : cmp_op) (a b : string) : bool :=
  match op with OpLt => str_ltb a b | OpGt => str_ltb b a end.

(** A comparison with a float: by the exact values, false with a NaN. *)
Definition cmp_number (op : cmp_op) (a b : number) : bool :=
  match op, float_compare (exact a) (exact b) with
  | OpLt, Some Lt => true
  | OpGt, Some Gt => true
  | _, _ => false
  end.

Definition not_supported (op : cmp_op) (x y : json) : exn :=
  Exn TypeError ("'" ++ cmp_symbol op ++ "' not supported between instances of '"
                 ++ type_name x ++ "' and '" ++ type_name y ++ "'").

(** [x < y] or [x > y]. *)
Fixpoint py_compare (op : cmp_op) (x y : json) {struct x} : result bool :=
  match as_int x, as_int y with
  | Some m, Some n => Ok (cmp_Z op m n)
  | _, _ =>
      match as_number x, as_number y with
      | Some a, Some b => Ok (cmp_number op a b)
      | _, _ =>
      match x, y with
      | JStr a, JStr b => Ok (cmp_str op a b)
      | JList a, JList b =>
          (fix go (a b : list json) {struct a} : result bool :=
             match a, b with
             | x' :: a', y' :: b' =>
                 if py_eq x' y' then go a' b' else py_compare op x' y'
             | _, _ => Ok (cmp_Z op (Z.of_nat (List.length a)) (Z.of_nat (List.length b)))
             end) a b
      | _, _ => Raise (not_supported op x y)
      end
      end
  end.

(** The scan of [min] ([op = OpLt]) and [max] ([op = OpGt]): a later item
    replaces the current one when [item op current]. *)
Fixpoint extremum (op : cmp_op) (current : json) (rest : list json) : result json :=
  match rest with
  | [] => Ok current
  | item :: rest' =>
      b <- py_compare op item current ;;
      extremum op (if b then item else current) rest'
  end.

Definition py_min (l : list json) : result json :=
  match l with
  | [] => Raise (Exn ValueError "min() arg is an empty sequence")
  | x :: rest => extremum OpLt x rest
  end.

Definition py_max (l : list json) : result json :=
  match l with
  | [] => Raise (Exn ValueError "max() arg is an empty sequence")
  | x :: rest => extremum OpGt x rest
  end.

(** [acc + x] for a running total [acc]: exact between [int]s; with a float
    on either side the [int] is converted and the floats are added. *)
Definition py_add (acc : number) (x : json) : result number :=
  match acc, as_number x with
  | NInt a, Some (NInt n) => Ok (NInt (a + n))
  | NInt a, Some (NFloat y) => a' <- float_of_int a ;; Ok (NFloat (float_add (Finite a') y))
  | NFloat a, Some (NInt n) => n' <- float_of_int n ;; Ok (NFloat (float_add a (Finite n')))
  | NFloat a, Some (NFloat y) => Ok (NFloat (float_add a y))
  | _, None => Raise (Exn TypeError ("unsupported operand type(s) for +: '"
                                     ++ (match acc with NInt _ => "int" | NFloat _ => "float" end)
                                     ++ "' and '" ++ type_name x ++ "'"))
  end.

(** [sum(l)]: the running total starts at the [int] 0 and every item is
    added to it in turn (CPython up to 3.11; later versions compensate the
    rounding errors of a sum of floats). *)
Fixpoint sum_from (acc : number) (l : list json) : result number :=
  match l with
  | [] => Ok acc
  | x :: rest => acc' <- py_add acc x ;; sum_from acc' rest
  end.

Definition py_sum (l : list json) : result number := sum_from (NInt 0) l.

(** [total / n] for an [int] [n > 0]. *)
Definition true_div (total : number) (n : Z) : result py_float :=
  match total with
  | NInt a => x <- int_true_div a n ;; Ok (Finite x)
  | NFloat x => Ok (float_div_int x n)
  end.

(** [len(v)]. *)
Definition py_len (v : json) : result Z :=
  match v with
  | JList l => Ok (Z.of_nat (List.length l))
  | JDict d => Ok (Z.of_nat (List.length d))
  | JStr s => Ok (Z.of_nat (String.length s))
  | _ => Raise (Exn TypeError ("object of type '" ++ type_name v ++ "' has no len()"))
  end.

(** [l[:n]] for a bound [n] that is any value. *)
Definition slice_to (l : list json) (n : json) : result (list json) :=
  match n with
  | JNull => Ok l
  | _ =>
      match as_int n with
      | Some k =>
          if k <? 0 then Ok (firstn (Z.to_nat (Z.of_nat (List.length l) + k)) l)
          else Ok (firstn (Z.to_nat k) l)
      | None => Raise (Exn TypeError
                         "slice indices must be integers or None or have an __index__ method")
      end
  end.

(** ** Fragments *)

(** A fragment under construction is kept as the parts of its f-string:
    [Lit s] is template text, [Esc t] is an interpolation [{html.escape(t)}]
    and [Raw s] an interpolation [{s}] with no escaping.  A fragment
    interpolated into another one is spliced in.  [to_str] is the resulting
    Python [str]. *)
Inductive part : Type :=
| Lit (s : string)
| Esc (t : string)
| Raw (s : string).

Definition markup : Type := list part.

Definition part_text (p : part) : string :=
  match p with
  | Lit s => s
  | Esc t => html_escape t
  | Raw s => s
  end.

Fixpoint to_str (m : markup) : string :=
  match m with
  | [] => EmptyString
  | p :: m' => part_text p ++ to_str m'
  end.

(** [''.join(items)]. *)
Definition join_markup (items : list markup) : markup := List.concat items.

(** ** The renderers *)

Definition safe_str (value : json) : string :=
  match value with
  | JNull => EmptyString
  | _ => py_str value
  end.

Definition nonempty (s : string) : bool := negb (s =? EmptyString)%string.

Definition render_error (message : string) : markup :=
  [Lit (html "
        <div class=`widget-error`>
            <div class=`error-icon`>‚ö†Ô∏è</div>
            <div class=`error-message`>"); Esc message; Lit (html "</div>
        </div>
        ")].

Definition render_key_value (data : dict) : markup :=
  let title := safe_str (dict_get data "title" (JStr "Value")) in
  let value := safe_str (dict_get data "value" (JStr "N/A")) in
  let unit := safe_str (dict_get data "unit" (JStr EmptyString)) in
  [Lit (html "
        <div class=`widget-content`>
            <div class=`value-display text-center`>
                <div class=`label mb-sm`>"); Esc title; Lit (html "</div>
                <div class=`value value--large`>"); Esc value; Esc unit; Lit (html "</div>
            </div>
        </div>
        ")].

Definition render_title_subtitle_value (data : dict) : markup :=
  let title := safe_str (dict_get data "title" (JStr "Title")) in
  let subtitle := safe_str (dict_get data "subtitle" (JStr EmptyString)) in
  let value := safe_str (dict_get data "value" (JStr "N/A")) in
  let description := safe_str (dict_get data "description" (JStr EmptyString)) in
  let subtitle_html : markup :=
    if nonempty subtitle then [Lit (html "<div class=`subtitle mb-sm`>"); Esc subtitle; Lit (html "</div>")] else [] in
  let description_html : markup :=
    if nonempty description then [Lit (html "<div class=`description mt-sm`>"); Esc description; Lit (html "</div>")] else [] in
  ([Lit (html "
        <div class=`widget-content text-center`>
            <div class=`title mb-md`>"); Esc title; Lit (html "</div>
            ")] ++ subtitle_html ++ [Lit (html "
            <div class=`value value--large mb-md`>"); Esc value; Lit (html "</div>
            ")] ++ description_html ++ [Lit (html "
        </div>
        ")])%list.

(** One turn of a rendering loop whose body is wrapped in [try]/[except
    Exception]: an item that raises is skipped. *)
Definition render_items (body : json -> result markup) (items : list json) : list markup :=
  flat_map (fun item => match body item with
                        | Ok m => [m]
                        | Raise _ => []
                        end) items.

(** [try: x = extract(...) except: pass], [x] keeping its initial [''] . *)
Definition extract_or_empty (item path : json) : json :=
  match extract_json_path_of item path with
  | Ok v => v
  | Raise _ => JStr EmptyString
  end.

Definition render_metric (title_path value_path unit_path metric : json) : result markup :=
  metric_title <- extract_json_path_of metric title_path ;;
  metric_value <- extract_json_path_of metric value_path ;;
  let metric_unit := extract_or_empty metric unit_path in
  Ok ([Lit (html "
                <div class=`metric-item`>
                    <div class=`metric-info`>
                        <div class=`label`>"); Esc (safe_str metric_title); Lit (html "</div>
                        <div class=`value`>"); Esc (safe_str metric_value); Esc (safe_str metric_unit); Lit (html "</div>
                    </div>
                </div>
                ")]).

Definition render_metric_grid (data : dict) : markup :=
  let metrics := dict_get data "metrics" (JList []) in
  let title_path := dict_get data "metric_title_path" (JStr "name") in
  let value_path := dict_get data "metric_value_path" (JStr "value") in
  let unit_path := dict_get data "metric_unit_path" (JStr "unit") in
  match metrics with
  | JList l =>
      let metrics_html :=
        render_items (render_metric title_path value_path unit_path) (firstn 8 l) in
      ([Lit (html "
        <div class=`widget-content`>
            <div class=`metrics-grid`>
                ")] ++ join_markup metrics_html ++ [Lit (html "
            </div>
        </div>
        ")])%list
  | _ => render_error "Metrics must be an array"
  end.

Definition render_weather_current (data : dict) : markup :=
  let temperature := safe_str (dict_get data "temperature" (JStr "N/A")) in
  let condition := safe_str (dict_get data "condition" (JStr "Unknown")) in
  let icon := safe_str (dict_get data "icon" (JStr "üå§Ô∏è")) in
  let humidity := safe_str (dict_get data "humidity" (JStr EmptyString)) in
  let wind_speed := safe_str (dict_get data "wind_speed" (JStr EmptyString)) in
  let details_html : list markup :=
    ((if nonempty humidity then [[Lit (html "<div class=`description`>Humidity: "); Esc humidity; Lit (html "%</div>")]] else [])
     ++ (if nonempty wind_speed then [[Lit (html "<div class=`description`>Wind: "); Esc wind_speed; Lit (html " m/s</div>")]] else []))%list in
  ([Lit (html "
        <div class=`widget-content`>
            <div class=`weather-current`>
                <div class=`weather-icon`>
                    <div style=`font-size: 48px;`>"); Esc icon; Lit (html "</div>
                </div>
                <div class=`weather-temp`>
                    <div class=`value value--huge`>"); Esc temperature; Lit (html "¬∞</div>
                    <div class=`subtitle`>"); Esc condition; Lit (html "</div>
                </div>
            </div>
            ")] ++ join_markup details_html ++ [Lit (html "
        </div>
        ")])%list.

(** What [datetime.now().strftime(...)] returns at the two places
    [render_time_display] reads the clock. *)
Record clock : Type := Clock { now_time : string; now_date : string }.

Definition render_time_display (clk : clock) (data : dict) : markup :=
  let time_val := safe_str (dict_get data "time" (JStr (now_time clk))) in
  let date_val := safe_str (dict_get data "date" (JStr (now_date clk))) in
  let timezone := safe_str (dict_get data "timezone" (JStr EmptyString)) in
  let format_type := safe_str (dict_get data "format" (JStr EmptyString)) in
  let timezone_html : markup :=
    if nonempty timezone then [Lit (html "<div class=`meta`>"); Esc timezone; Lit (html "</div>")] else [] in
  let format_html : markup :=
    if nonempty format_type then [Lit (html "<div class=`meta`>"); Esc format_type; Lit (html "</div>")] else [] in
  ([Lit (html "
        <div class=`widget-content`>
            <div class=`time-display`>
                <div class=`time-main`>
                    <div class=`value value--huge`>"); Esc time_val; Lit (html "</div>
                    <div class=`subtitle`>"); Esc date_val; Lit (html "</div>
                </div>
                <div class=`time-meta`>
                    ")] ++ timezone_html ++ [Lit (html "
                    ")] ++ format_html ++ [Lit (html "
                </div>
            </div>
        </div>
        ")])%list.

Definition status_in (status : json) (names : list string) : bool :=
  existsb (String.eqb (lower (py_str status))) names.

Definition get_status_icon (status : json) : string :=
  if status_in status ["online"; "ok"; "healthy"; "success"; "active"; "running"]
  then "‚úÖ"
  else if status_in status ["offline"; "error"; "failed"; "down"; "inactive"]
  then "‚ùå"
  else if status_in status ["warning"; "degraded"; "partial"; "slow"]
  then "‚ö†Ô∏è"
  else "üîµ".

Definition get_status_class (status : json) : string :=
  if status_in status ["online"; "ok"; "healthy"; "success"; "active"; "running"]
  then "status-indicator--success"
  else if status_in status ["offline"; "error"; "failed"; "down"; "inactive"]
  then "status-indicator--error"
  else if status_in status ["warning"; "degraded"; "partial"; "slow"]
  then "status-indicator--warning"
  else "status-indicator--success".

Definition render_status_item (name_path status_path message_path item : json)
  : result markup :=
  name <- extract_json_path_of item name_path ;;
  status <- extract_json_path_of item status_path ;;
  let message := extract_or_empty item message_path in
  let status_icon := get_status_icon status in
  let status_class := get_status_class status in
  let message_html : markup :=
    if truthy message then [Lit (html "<div class=`description`>"); Esc (safe_str message); Lit (html "</div>")] else [] in
  Ok (([Lit (html "
                <div class=`metric-item`>
                    <div class=`metric-icon`>"); Raw status_icon; Lit (html "</div>
                    <div class=`metric-info`>
                        <div class=`subtitle`>"); Esc (safe_str name); Lit (html "</div>
                        <div class=`status-indicator "); Raw status_class; Lit (html "`>"); Esc (safe_str status); Lit (html "</div>
                        ")] ++ message_html ++ [Lit (html "
                    </div>
                </div>
                ")])%list).

Definition render_status_list (data : dict) : markup :=
  let items := dict_get data "items" (JList []) in
  let name_path := dict_get data "item_name_path" (JStr "name") in
  let status_path := dict_get data "item_status_path" (JStr "status") in
  let message_path := dict_get data "item_message_path" (JStr "message") in
  match items with
  | JList l =>
      let items_html :=
        render_items (render_status_item name_path status_path message_path) (firstn 10 l) in
      ([Lit (html "
        <div class=`widget-content`>
            <div class=`metrics-grid`>
                ")] ++ join_markup items_html ++ [Lit (html "
            </div>
        </div>
        ")])%list
  | _ => render_error "Items must be an array"
  end.

Definition render_icon_item (icon_path title_path description_path item : json)
  : result markup :=
  let icon := extract_or_empty item icon_path in
  title <- extract_json_path_of item title_path ;;
  let description := extract_or_empty item description_path in
  let icon_html : markup :=
    if truthy icon then [Lit (html "<div class=`metric-icon`>"); Esc (safe_str icon); Lit (html "</div>")] else [] in
  let description_html : markup :=
    if truthy description then [Lit (html "<div class=`description`>"); Esc (safe_str description); Lit (html "</div>")] else [] in
  Ok (([Lit (html "
                <div class=`metric-item`>
                    ")] ++ icon_html ++ [Lit (html "
                    <div class=`metric-info`>
                        <div class=`subtitle`>"); Esc (safe_str title); Lit (html "</div>
                        ")] ++ description_html ++ [Lit (html "
                    </div>
                </div>
                ")])%list).

Definition render_icon_list (data : dict) : markup :=
  let items := dict_get data "items" (JList []) in
  let icon_path := dict_get data "item_icon_path" (JStr "icon") in
  let title_path := dict_get data "item_title_path" (JStr "title") in
  let description_path := dict_get data "item_description_path" (JStr "description") in
  match items with
  | JList l =>
      let items_html :=
        render_items (render_icon_item icon_path title_path description_path) (firstn 8 l) in
      ([Lit (html "
        <div class=`widget-content`>
            <div class=`metrics-grid`>
                ")] ++ join_markup items_html ++ [Lit (html "
            </div>
        </div>
        ")])%list
  | _ => render_error "Items must be an array"
  end.

Definition render_text_block (data : dict) : markup :=
  let title := safe_str (dict_get data "title" (JStr EmptyString)) in
  let content := safe_str (dict_get data "content" (JStr "No content")) in
  let author := safe_str (dict_get data "author" (JStr EmptyString)) in
  let timestamp := safe_str (dict_get data "timestamp" (JStr EmptyString)) in
  let title_html : markup :=
    if nonempty title then [Lit (html "<div class=`title mb-md`>"); Esc title; Lit (html "</div>")] else [] in
  let author_html : markup :=
    if nonempty author then [Lit (html "<div class=`meta`>‚Äî "); Esc author; Lit (html "</div>")] else [] in
  let timestamp_html : markup :=
    if nonempty timestamp then [Lit (html "<div class=`meta`>"); Esc timestamp; Lit (html "</div>")] else [] in
  ([Lit (html "
        <div class=`widget-content`>
            ")] ++ title_html ++ [Lit (html "
            <div class=`description mb-md`>"); Esc content; Lit (html "</div>
            ")] ++ author_html ++ [Lit (html "
            ")] ++ timestamp_html ++ [Lit (html "
        </div>
        ")])%list.

Definition render_chart_simple (data : dict) : result markup :=
  let title := safe_str (dict_get data "title" (JStr "Chart")) in
  let data_points := dict_get data "data_points" (JList []) in
  let labels := dict_get data "labels" (JList []) in
  let unit := safe_str (dict_get data "unit" (JStr EmptyString)) in
  match data_points with
  | JList l =>
      stats_html <-
        (if truthy data_points then
           min_val <- py_min l ;;
           max_val <- py_max l ;;
           total <- py_sum l ;;
           avg_val <- true_div total (Z.of_nat (List.length l)) ;;
           Ok ([Lit (html "
            <div class=`metrics-grid`>
                <div class=`metric-item`>
                    <div class=`metric-info`>
                        <div class=`label`>Min</div>
                        <div class=`value`>"); Raw (py_str min_val); Lit (html " "); Esc unit; Lit (html "</div>
                    </div>
                </div>
                <div class=`metric-item`>
                    <div class=`metric-info`>
                        <div class=`label`>Max</div>
                        <div class=`value`>"); Raw (py_str max_val); Lit (html " "); Esc unit; Lit (html "</div>
                    </div>
                </div>
                <div class=`metric-item`>
                    <div class=`metric-info`>
                        <div class=`label`>Avg</div>
                        <div class=`value`>"); Raw (py_format_1f avg_val); Lit (html " "); Esc unit; Lit (html "</div>
                    </div>
                </div>
            </div>
            ")])
         else Ok [Lit (html "<div class=`description`>No data available</div>")]) ;;
      Ok (([Lit (html "
        <div class=`widget-content`>
            <div class=`title mb-md`>"); Esc title; Lit (html "</div>
            ")] ++ stats_html ++ [Lit (html "
        </div>
        ")])%list)
  | _ => Ok (render_error "Data points must be an array")
  end.

Definition render_image_caption (data : dict) : markup :=
  let image_url := safe_str (dict_get data "image_url" (JStr EmptyString)) in
  let caption := safe_str (dict_get data "caption" (JStr EmptyString)) in
  let alt_text := safe_str (dict_get data "alt_text" (JStr "Image")) in
  let title := safe_str (dict_get data "title" (JStr EmptyString)) in
  if negb (nonempty image_url) then render_error "Image URL is required"
  else
    let title_html : markup :=
      if nonempty title then [Lit (html "<div class=`title mb-md`>"); Esc title; Lit (html "</div>")] else [] in
    let caption_html : markup :=
      if nonempty caption then [Lit (html "<div class=`description mt-md`>"); Esc caption; Lit (html "</div>")] else [] in
    ([Lit (html "
        <div class=`widget-content text-center`>
            ")] ++ title_html ++ [Lit (html "
            <img src=`"); Esc image_url; Lit (html "` alt=`"); Esc alt_text; Lit (html "` 
                 style=`max-width: 100%; height: auto; border-radius: var(--border-radius);`>
            ")] ++ caption_html ++ [Lit (html "
        </div>
        ")])%list.

Definition render_headline (item : json) : result markup :=
  match item with
  | JDict d =>
      let title := safe_str (dict_get d "title" (JStr "Untitled")) in
      let link := safe_str (dict_get d "link" (JStr EmptyString)) in
      let pub_date := safe_str (dict_get d "pub_date" (JStr EmptyString)) in
      let date_html : markup :=
        if nonempty pub_date then [Lit (html "<div class=`meta`>"); Esc pub_date; Lit (html "</div>")] else [] in
      if nonempty link then
        Ok (([Lit (html "
                        <div class=`metric-item`>
                            <div class=`metric-info`>
                                <div class=`subtitle`>‚Ä¢ <a href=`"); Esc link; Lit (html "` target=`_blank`>"); Esc title; Lit (html "</a></div>
                                ")] ++ date_html ++ [Lit (html "
                            </div>
                        </div>
                        ")])%list)
      else
        Ok (([Lit (html "
                        <div class=`metric-item`>
                            <div class=`metric-info`>
                                <div class=`subtitle`>‚Ä¢ "); Esc title; Lit (html "</div>
                                ")] ++ date_html ++ [Lit (html "
                            </div>
                        </div>
                        ")])%list)
  | _ =>
      Ok ([Lit (html "
                    <div class=`metric-item`>
                        <div class=`metric-info`>
                            <div class=`subtitle`>‚Ä¢ "); Esc (safe_str item); Lit (html "</div>
                        </div>
                    </div>
                    ")])
  end.

Definition render_rss_headlines (data : dict) : markup :=
  let feed_title := safe_str (dict_get data "feed_title" (JStr "RSS Feed")) in
  let items := dict_get data "items" (JList []) in
  match items with
  | JList l =>
      let items_html := render_items render_headline (firstn 10 l) in
      let items_html :=
        match items_html with
        | [] => [[Lit (html "<div class=`description`>No headlines available</div>")]]
        | _ => items_html
        end in
      ([Lit (html "
        <div class=`widget-content`>
            <div class=`title mb-md`>"); Esc feed_title; Lit (html "</div>
            <div class=`metrics-grid`>
                ")] ++ join_markup items_html ++ [Lit (html "
            </div>
        </div>
        ")])%list
  | _ => render_error "RSS items must be an array"
  end.

(** [description[:limit] + "..."] when [len(description) > limit]. *)
Definition truncate (limit : nat) (s : string) : string :=
  if (limit <? String.length s)%nat then take limit s ++ "..." else s.

Definition render_rss_summary (data : dict) : markup :=
  let feed_title := safe_str (dict_get data "feed_title" (JStr "RSS Feed")) in
  let items := dict_get data "items" (JList []) in
  match items with
  | JList (item :: _) =>
      let '(title, description, author, pub_date, link) :=
        match item with
        | JDict d =>
            (safe_str (dict_get d "title" (JStr "Untitled")),
             safe_str (dict_get d "description" (JStr EmptyString)),
             safe_str (dict_get d "author" (JStr EmptyString)),
             safe_str (dict_get d "pub_date" (JStr EmptyString)),
             safe_str (dict_get d "link" (JStr EmptyString)))
        | _ => (safe_str item, EmptyString, EmptyString, EmptyString, EmptyString)
        end in
      let description := truncate 200 description in
      let author_html : markup :=
        if nonempty author then [Lit (html "<div class=`meta`>By: "); Esc author; Lit (html "</div>")] else [] in
      let date_html : markup :=
        if nonempty pub_date then [Lit (html "<div class=`meta`>"); Esc pub_date; Lit (html "</div>")] else [] in
      let link_html : markup :=
        if nonempty link then [Lit (html "<div class=`meta`><a href=`"); Esc link; Lit (html "` target=`_blank`>Read more</a></div>")] else [] in
      ([Lit (html "
        <div class=`widget-content`>
            <div class=`title mb-md`>"); Esc feed_title; Lit (html "</div>
            <div class=`subtitle mb-sm`>"); Esc title; Lit (html "</div>
            <div class=`description mb-md`>"); Esc description; Lit (html "</div>
            ")] ++ author_html ++ [Lit (html "
            ")] ++ date_html ++ [Lit (html "
            ")] ++ link_html ++ [Lit (html "
        </div>
        ")])%list
  | _ =>
      [Lit (html "
            <div class=`widget-content text-center`>
                <div class=`title mb-md`>"); Esc feed_title; Lit (html "</div>
                <div class=`description`>No articles available</div>
            </div>
            ")]
  end.

Definition render_rss_feed_info (data : dict) : result markup :=
  let feed_title := safe_str (dict_get data "feed_title" (JStr "RSS Feed")) in
  let feed_description := safe_str (dict_get data "feed_description" (JStr EmptyString)) in
  let feed_link := safe_str (dict_get data "feed_link" (JStr EmptyString)) in
  item_count <- py_len (dict_get data "items" (JList [])) ;;
  let last_updated := safe_str (dict_get data "last_updated" (JStr EmptyString)) in
  let feed_description := truncate 150 feed_description in
  let description_html : markup :=
    if nonempty feed_description then [Lit (html "<div class=`description mb-md`>"); Esc feed_description; Lit (html "</div>")] else [] in
  let link_html : markup :=
    if nonempty feed_link then [Lit (html "<div class=`meta`><a href=`"); Esc feed_link; Lit (html "` target=`_blank`>Visit Feed</a></div>")] else [] in
  let updated_html : markup :=
    if nonempty last_updated then [Lit (html "<div class=`meta`>Last Updated: "); Esc last_updated; Lit (html "</div>")] else [] in
  Ok (([Lit (html "
        <div class=`widget-content text-center`>
            <div class=`title mb-md`>"); Esc feed_title; Lit (html "</div>
            ")] ++ description_html ++ [Lit (html "
            <div class=`value value--large mb-md`>"); Raw (str_of_Z item_count); Lit (html "</div>
            <div class=`subtitle mb-md`>Articles Available</div>
            ")] ++ link_html ++ [Lit (html "
            ")] ++ updated_html ++ [Lit (html "
        </div>
        ")])%list).

(** The dispatch table of [render_template]. *)
Definition template_map (clk : clock) : list (string * (dict -> result markup)) :=
  [ ("key_value", fun data => Ok (render_key_value data));
    ("title_subtitle_value", fun data => Ok (render_title_subtitle_value data));
    ("metric_grid", fun data => Ok (render_metric_grid data));
    ("weather_current", fun data => Ok (render_weather_current data));
    ("time_display", fun data => Ok (render_time_display clk data));
    ("status_list", fun data => Ok (render_status_list data));
    ("icon_list", fun data => Ok (render_icon_list data));
    ("text_block", fun data => Ok (render_text_block data));
    ("chart_simple", render_chart_simple);
    ("image_caption", fun data => Ok (render_image_caption data));
    ("rss_headlines", fun data => Ok (render_rss_headlines data));
    ("rss_summary", fun data => Ok (render_rss_summary data));
    ("rss_feed_info", render_rss_feed_info) ].

Fixpoint assoc {A : Type} (k : string) (l : list (string * A)) : option A :=
  match l with
  | [] => None
  | (k', a) :: l' => if (k' =? k)%string then Some a else assoc k l'
  end.

Definition render_template (clk : clock) (template_type : string) (data : dict)
  : result markup :=
  match assoc template_type (template_map clk) with
  | Some renderer => renderer data
  | None => Ok (render_error ("Unknown template type: " ++ template_type))
  end.

(** ** Acquisition *)

(** The widget configuration, typed as the pipeline reads it. *)
Record config : Type := Config {
  data_source : string;
  api_url : string;
  api_headers : list (string * string);
  template_type : string;
  data_mapping : list (string * string);
  rss_config : dict;
  timeout : Z
}.

(** An element of a parsed XML document ([xml.etree.ElementTree]). *)
Inductive xml : Type :=
| Element (tag : string) (text : option string) (children : list xml).

Definition xml_tag (e : xml) : string := match e with Element t _ _ => t end.
Definition xml_text (e : xml) : option string := match e with Element _ t _ => t end.
Definition xml_children (e : xml) : list xml := match e with Element _ _ c => c end.

(** [parent.find(tag)] and [parent.findall(tag)] for a plain tag name. *)
Definition xml_find (parent : xml) (tag_name : string) : option xml :=
  find (fun c => (xml_tag c =? tag_name)%string) (xml_children parent).

Definition xml_findall (parent : xml) (tag_name : string) : list xml :=
  filter (fun c => (xml_tag c =? tag_name)%string) (xml_children parent).

Definition get_element_text (parent : xml) (tag_name : string) : string :=
  match xml_find parent tag_name with
  | Some element =>
      match xml_text element with
      | Some t => if nonempty t then strip t else EmptyString
      | None => EmptyString
      end
  | None => EmptyString
  end.

(** The network is an oracle: what [requests.get] / [requests.post] do with a
    request, and what the methods of the response then do. *)
Inductive http_method : Type := GET | POST.

Record request : Type := Request {
  rq_method : http_method;
  rq_url : string;
  rq_headers : list (string * string);
  rq_json : option json;
  rq_timeout : Z
}.

Record response : Type := Response {
  raise_for_status : option exn;      (* the exception it raises, if any *)
  response_json : result json;        (* response.json() *)
  content_xml : result xml            (* ET.fromstring(response.content) *)
}.

Definition network : Type := request -> result response.

(** Code that talks to the network: it may raise, and it extends the log of
    the requests sent so far. *)
Definition io (A : Type) : Type := list request -> result A * list request.

Definition io_ret {A : Type} (a : A) : io A := fun log => (Ok a, log).
Definition io_raise {A : Type} (e : exn) : io A := fun log => (Raise e, log).
Definition io_lift {A : Type} (r : result A) : io A := fun log => (r, log).

Definition io_bind {A B : Type} (m : io A) (k : A -> io B) : io B :=
  fun log => match m log with
             | (Ok a, log') => k a log'
             | (Raise e, log') => (Raise e, log')
             end.

(** [try: m except ... as e: handler e]. *)
Definition io_try {A : Type} (m : io A) (handler : exn -> io A) : io A :=
  fun log => match m log with
             | (Ok a, log') => (Ok a, log')
             | (Raise e, log') => handler e log'
             end.

Notation "x <~ c1 ;; c2" := (io_bind c1 (fun x => c2))
  (at level 61, c1 at next level, right associativity).

Definition check_status (r : response) : result unit :=
  match raise_for_status r with
  | Some e => Raise e
  | None => Ok tt
  end.

(** [headers.setdefault(k, v)]. *)
Fixpoint setdefault (headers : list (string * string)) (k v : string)
  : list (string * string) :=
  match headers with
  | [] => [(k, v)]
  | (k', v') :: rest =>
      if (k' =? k)%string then headers else (k', v') :: setdefault rest k v
  end.

(** [key in data] for a [str] key. *)
Definition py_contains (key : string) (data : json) : result bool :=
  match data with
  | JDict d => Ok (match dict_lookup d key with Some _ => true | None => false end)
  | JList l => Ok (existsb (py_eq (JStr key)) l)
  | JStr s => Ok (str_in key s)
  | _ => Raise (Exn TypeError ("argument of type '" ++ type_name data ++ "' is not iterable"))
  end.

Section Pipeline.

Variable net : network.
Variable cfg : config.

Definition send (rq : request) : io response :=
  fun log => (net rq, (log ++ [rq])%list).

Definition fetch_api_data : io json :=
  if negb (nonempty (api_url cfg)) then io_raise (Exn ValueError "API URL is required")
  else
    let headers := setdefault (api_headers cfg) "User-Agent" "E-Paper-Dashboard/1.0" in
    io_try
      (response <~ send (Request GET (api_url cfg) headers None (timeout cfg)) ;;
       _ <~ io_lift (check_status response) ;;
       io_lift (response_json response))
      (fun e =>
         if isinstance_of e [RequestException]
         then io_raise (Exn Exception ("API request failed: " ++ exn_msg e))
         else if isinstance_of e [JSONDecodeError]
         then io_raise (Exn Exception ("Invalid JSON response: " ++ exn_msg e))
         else io_raise e).

Definition rss_item (item : xml) : json :=
  JDict [ ("title", JStr (get_element_text item "title"));
          ("description", JStr (get_element_text item "description"));
          ("link", JStr (get_element_text item "link"));
          ("pub_date", JStr (get_element_text item "pubDate"));
          ("author", JStr (get_element_text item "author"));
          ("guid", JStr (get_element_text item "guid")) ].

Definition fetch_rss_direct : io json :=
  io_try
    (response <~ send (Request GET (api_url cfg)
                         [("User-Agent", "E-Paper-Dashboard/1.0 RSS Reader")]
                         None (timeout cfg)) ;;
     _ <~ io_lift (check_status response) ;;
     root <~ io_lift (content_xml response) ;;
     match xml_find root "channel" with
     | None => io_raise (Exn Exception "Invalid RSS format: no channel element found")
     | Some channel =>
         let max_items := dict_get (rss_config cfg) "max_items" (JInt 10) in
         items <~ io_lift (slice_to (map (fun i => rss_item i) (xml_findall channel "item"))
                                    max_items) ;;
         io_ret (JDict [ ("title", JStr (get_element_text channel "title"));
                         ("description", JStr (get_element_text channel "description"));
                         ("link", JStr (get_element_text channel "link"));
                         ("items", JList items) ])
     end)
    (fun e =>
       if isinstance_of e [ParseError]
       then io_raise (Exn Exception ("RSS XML parsing failed: " ++ exn_msg e))
       else if isinstance_of e [RequestException]
       then io_raise (Exn Exception ("RSS request failed: " ++ exn_msg e))
       else io_raise e).

Definition rss_api_url : string := "http://localhost:8080/api/rss/preview".

Definition fetch_rss_data : io json :=
  if negb (nonempty (api_url cfg)) then io_raise (Exn ValueError "RSS feed URL is required")
  else
    let payload := JDict [ ("feed_url", JStr (api_url cfg));
                           ("rss_config", JDict (rss_config cfg)) ] in
    io_try
      (response <~ send (Request POST rss_api_url
                           [("Content-Type", "application/json")]
                           (Some payload) (timeout cfg)) ;;
       _ <~ io_lift (check_status response) ;;
       data <~ io_lift (response_json response) ;;
       has_feed <~ io_lift (py_contains "feed" data) ;;
       if negb has_feed then io_raise (Exn Exception "Invalid RSS API response format")
       else io_lift (subscript_key data "feed"))
      (fun e =>
         if isinstance_of e [RequestsConnectionError] then fetch_rss_direct
         else if str_in "Connection" (exn_msg e) || str_in "connection" (lower (exn_msg e))
         then fetch_rss_direct
         else io_raise (Exn Exception ("RSS API request failed: " ++ exn_msg e))).

(** ** The top level *)

Variable clk : clock.

(** The body of the [try] in [execute]. *)
Definition pipeline : io markup :=
  data <~ (if (data_source cfg =? "rss")%string then fetch_rss_data else fetch_api_data) ;;
  mapped_data <~ io_lift (apply_data_mapping (data_mapping cfg) data) ;;
  io_lift (render_template clk (template_type cfg) mapped_data).

(** [execute]: the fragment returned and the requests sent. *)
Definition execute : string * list request :=
  match pipeline [] with
  | (Ok html_output, log) => (to_str html_output, log)
  | (Raise e, log) =>
      (to_str (render_error ("Widget execution failed: " ++ exn_msg e)), log)
  end.

End Pipeline.

(** ** Vocabulary of the properties *)

(** The two requests of RSS acquisition: the POST to the preview service and
    the GET of the direct tier. *)
Definition preview_request (cfg : config) : request :=
  Request POST rss_api_url [("Content-Type", "application/json")]
    (Some (JDict [ ("feed_url", JStr (api_url cfg));
                   ("rss_config", JDict (rss_config cfg)) ]))
    (timeout cfg).

Definition direct_request (cfg : config) : request :=
  Request GET (api_url cfg) [("User-Agent", "E-Paper-Dashboard/1.0 RSS Reader")]
    None (timeout cfg).

Definition is_get (rq : request) : bool :=
  match rq_method rq with GET => true | POST => false end.

(** The values interpolated into a fragment with no escaping, in order. *)
Definition raws (m : markup) : list string :=
  flat_map (fun p => match p with Raw s => [s] | _ => [] end) m.


(** Sample inputs: a configuration for an RSS widget, a network whose preview
    service is down while the feed itself answers, and a network whose
    preview service answers with a feed. *)
Definition sample_rss_config : config :=
  Config "rss" "https://example.com/rss" [] "rss_headlines"
    [("feed_title", "title"); ("items", "items")] [("max_items", JInt 5)] 30.

Definition sample_feed_xml : xml :=
  Element "rss" None
    [Element "channel" None
       [Element "title" (Some "Test RSS Feed") [];
        Element "item" None [Element "title" (Some " Test Article 1 ") []]]].

Definition sample_offline_preview : network :=
  fun rq =>
    match rq_method rq with
    | POST => Raise (Exn RequestsConnectionError "Connection refused")
    | GET => Ok (Response None (Raise (Exn RequestsJSONDecodeError "Expecting value"))
                   (Ok sample_feed_xml))
    end.

Definition sample_online_preview : network :=
  fun rq =>
    Ok (Response None (Ok (JDict [("feed", JDict [("title", JStr "Test RSS Feed")])]))
          (Raise (Exn ParseError "syntax error"))).




(** A number of the data: an [int], a [bool] or a [float]. *)
Definition is_number (v : json) : bool :=
  match as_number v with Some _ => true | None => false end.







(** A character of a printed integer: a decimal digit or the minus sign. *)
Definition is_int_char (c : ascii) : bool := is_decimal c || Ascii.eqb c "-".

(** The value [apply_data_mapping] stores for a path: the resolved value, or
    [None] when the resolver raises. *)
Definition resolved_or_null (api_data : json) (json_path : string) : json :=
  match extract_json_path api_data json_path with
  | Ok value => value
  | Raise _ => JNull
  end.

Definition mapping_step (api_data : json) (mapped_data : dict) (fp : string * string) : dict :=
  dict_set mapped_data (fst fp) (resolved_or_null api_data (snd fp)).



(** The list a segment [name[i]] indexes in [current]: [current] itself when
    [name] is empty, the value of the key [name] of [current] otherwise. *)
Definition indexed_list (current : json) (name : string) (xs : list json) : Prop :=
  (name = EmptyString /\ current = JList xs) \/
  (name <> EmptyString /\ exists d, current = JDict d /\ dict_lookup d name = Some (JList xs)).

(** ** Vocabulary of the further properties *)

From Stdlib Require Import Permutation.

Definition is_dict (v : json) : bool :=
  match v with JDict _ => true | _ => false end.

(** A bare path: not empty, no dot and no bracket. *)
Definition bare_path (path : string) : Prop :=
  path <> EmptyString /\
  char_in "." path = false /\ char_in "[" path = false /\ char_in "]" path = false.

(** The value a segment [name[i]] indexes in [current]: [current] itself when
    [name] is empty, the value of the key [name] of [current] otherwise. *)
Definition indexed_value (current : json) (name : string) (target : json) : Prop :=
  (name = EmptyString /\ current = target) \/
  (name <> EmptyString /\ exists d, current = JDict d /\ dict_lookup d name = Some target).

Definition is_list (v : json) : bool :=
  match v with JList _ => true | _ => false end.

(** The texts interpolated into a fragment through [html.escape], in order. *)
Definition escs (m : markup) : list string :=
  flat_map (fun p => match p with Esc t => [t] | _ => [] end) m.

(** The identifiers of the dispatch table. *)
Definition template_ids : list string :=
  [ "key_value"; "title_subtitle_value"; "metric_grid"; "weather_current";
    "time_display"; "status_list"; "icon_list"; "text_block"; "chart_simple";
    "image_caption"; "rss_headlines"; "rss_summary"; "rss_feed_info" ].

(** The four glyphs of [get_status_icon]. *)
Definition icon_success : string := "‚úÖ".
Definition icon_error : string := "‚ùå".
Definition icon_warning : string := "‚ö†Ô∏è".
Definition icon_other : string := "üîµ".

(** Structural induction on [json] with the elements of a list at hand. *)
Fixpoint json_list_ind (P : json -> Prop)
    (Hnull : P JNull) (Hbool : forall b, P (JBool b)) (Hint : forall z, P (JInt z))
    (Hfloat : forall x, P (JFloat x)) (Hstr : forall s, P (JStr s)) (Hlist : forall l, Forall P l -> P (JList l))
    (Hdict : forall d, P (JDict d)) (v : json) {struct v} : P v :=
  match v with
  | JNull => Hnull
  | JBool b => Hbool b
  | JInt z => Hint z
  | JFloat x => Hfloat x
  | JStr s => Hstr s
  | JList l =>
      Hlist l ((fix go (l : list json) : Forall P l :=
                  match l with
                  | [] => Forall_nil P
                  | x :: l' =>
                      Forall_cons x (json_list_ind P Hnull Hbool Hint Hfloat Hstr Hlist Hdict x)
                        (go l')
                  end) l)
  | JDict d => Hdict d
  end.

(** The request of [fetch_api_data]. *)
Definition api_request (cfg : config) : request :=
  Request GET (api_url cfg)
    (setdefault (api_headers cfg) "User-Agent" "E-Paper-Dashboard/1.0")
    None (timeout cfg).

(** [headers.get(k)]. *)
Fixpoint header_lookup (headers : list (string * string)) (k : string) : option string :=
  match headers with
  | [] => None
  | (k', v) :: rest => if (k' =? k)%string then Some v else header_lookup rest k
  end.

(** The exception [e] is raised inside the [try] of [fetch_rss_data] by the
    POST itself, by [raise_for_status] or by [response.json()]. *)
Definition preview_raises (net : network) (cfg : config) (e : exn) : Prop :=
  net (preview_request cfg) = Raise e \/
  (exists r, net (preview_request cfg) = Ok r /\ raise_for_status r = Some e) \/
  (exists r, net (preview_request cfg) = Ok r /\ raise_for_status r = None /\
             response_json r = Raise e).

(** The six keys of an item built by [fetch_rss_direct]. *)
Definition rss_item_keys : list string :=
  ["title"; "description"; "link"; "pub_date"; "author"; "guid"].

(** * Properties *)

(** ** Sanity checks of the string primitives *)

Example split_path : split "." "a.b[0].c" = ["a"; "b[0]"; "c"].
Proof. reflexivity. Qed.

Example parse_int_samples :
  parse_int "0" = Some 0 /\ parse_int " -12 " = Some (-12) /\
  parse_int "1_000" = Some 1000 /\ parse_int "1__0" = None /\
  parse_int "x" = None /\ parse_int "" = None /\ parse_int "+-1" = None.
Proof. repeat split; reflexivity. Qed.

Example float_ok_samples :
  float_ok "1e5" = true /\ float_ok "-4" = true /\ float_ok "NaN" = true /\
  float_ok "name" = false /\ float_ok "1_" = false /\ float_ok "" = false /\
  float_ok "-" = false /\ float_ok "e5" = false.
Proof. repeat split; reflexivity. Qed.

Example str_of_Z_samples :
  str_of_Z 0 = "0" /\ str_of_Z 42 = "42" /\ str_of_Z (-1005) = "-1005".
Proof. repeat split; reflexivity. Qed.

Example repr_samples :
  repr "a'b" = String dquote ("a'b" ++ str1 dquote) /\ repr "ab" = "'ab'".
Proof. split; reflexivity. Qed.

Example py_str_samples :
  py_str (JList [JStr "a"; JInt 1; JNull]) = "['a', 1, None]" /\
  py_str (JDict [("k", JBool true)]) = "{'k': True}" /\
  py_str (JStr "a") = "a".
Proof. repeat split; reflexivity. Qed.

(** ** Facts about the string primitives *)

Lemma char_in_app (c : ascii) (a b : string) :
  char_in c (a ++ b) = char_in c a || char_in c b.
Proof.
  induction a as [|x a IH]; simpl; [reflexivity|].
  rewrite IH. now rewrite orb_assoc.
Qed.


Lemma forall_chars_weaken (p q : ascii -> bool) (s : string) :
  (forall c, p c = true -> q c = true) ->
  forall_chars p s = true -> forall_chars q s = true.
Proof.
  intros Hpq. induction s as [|c s IH]; simpl; [reflexivity|].
  intros H. apply andb_true_iff in H as [Hc Hs].
  now rewrite (Hpq _ Hc), IH.
Qed.

Lemma char_in_false_of_forall (p : ascii -> bool) (c : ascii) (s : string) :
  p c = false -> forall_chars p s = true -> char_in c s = false.
Proof.
  intros Hc. induction s as [|x s IH]; simpl; [reflexivity|].
  intros H. apply andb_true_iff in H as [Hx Hs].
  rewrite (IH Hs), orb_false_r.
  destruct (Ascii.eqb_spec x c) as [->|]; [congruence | reflexivity].
Qed.

Lemma split_no_sep (sep : ascii) (s : string) :
  char_in sep s = false -> split sep s = [s].
Proof.
  induction s as [|c s IH]; simpl; [reflexivity|].
  intros H. apply orb_false_iff in H as [Hc Hs].
  now rewrite Hc, (IH Hs).
Qed.

Lemma split_once_app (sep : ascii) (a b : string) :
  char_in sep a = false -> split_once sep (a ++ String sep b) = (a, b).
Proof.
  induction a as [|c a IH]; simpl.
  - intros _. now rewrite Ascii.eqb_refl.
  - intros H. apply orb_false_iff in H as [Hc Ha].
    now rewrite Hc, (IH Ha).
Qed.

Lemma rstrip_char_app (c : ascii) (s : string) :
  char_in c s = false -> rstrip_char c (s ++ str1 c) = s.
Proof.
  induction s as [|a s IH]; simpl.
  - intros _. now rewrite Ascii.eqb_refl.
  - intros H. apply orb_false_iff in H as [Ha Hs].
    rewrite (IH Hs), Ha. now rewrite andb_false_r.
Qed.

Lemma lstrip_by_none (p : ascii -> bool) (s : string) :
  forall_chars (fun c => negb (p c)) s = true -> lstrip_by p s = s.
Proof.
  destruct s as [|c s]; simpl; [reflexivity|].
  intros H. apply andb_true_iff in H as [Hc _].
  apply negb_true_iff in Hc. now rewrite Hc.
Qed.

Lemma rstrip_by_none (p : ascii -> bool) (s : string) :
  forall_chars (fun c => negb (p c)) s = true -> rstrip_by p s = s.
Proof.
  induction s as [|c s IH]; simpl; [reflexivity|].
  intros H. apply andb_true_iff in H as [Hc Hs].
  apply negb_true_iff in Hc. rewrite (IH Hs), Hc. now rewrite andb_false_r.
Qed.

(** *** Decimal digits *)

Lemma digit_cases (d : Z) :
  0 <= d < 10 ->
  d = 0 \/ d = 1 \/ d = 2 \/ d = 3 \/ d = 4 \/ d = 5 \/ d = 6 \/ d = 7 \/ d = 8 \/ d = 9.
Proof. lia. Qed.

Lemma digit_char_decimal (d : Z) :
  0 <= d < 10 -> is_decimal (digit_char d) = true /\ digit_val (digit_char d) = d.
Proof.
  intros H. destruct (digit_cases d H) as [->|[->|[->|[->|[->|[->|[->|[->|[->| ->]]]]]]]]];
    split; reflexivity.
Qed.

Lemma digits_of_chars (fuel : nat) :
  forall n acc, 0 <= n ->
    forall_chars is_int_char acc = true ->
    forall_chars is_int_char (digits_of fuel n acc) = true.
Proof.
  induction fuel as [|f IH]; intros n acc Hn Hacc; simpl; [assumption|].
  assert (Hd : forall_chars is_int_char (String (digit_char (n mod 10)) acc) = true).
  { simpl. rewrite Hacc, andb_true_r. unfold is_int_char.
    destruct (digit_char_decimal (n mod 10)) as [-> _]; [|reflexivity].
    apply Z.mod_pos_bound. lia. }
  destruct (n <? 10); [assumption|].
  apply IH; [apply Z.div_pos; lia | assumption].
Qed.

Lemma digits_of_nonempty (fuel : nat) (n : Z) (acc : string) :
  digits_of (S fuel) n acc <> EmptyString.
Proof.
  revert n acc. induction fuel as [|f IH]; intros n acc; simpl.
  - destruct (n <? 10); discriminate.
  - destruct (n <? 10); [discriminate|]. apply (IH (n / 10)).
Qed.

Lemma str_of_Z_chars (z : Z) : forall_chars is_int_char (str_of_Z z) = true.
Proof.
  unfold str_of_Z, str_of_nonneg. destruct (Z.ltb_spec z 0).
  - cbn [forall_chars]. rewrite digits_of_chars by (simpl; lia || reflexivity).
    reflexivity.
  - apply digits_of_chars; [lia | reflexivity].
Qed.

Lemma digits_of_value (fuel : nat) :
  forall n acc, 0 <= n < 10 ^ Z.of_nat (S fuel) ->
    exists k, 0 <= k /\
      forall a seen, digits_value (digits_of (S fuel) n acc) a seen
                     = digits_value acc (a * 10 ^ k + n) true.
Proof.
  induction fuel as [|f IH]; intros n acc Hn;
    assert (Hm : 0 <= n mod 10 < 10) by (apply Z.mod_pos_bound; lia);
    destruct (digit_char_decimal _ Hm) as [Hdec Hval].
  - exists 1. split; [lia|]. intros a seen.
    change (10 ^ Z.of_nat 1) with 10 in Hn.
    cbn [digits_of]. destruct (Z.ltb_spec n 10); [|lia].
    cbn [digits_value]. rewrite Hdec, Hval, Z.mod_small by lia. f_equal. lia.
  - remember (S f) as f' eqn:Ef. cbn [digits_of].
    destruct (Z.ltb_spec n 10) as [Hlt|Hge].
    + exists 1. split; [lia|]. intros a seen. cbn [digits_value].
      rewrite Hdec, Hval, Z.mod_small by lia. f_equal. lia.
    + assert (Hq : 0 <= n / 10 < 10 ^ Z.of_nat f').
      { split; [apply Z.div_pos; lia|].
        apply Z.div_lt_upper_bound; [lia|].
        rewrite Nat2Z.inj_succ, Z.pow_succ_r in Hn by lia. lia. }
      subst f'.
      destruct (IH (n / 10) (String (digit_char (n mod 10)) acc) Hq) as [k [Hk E]].
      exists (k + 1). split; [lia|]. intros a seen.
      rewrite E. cbn [digits_value]. rewrite Hdec, Hval. f_equal.
      rewrite Z.pow_add_r, Z.pow_1_r by lia.
      pose proof (Z.div_mod n 10). lia.
Qed.

Lemma str_of_nonneg_value (n : Z) :
  0 <= n -> digits_value (str_of_nonneg n) 0 false = Some n.
Proof.
  intros Hn. unfold str_of_nonneg.
  destruct (digits_of_value (Z.to_nat (Z.log2 n)) n EmptyString) as [k [_ E]].
  - split; [assumption|].
    destruct (Z.eq_dec n 0) as [->|Hnz]; [reflexivity|].
    rewrite Nat2Z.inj_succ, Z2Nat.id by apply Z.log2_nonneg.
    apply Z.lt_le_trans with (2 ^ Z.succ (Z.log2 n)).
    + apply Z.log2_spec. lia.
    + apply Z.pow_le_mono_l. lia.
  - rewrite E. simpl. reflexivity.
Qed.

(** [int(str(i)) == i] for a negative [i]. *)
Lemma parse_int_str_of_Z_neg (i : Z) : i < 0 -> parse_int (str_of_Z i) = Some i.
Proof.
  intros Hi. unfold parse_int, literal_strip.
  assert (Hs : forall_chars (fun c => negb (is_literal_space c)) (str_of_Z i) = true).
  { apply forall_chars_weaken with (p := is_int_char); [|apply str_of_Z_chars].
    intros c Hc. unfold is_int_char in Hc. apply orb_true_iff in Hc as [Hc|Hc].
    - unfold is_decimal in Hc. unfold is_literal_space.
      apply andb_true_iff in Hc as [H1 H2].
      apply Z.leb_le in H1, H2.
      repeat match goal with
             | |- context [?a <=? ?b] => destruct (Z.leb_spec a b); try lia
             | |- context [?a =? ?b] => destruct (Z.eqb_spec a b); try lia
             end; reflexivity.
    - apply Ascii.eqb_eq in Hc. subst c. reflexivity. }
  rewrite rstrip_by_none, lstrip_by_none by assumption.
  unfold str_of_Z. destruct (Z.ltb_spec i 0); [|lia].
  rewrite str_of_nonneg_value by lia. simpl. f_equal. lia.
Qed.

(** *** Indexing from the end *)

Lemma list_at_negative (xs : list json) (i : Z) :
  - Z.of_nat (List.length xs) <= i < 0 ->
  exists v, list_at xs i = Some v /\
            nth_error (rev xs) (Z.to_nat (- i - 1)) = Some v.
Proof.
  intros Hi. unfold list_at.
  destruct (Z.ltb_spec i 0); [|lia].
  destruct (Z.leb_spec 0 (i + Z.of_nat (List.length xs))); [|lia].
  destruct (Z.ltb_spec (i + Z.of_nat (List.length xs)) (Z.of_nat (List.length xs))); [|lia].
  simpl.
  assert (Hlt : (Z.to_nat (i + Z.of_nat (List.length xs)) < List.length xs)%nat) by lia.
  destruct (nth_error xs (Z.to_nat (i + Z.of_nat (List.length xs)))) as [v|] eqn:E.
  - exists v. split; [reflexivity|].
    rewrite nth_error_rev by lia.
    replace (List.length xs - S (Z.to_nat (- i - 1)))%nat
      with (Z.to_nat (i + Z.of_nat (List.length xs))) by lia.
    destruct (Nat.ltb_spec (Z.to_nat (- i - 1)) (List.length xs)); [assumption | lia].
  - apply nth_error_None in E. lia.
Qed.

(** ** The path resolver *)

Lemma extract_single_key (d : dict) (path : string) (v : json) :
  path <> EmptyString ->
  char_in "." path = false -> char_in "[" path = false -> char_in "]" path = false ->
  dict_lookup d path = Some v ->
  extract_json_path (JDict d) path = Ok v.
Proof.
  intros Hne Hdot Hl Hr Hv. unfold extract_json_path, shortcut.
  destruct (String.eqb_spec path EmptyString); [contradiction|].
  now rewrite Hdot, Hl, Hr, Hv.
Qed.

(** C3.  A bare path that is a key of the data resolves to the value of the
    key even when it reads as a number; when it is not a key and reads as a
    number it resolves to its own text.  So ["42"] against [{}] is the string
    ["42"] and against [{"42": "x"}] it is ["x"]. *)
Theorem bare_numeric_path_prefers_key :
  extract_json_path (JDict []) "42" = Ok (JStr "42") /\
  extract_json_path (JDict [("42", JStr "x")]) "42" = Ok (JStr "x") /\
  (forall (d : dict) (path : string) (v : json),
      path <> EmptyString ->
      char_in "." path = false -> char_in "[" path = false -> char_in "]" path = false ->
      dict_lookup d path = Some v ->
      extract_json_path (JDict d) path = Ok v) /\
  (forall (d : dict) (path : string),
      isdigit path = true -> dict_lookup d path = None ->
      extract_json_path (JDict d) path = Ok (JStr path)).
Proof.
  split; [reflexivity|]. split; [reflexivity|]. split.
  - exact extract_single_key.
  - intros d path Hdig Hnone. unfold extract_json_path, shortcut.
    assert (Hchars : forall_chars is_digit path = true).
    { unfold isdigit in Hdig. now apply andb_true_iff in Hdig. }
    assert (Hne : (path =? EmptyString)%string = false).
    { unfold isdigit in Hdig. apply andb_true_iff in Hdig as [H _].
      now apply negb_true_iff in H. }
    rewrite Hne.
    rewrite (char_in_false_of_forall is_digit "." path), (char_in_false_of_forall is_digit "[" path),
      (char_in_false_of_forall is_digit "]" path) by (reflexivity || assumption).
    simpl. now rewrite Hnone, Hdig.
Qed.

Lemma bare_numeric_path_prefers_key_witness :
  extract_json_path (JDict [("7", JInt 1); ("k", JNull)]) "7" = Ok (JInt 1) /\
  extract_json_path (JDict [("k", JNull)]) "7" = Ok (JStr "7").
Proof.
  split.
  - apply (proj1 (proj2 (proj2 bare_numeric_path_prefers_key))); (discriminate || reflexivity).
  - apply (proj2 (proj2 (proj2 bare_numeric_path_prefers_key))); reflexivity.
Defined.

(** C6.  ["a.b[0].c"] against [{"a": {"b": [{"c": 5}]}}] resolves to 5; against
    [{"a": {"b": []}}] the [IndexError] of the empty list is caught and raised
    again as the resolver's own [ValueError] ("Invalid array index"), the
    path error of the specification. *)
Theorem nested_path_round_trip :
  extract_json_path
    (JDict [("a", JDict [("b", JList [JDict [("c", JInt 5)]])])]) "a.b[0].c"
  = Ok (JInt 5) /\
  extract_json_path (JDict [("a", JDict [("b", JList [])])]) "a.b[0].c"
  = Raise (Exn ValueError "Invalid array index: 0") /\
  subscript_int (JList []) 0 = Raise (Exn IndexError "list index out of range").
Proof. repeat split; reflexivity. Qed.

(** Where a segment [name[i]] indexes: the current value itself when [name]
    is empty, the value of its key [name] otherwise. *)
Lemma indexed_value_ok (current : json) (name : string) (xs : list json) :
  indexed_list current name xs ->
  (if (name =? EmptyString)%string then Ok current else subscript_key current name)
  = Ok (JList xs).
Proof.
  intros [[-> ->]|[Hne [d [-> Hd]]]]; [reflexivity|].
  destruct (String.eqb_spec name EmptyString); [contradiction|].
  cbn [subscript_key]. now rewrite Hd.
Qed.

(** The step of [walk] on a segment [name[i]] with a negative [i]. *)
Lemma walk_negative_index (current : json) (name : string) (xs : list json) (i : Z)
      (v : json) (rest : list string) :
  char_in "[" name = false ->
  indexed_list current name xs ->
  i < 0 -> list_at xs i = Some v ->
  walk ((name ++ "[" ++ str_of_Z i ++ "]") :: rest) current = walk rest v.
Proof.
  intros Hbr Hcur Hi Hv.
  assert (Hidx : forall c, is_int_char c = false -> char_in c (str_of_Z i) = false).
  { intros c Hc. apply (char_in_false_of_forall is_int_char); [assumption | apply str_of_Z_chars]. }
  assert (E0 : ((name ++ "[" ++ str_of_Z i ++ "]") =? EmptyString)%string = false).
  { destruct name; reflexivity. }
  assert (Hl : char_in "[" (name ++ "[" ++ str_of_Z i ++ "]") = true).
  { rewrite char_in_app. simpl. now rewrite orb_true_r. }
  assert (Hr : char_in "]" (name ++ "[" ++ str_of_Z i ++ "]") = true).
  { rewrite !char_in_app. simpl. now rewrite !orb_true_r. }
  cbn [walk]. rewrite E0, Hl, Hr. simpl andb. cbv iota.
  change (name ++ "[" ++ str_of_Z i ++ "]") with (name ++ String "[" (str_of_Z i ++ str1 "]")).
  rewrite split_once_app by assumption.
  rewrite rstrip_char_app by (apply Hidx; reflexivity).
  rewrite (indexed_value_ok _ _ _ Hcur). cbn [bind].
  rewrite parse_int_str_of_Z_neg by assumption.
  cbn [bind subscript_int]. now rewrite Hv.
Qed.

Lemma extract_negative_index (current : json) (name : string) (xs : list json) (i : Z)
      (v : json) :
  char_in "." name = false -> char_in "[" name = false ->
  indexed_list current name xs ->
  i < 0 -> list_at xs i = Some v ->
  extract_json_path current (name ++ "[" ++ str_of_Z i ++ "]") = Ok v.
Proof.
  intros Hdot Hbr Hcur Hi Hv.
  assert (Hidx : forall c, is_int_char c = false -> char_in c (str_of_Z i) = false).
  { intros c Hc. apply (char_in_false_of_forall is_int_char); [assumption | apply str_of_Z_chars]. }
  unfold extract_json_path.
  assert (E0 : ((name ++ "[" ++ str_of_Z i ++ "]") =? EmptyString)%string = false).
  { destruct name; reflexivity. }
  rewrite E0.
  assert (Hl : char_in "[" (name ++ "[" ++ str_of_Z i ++ "]") = true).
  { rewrite char_in_app. simpl. now rewrite orb_true_r. }
  unfold shortcut. rewrite Hl. rewrite andb_false_r. simpl andb. cbv iota.
  rewrite split_no_sep.
  2:{ rewrite !char_in_app, Hdot. simpl. rewrite Hidx by reflexivity. reflexivity. }
  now rewrite (walk_negative_index current name xs i v []).
Qed.

(** C9.  A segment [name[i]] with a negative [i] no smaller than minus the
    length of the list it indexes counts from the end of the list: at any
    place of a path the segment steps, without error, to the element at
    position [-i] from the end - for [-1] the last element - and as a whole
    path it resolves to that element. *)
Theorem negative_index_counts_from_end :
  forall (current : json) (name : string) (xs : list json) (i : Z),
    char_in "[" name = false ->
    indexed_list current name xs ->
    - Z.of_nat (List.length xs) <= i < 0 ->
    exists v,
      nth_error (rev xs) (Z.to_nat (- i - 1)) = Some v /\
      (i = -1 -> v = last xs JNull) /\
      (forall rest,
          walk ((name ++ "[" ++ str_of_Z i ++ "]") :: rest) current = walk rest v) /\
      (char_in "." name = false ->
       extract_json_path current (name ++ "[" ++ str_of_Z i ++ "]") = Ok v).
Proof.
  intros current name xs i Hbr Hcur Hi.
  destruct (list_at_negative xs i Hi) as [v [Hat Hrev]].
  exists v. split; [assumption|]. split; [|split].
  - intros ->. simpl in Hrev.
    destruct xs as [|x xs] using rev_ind.
    + simpl in Hi. lia.
    + rewrite rev_app_distr in Hrev. simpl in Hrev. rewrite last_last. congruence.
  - intros rest. apply walk_negative_index with (xs := xs); (assumption || lia).
  - intros Hdot. apply extract_negative_index with (xs := xs); (assumption || lia).
Qed.

Lemma negative_index_counts_from_end_witness :
  extract_json_path (JDict [("items", JList [JInt 10; JInt 20; JInt 30])]) "items[-1]"
  = Ok (JInt 30) /\
  extract_json_path (JDict [("a", JDict [("b", JList [JStr "x"; JStr "y"])])]) "a.b[-2]"
  = Ok (JStr "x") /\
  extract_json_path (JList [JInt 10; JInt 20; JInt 30]) "[-3]" = Ok (JInt 10).
Proof.
  split; [|split].
  - destruct (negative_index_counts_from_end
                (JDict [("items", JList [JInt 10; JInt 20; JInt 30])]) "items"
                [JInt 10; JInt 20; JInt 30] (-1)) as [v [Hv [_ [_ Hx]]]].
    + reflexivity.
    + right. split; [discriminate|]. eexists. split; reflexivity.
    + simpl. lia.
    + injection Hv as <-. exact (Hx eq_refl).
  - destruct (negative_index_counts_from_end
                (JDict [("b", JList [JStr "x"; JStr "y"])]) "b"
                [JStr "x"; JStr "y"] (-2)) as [v [Hv [_ [Hw _]]]].
    + reflexivity.
    + right. split; [discriminate|]. eexists. split; reflexivity.
    + simpl. lia.
    + injection Hv as <-. exact (Hw []).
  - destruct (negative_index_counts_from_end
                (JList [JInt 10; JInt 20; JInt 30]) EmptyString
                [JInt 10; JInt 20; JInt 30] (-3)) as [v [Hv [_ [_ Hx]]]].
    + reflexivity.
    + left. split; reflexivity.
    + simpl. lia.
    + injection Hv as <-. exact (Hx eq_refl).
Defined.

(** ** The mapping applier *)

Lemma dict_lookup_set (d : dict) (k k' : string) (v : json) :
  dict_lookup (dict_set d k v) k' =
  if (k =? k')%string then Some v else dict_lookup d k'.
Proof.
  induction d as [|[k0 v0] d IH]; simpl.
  - reflexivity.
  - destruct (String.eqb_spec k0 k) as [->|Hk0]; simpl.
    + destruct (String.eqb_spec k k'); reflexivity.
    + rewrite IH. destruct (String.eqb_spec k0 k') as [->|]; [|reflexivity].
      destruct (String.eqb_spec k k'); [congruence | reflexivity].
Qed.

Lemma keys_set_present (d : dict) (k : string) (v : json) :
  In k (keys d) -> keys (dict_set d k v) = keys d.
Proof.
  induction d as [|[k0 v0] d IH]; simpl; [contradiction|].
  intros H. destruct (String.eqb_spec k0 k) as [->|Hk0]; simpl; [reflexivity|].
  destruct H as [H|H]; [contradiction|]. f_equal. now apply IH.
Qed.

Lemma keys_set_absent (d : dict) (k : string) (v : json) :
  ~ In k (keys d) -> keys (dict_set d k v) = (keys d ++ [k])%list.
Proof.
  induction d as [|[k0 v0] d IH]; simpl; [reflexivity|].
  intros H. destruct (String.eqb_spec k0 k) as [->|Hk0]; simpl.
  - exfalso. apply H. now left.
  - f_equal. apply IH. intros Hin. apply H. now right.
Qed.

Lemma keys_set_in (d : dict) (k k' : string) (v : json) :
  In k' (keys (dict_set d k v)) <-> k = k' \/ In k' (keys d).
Proof.
  induction d as [|[k0 v0] d IH]; simpl.
  - tauto.
  - destruct (String.eqb_spec k0 k) as [->|Hk0]; simpl.
    + tauto.
    + rewrite IH. tauto.
Qed.

Lemma apply_data_mapping_fold (m : list (string * string)) (api_data : json) :
  apply_data_mapping m api_data = Ok (fold_left (mapping_step api_data) m []).
Proof.
  unfold apply_data_mapping. f_equal.
  generalize (@nil (string * json)) as acc.
  induction m as [|[f p] m IH]; intros acc; simpl; [reflexivity|].
  rewrite IH. unfold mapping_step, resolved_or_null. simpl.
  destruct (extract_json_path api_data p); reflexivity.
Qed.

Lemma mapping_fold_keys_in (api_data : json) (m : list (string * string)) :
  forall acc k,
    In k (keys (fold_left (mapping_step api_data) m acc)) <-> In k (keys acc) \/ In k (keys_of_mapping m).
Proof.
  induction m as [|[f p] m IH]; intros acc k; simpl.
  - tauto.
  - rewrite IH. unfold mapping_step at 1, keys_of_mapping. simpl.
    rewrite keys_set_in. tauto.
Qed.

Lemma mapping_fold_keys (api_data : json) (m : list (string * string)) :
  forall acc,
    NoDup (keys_of_mapping m) -> (forall k, In k (keys acc) -> ~ In k (keys_of_mapping m)) ->
    keys (fold_left (mapping_step api_data) m acc) = (keys acc ++ keys_of_mapping m)%list.
Proof.
  induction m as [|[f p] m IH]; intros acc Hnd Hdis; simpl.
  - now rewrite app_nil_r.
  - inversion Hnd as [|? ? Hf Hnd']; subst.
    rewrite IH; [| assumption |].
    + unfold mapping_step. simpl. rewrite keys_set_absent.
      * now rewrite <- app_assoc.
      * intros Hin. apply (Hdis _ Hin). now left.
    + intros k Hk. unfold mapping_step in Hk. simpl in Hk.
      apply keys_set_in in Hk as [<-|Hk]; [assumption|].
      intros Hin. apply (Hdis _ Hk). now right.
Qed.

Lemma mapping_fold_lookup_other (api_data : json) (m : list (string * string)) :
  forall acc k,
    ~ In k (keys_of_mapping m) ->
    dict_lookup (fold_left (mapping_step api_data) m acc) k = dict_lookup acc k.
Proof.
  induction m as [|[f p] m IH]; intros acc k Hk; simpl; [reflexivity|].
  rewrite IH by (intros H; apply Hk; now right).
  unfold mapping_step. simpl. rewrite dict_lookup_set.
  destruct (String.eqb_spec f k) as [->|]; [|reflexivity].
  exfalso. apply Hk. now left.
Qed.

Lemma mapping_fold_lookup (api_data : json) (m : list (string * string)) :
  forall acc field path,
    NoDup (keys_of_mapping m) -> In (field, path) m ->
    dict_lookup (fold_left (mapping_step api_data) m acc) field
    = Some (resolved_or_null api_data path).
Proof.
  induction m as [|[f p] m IH]; intros acc field path Hnd Hin; simpl; [contradiction|].
  inversion Hnd as [|? ? Hf Hnd']; subst.
  destruct Hin as [Heq|Hin].
  - injection Heq as -> ->.
    rewrite mapping_fold_lookup_other by assumption.
    unfold mapping_step. simpl. rewrite dict_lookup_set. now rewrite String.eqb_refl.
  - now apply IH.
Qed.

(** C2.  For a mapping table with distinct field names and raw data of any
    shape, [apply_data_mapping] returns (it does not raise); the result has
    the field names of the table as its keys, in the same order; a field
    whose path fails to resolve is [None], and one whose path resolves holds
    the resolved value. *)
Theorem apply_data_mapping_isolates_failures :
  forall (data_mapping : list (string * string)) (api_data : json),
    NoDup (keys_of_mapping data_mapping) ->
    exists mapped_data,
      apply_data_mapping data_mapping api_data = Ok mapped_data /\
      keys mapped_data = keys_of_mapping data_mapping /\
      (forall field, In field (keys mapped_data) <-> In field (keys_of_mapping data_mapping)) /\
      (forall field path e,
          In (field, path) data_mapping ->
          extract_json_path api_data path = Raise e ->
          dict_lookup mapped_data field = Some JNull) /\
      (forall field path value,
          In (field, path) data_mapping ->
          extract_json_path api_data path = Ok value ->
          dict_lookup mapped_data field = Some value).
Proof.
  intros m api_data Hnd.
  exists (fold_left (mapping_step api_data) m []).
  split; [apply apply_data_mapping_fold|].
  assert (Hk : keys (fold_left (mapping_step api_data) m []) = keys_of_mapping m).
  { unfold keys_of_mapping. rewrite mapping_fold_keys; [reflexivity | assumption |].
    intros k []. }
  split; [assumption|]. split; [now rewrite Hk|]. split.
  - intros field path e Hin He.
    rewrite (mapping_fold_lookup api_data m [] field path Hnd Hin).
    unfold resolved_or_null. now rewrite He.
  - intros field path value Hin Hv.
    rewrite (mapping_fold_lookup api_data m [] field path Hnd Hin).
    unfold resolved_or_null. now rewrite Hv.
Qed.

Lemma apply_data_mapping_isolates_failures_witness :
  exists mapped_data,
    apply_data_mapping [("a", "x.y"); ("b", "k")] (JDict [("k", JInt 1)]) = Ok mapped_data /\
    keys mapped_data = ["a"; "b"] /\
    dict_lookup mapped_data "a" = Some JNull /\
    dict_lookup mapped_data "b" = Some (JInt 1).
Proof.
  destruct (apply_data_mapping_isolates_failures
              [("a", "x.y"); ("b", "k")] (JDict [("k", JInt 1)]))
    as [md [H1 [H2 [_ [H3 H4]]]]].
  - repeat constructor; simpl; intuition discriminate.
  - exists md. split; [exact H1|]. split; [exact H2|]. split.
    + apply (H3 "a" "x.y" (Exn KeyError "'x'")); [now left | reflexivity].
    + apply (H4 "b" "k"); [right; now left | reflexivity].
Defined.

(** ** The top level *)






(** ** Rendering and the clock *)

(** C4, as stated, fails: [time_display] fills a missing [time] with the
    current clock reading, so the same template identifier and the same
    (empty) mapped data give different fragments one second apart. *)
Lemma time_display_follows_clock :
  exists a b,
    render_template (Clock "10:00:00" "2024-01-15") "time_display" [] = Ok a /\
    render_template (Clock "10:00:01" "2024-01-15") "time_display" [] = Ok b /\
    (to_str a =? to_str b)%string = false.
Proof. eexists. eexists. split; [reflexivity|]. split; [reflexivity|]. vm_compute. reflexivity. Qed.

(** C4, amended.  [render_template] is a function of the template
    identifier, the mapped data and the clock reading, and the clock matters
    only to [time_display] with a [time] or a [date] field absent: for every
    other template, and for [time_display] over data that carry both fields,
    the fragment is the same whatever the clock says. *)
Theorem render_template_clock_independent :
  forall (clk1 clk2 : clock) (template_type : string) (data : dict),
    template_type <> "time_display" \/
    (dict_lookup data "time" <> None /\ dict_lookup data "date" <> None) ->
    render_template clk1 template_type data = render_template clk2 template_type data.
Proof.
  intros clk1 clk2 tid data H. unfold render_template. cbn [assoc template_map].
  repeat match goal with
         | |- context [(?k =? tid)%string] =>
             destruct (String.eqb_spec k tid) as [<-|?]; [try reflexivity|]
         end; [|reflexivity].
  destruct H as [H|[Ht Hd]]; [congruence|].
  unfold render_time_display, dict_get.
  destruct (dict_lookup data "time"); [|congruence].
  destruct (dict_lookup data "date"); [|congruence].
  reflexivity.
Qed.

Lemma render_template_clock_independent_witness :
  render_template (Clock "10:00:00" "2024-01-15") "time_display"
    [("time", JStr "12:30:00"); ("date", JNull)]
  = render_template (Clock "23:59:59" "1999-12-31") "time_display"
    [("time", JStr "12:30:00"); ("date", JNull)] /\
  render_template (Clock "10:00:00" "2024-01-15") "key_value" []
  = render_template (Clock "23:59:59" "1999-12-31") "key_value" [].
Proof.
  split.
  - apply render_template_clock_independent. right. split; discriminate.
  - apply render_template_clock_independent. left. discriminate.
Defined.

(** ** RSS acquisition *)

(** C7.  When the POST to the preview service raises a connection error,
    [fetch_rss_data] returns what the direct tier returns and the requests
    sent are the POST followed by exactly one GET, to the feed URL of the
    configuration.  When the preview service answers with a JSON object that
    has a [feed] key, the value of [feed] is returned and the POST is the
    only request sent. *)
Theorem rss_fallback_only_on_connection_failure :
  forall (net : network) (cfg : config),
    nonempty (api_url cfg) = true ->
    (forall e,
        net (preview_request cfg) = Raise e ->
        isinstance_of e [RequestsConnectionError] = true ->
        fetch_rss_data net cfg [] =
          (fst (fetch_rss_direct net cfg []), [preview_request cfg; direct_request cfg]) /\
        filter is_get (snd (fetch_rss_data net cfg [])) = [direct_request cfg] /\
        rq_url (direct_request cfg) = api_url cfg) /\
    (forall r d feed,
        net (preview_request cfg) = Ok r ->
        raise_for_status r = None ->
        response_json r = Ok (JDict d) ->
        dict_lookup d "feed" = Some feed ->
        fetch_rss_data net cfg [] = (Ok feed, [preview_request cfg]) /\
        filter is_get (snd (fetch_rss_data net cfg [])) = []).
Proof.
  intros net cfg Hurl.
  assert (Hdirect : forall log,
             snd (fetch_rss_direct net cfg log) = (log ++ [direct_request cfg])%list /\
             fst (fetch_rss_direct net cfg log) = fst (fetch_rss_direct net cfg [])).
  { intros log. unfold fetch_rss_direct, io_try, io_bind, send, io_lift, io_raise, io_ret.
    fold (direct_request cfg).
    destruct (net (direct_request cfg)) as [r|e]; simpl.
    - destruct (check_status r) as [[]|e]; simpl.
      + destruct (content_xml r) as [root|e]; simpl.
        * destruct (xml_find root "channel"); simpl.
          -- destruct (slice_to _ _); simpl; [split; reflexivity|].
             repeat match goal with |- context [if ?b then _ else _] => destruct b end;
               split; reflexivity.
          -- split; reflexivity.
        * repeat match goal with |- context [if ?b then _ else _] => destruct b end;
            split; reflexivity.
      + repeat match goal with |- context [if ?b then _ else _] => destruct b end;
          split; reflexivity.
    - repeat match goal with |- context [if ?b then _ else _] => destruct b end;
        split; reflexivity. }
  split.
  - intros e Hnet Hconn.
    assert (E : fetch_rss_data net cfg [] =
                (fst (fetch_rss_direct net cfg []), [preview_request cfg; direct_request cfg])).
    { unfold fetch_rss_data. rewrite Hurl. cbn [negb].
      unfold io_try, io_bind, send. fold (preview_request cfg).
      rewrite Hnet, Hconn. cbn [app].
      destruct (Hdirect [preview_request cfg]) as [H1 H2].
      destruct (fetch_rss_direct net cfg [preview_request cfg]) as [r log].
      simpl in H1, H2. now subst. }
    split; [exact E|]. split; [rewrite E; reflexivity | reflexivity].
  - intros r d feed Hnet Hst Hjs Hfeed.
    assert (E : fetch_rss_data net cfg [] = (Ok feed, [preview_request cfg])).
    { unfold fetch_rss_data. rewrite Hurl. cbn [negb].
      unfold io_try, io_bind, send, io_lift, check_status. fold (preview_request cfg).
      rewrite Hnet, Hst, Hjs. simpl. now rewrite Hfeed. }
    split; [exact E | rewrite E; reflexivity].
Qed.

Lemma rss_fallback_only_on_connection_failure_witness :
  fetch_rss_data sample_offline_preview sample_rss_config [] =
    (fst (fetch_rss_direct sample_offline_preview sample_rss_config []),
     [preview_request sample_rss_config; direct_request sample_rss_config]) /\
  fetch_rss_data sample_online_preview sample_rss_config [] =
    (Ok (JDict [("title", JStr "Test RSS Feed")]), [preview_request sample_rss_config]).
Proof.
  split.
  - apply (proj1 (rss_fallback_only_on_connection_failure
                    sample_offline_preview sample_rss_config eq_refl))
      with (e := Exn RequestsConnectionError "Connection refused"); reflexivity.
  - apply (proj2 (rss_fallback_only_on_connection_failure
                    sample_online_preview sample_rss_config eq_refl))
      with (r := Response None (Ok (JDict [("feed", JDict [("title", JStr "Test RSS Feed")])]))
                   (Raise (Exn ParseError "syntax error")))
           (d := [("feed", JDict [("title", JStr "Test RSS Feed")])]); reflexivity.
Defined.

Example fetch_rss_direct_sample :
  fst (fetch_rss_direct sample_offline_preview sample_rss_config []) =
  Ok (JDict [("title", JStr "Test RSS Feed"); ("description", JStr EmptyString);
             ("link", JStr EmptyString);
             ("items", JList [JDict [("title", JStr "Test Article 1");
                                     ("description", JStr EmptyString);
                                     ("link", JStr EmptyString);
                                     ("pub_date", JStr EmptyString);
                                     ("author", JStr EmptyString);
                                     ("guid", JStr EmptyString)]])]).
Proof. reflexivity. Qed.

(** ** Placeholders of the list renderers *)

Lemma starts_with_app (n a b : string) :
  starts_with n a = true -> starts_with n (a ++ b) = true.
Proof.
  revert a. induction n as [|x n IH]; intros a; simpl; [reflexivity|].
  destruct a as [|y a]; simpl; [discriminate|].
  intros H. apply andb_true_iff in H as [-> H]. now apply IH.
Qed.

Lemma str_in_app_l (n a b : string) : str_in n a = true -> str_in n (a ++ b) = true.
Proof.
  induction a as [|x a IH].
  - simpl. rewrite orb_false_r. destruct n; [|discriminate]. intros _.
    destruct b; reflexivity.
  - intros H. cbn [str_in] in H. apply orb_true_iff in H as [H|H].
    + change (String x a ++ b) with (String x (a ++ b)). cbn [str_in].
      change (String x (a ++ b)) with (String x a ++ b).
      now rewrite (starts_with_app _ _ b H).
    + change (String x a ++ b) with (String x (a ++ b)). cbn [str_in].
      rewrite (IH H). apply orb_true_r.
Qed.

Lemma str_in_app_r (n a b : string) : str_in n b = true -> str_in n (a ++ b) = true.
Proof.
  intros H. induction a as [|x a IH]; [exact H|].
  change (String x a ++ b) with (String x (a ++ b)). cbn [str_in].
  rewrite IH. apply orb_true_r.
Qed.

Lemma render_headline_ok (item : json) : is_ok (render_headline item) = true.
Proof.
  destruct item; try reflexivity.
  unfold render_headline.
  destruct (nonempty (safe_str (dict_get d "link" (JStr EmptyString)))); reflexivity.
Qed.

Lemma render_items_nil_iff (body : json -> result markup) (items : list json) :
  render_items body items = [] <-> Forall (fun item => is_ok (body item) = false) items.
Proof.
  unfold render_items. induction items as [|x items IH]; simpl.
  - split; [constructor | reflexivity].
  - destruct (body x) eqn:E; simpl.
    + split; [discriminate|]. intros H. inversion H; subst. rewrite E in *. discriminate.
    + rewrite IH. split.
      * intros H. constructor; [now rewrite E | assumption].
      * intros H. now inversion H.
Qed.

(** C10.  When [items] is a list none of whose first ten elements renders -
    the empty list in particular, and no other list, since every element
    renders - the [rss_headlines] fragment is the feed title followed by the
    single line "No headlines available": not an empty list body and not an
    error fragment. *)
Theorem rss_headlines_placeholder :
  forall (clk : clock) (data : dict) (l : list json),
    dict_get data "items" (JList []) = JList l ->
    Forall (fun item => is_ok (render_headline item) = false) (firstn 10 l) ->
    exists fragment,
      render_template clk "rss_headlines" data = Ok fragment /\
      to_str fragment =
        html "
        <div class=`widget-content`>
            <div class=`title mb-md`>"
        ++ html_escape (safe_str (dict_get data "feed_title" (JStr "RSS Feed")))
        ++ html "</div>
            <div class=`metrics-grid`>
                <div class=`description`>No headlines available</div>
            </div>
        </div>
        " /\
      str_in "No headlines available" (to_str fragment) = true /\
      l = [].
Proof.
  intros clk data l Hitems Hnone.
  apply render_items_nil_iff in Hnone.
  eexists. split.
  { unfold render_template. cbn [assoc template_map]. simpl String.eqb. cbv iota.
    unfold render_rss_headlines. rewrite Hitems, Hnone. reflexivity. }
  split; [reflexivity|]. split.
  - cbn [to_str part_text app join_markup List.concat].
    apply str_in_app_r, str_in_app_r, str_in_app_r, str_in_app_l. vm_compute. reflexivity.
  - destruct l as [|x l]; [reflexivity|]. exfalso.
    apply render_items_nil_iff in Hnone. simpl in Hnone. inversion Hnone as [|? ? Hx _]; subst.
    now rewrite render_headline_ok in Hx.
Qed.

Lemma rss_headlines_placeholder_witness :
  exists fragment,
    render_template (Clock "10:00:00" "2024-01-15") "rss_headlines"
      [("feed_title", JStr "Feed"); ("items", JList [])] = Ok fragment /\
    str_in "No headlines available" (to_str fragment) = true.
Proof.
  destruct (rss_headlines_placeholder (Clock "10:00:00" "2024-01-15")
              [("feed_title", JStr "Feed"); ("items", JList [])] [] eq_refl (Forall_nil _))
    as [fragment [H1 [_ [H2 _]]]].
  exists fragment. split; assumption.
Defined.

(** ** The chart statistics *)





(** *** The order of numbers *)











Lemma as_number_int (v : json) (n : Z) : as_int v = Some n -> as_number v = Some (NInt n).
Proof. destruct v; simpl; congruence. Qed.









(** ** Escaping of interpolated text *)






















(** *** The chart: what reaches the fragment unescaped is a number *)










Lemma length_append (a b : string) :
  String.length (a ++ b) = (String.length a + String.length b)%nat.
Proof. induction a as [|c a IH]; simpl; [reflexivity | now rewrite IH]. Qed.











(** A list of strings in [data_points] never reaches the fragment: [min] and
    [max] accept it, [sum] does not. *)
Example chart_simple_rejects_text :
  render_template (Clock "10:00:00" "2024-01-15") "chart_simple"
    [("data_points", JList [JStr "<script>"; JStr "a"])]
  = Raise (Exn TypeError "unsupported operand type(s) for +: 'int' and 'str'").
Proof. reflexivity. Qed.

(** *** Accuracy of the mean *)

Lemma div_half_even_error (n d : Z) :
  0 < d -> 2 * Z.abs (div_half_even n d * d - n) <= d.
Proof.
  intros Hd. unfold div_half_even.
  pose proof (Z.div_mod n d ltac:(lia)) as E.
  pose proof (Z.mod_pos_bound n d Hd) as Hr.
  destruct (Z.ltb_spec (2 * (n mod d)) d); [nia|].
  destruct (Z.ltb_spec d (2 * (n mod d))); [nia|].
  destruct (Z.even (n / d)); nia.
Qed.

(** The mean shown by [chart_simple] for a total [a] over [b] items is
    within half a tenth, plus half a unit in the last place of the double,
    of the exact quotient.  With [e] the exponent of the double:
    [|t / 10 - |a| / b| <= 1/20 + 2^e / 2]. *)
Lemma mean_one_decimal_accuracy (a b : Z) (x : float64) :
  0 < b -> int_true_div a b = Ok x ->
  (f_exp x < 0 ->
   2 * Z.abs (tenths x * b * 2 ^ (- f_exp x) - 10 * Z.abs a * 2 ^ (- f_exp x))
   <= b * 2 ^ (- f_exp x) + 10 * b) /\
  (0 <= f_exp x ->
   2 * Z.abs (tenths x * b - 10 * Z.abs a) <= 10 * b * 2 ^ f_exp x).
Proof.
  intros Hb. unfold int_true_div.
  destruct (Z.eqb_spec a 0) as [->|Ha].
  - intros H. injection H as <-. unfold tenths. cbn [f_exp f_man].
    split; intros He; [lia|]. change (0 <=? 0) with true. cbv iota.
    change (2 ^ 0) with 1. lia.
  - set (n := Z.abs a).
    set (k := Z.log2 n - Z.log2 b).
    set (l := if (if 0 <=? k then b * 2 ^ k <=? n else b <=? n * 2 ^ (- k)) then k else k - 1).
    set (e := Z.max (l - 52) (-1074)).
    destruct (Z.leb_spec 0 e) as [He|He].
    + destruct ((971 <=? e) && (2 ^ 1024 <=? div_half_even n (b * 2 ^ e) * 2 ^ e));
        [discriminate|].
      intros H. injection H as <-. unfold tenths. cbn [f_exp f_man].
      split; [lia|]. intros _.
      destruct (Z.leb_spec 0 e); [|lia].
      assert (Hp : 0 < 2 ^ e) by (apply Z.pow_pos_nonneg; lia).
      pose proof (div_half_even_error n (b * 2 ^ e) ltac:(nia)) as Herr.
      nia.
    + destruct ((971 <=? e) && (2 ^ 1024 <=? div_half_even (n * 2 ^ (- e)) b * 2 ^ e));
        [discriminate|].
      intros H. injection H as <-. unfold tenths. cbn [f_exp f_man].
      split; [|lia]. intros _.
      destruct (Z.leb_spec 0 e); [lia|].
      assert (Hp : 0 < 2 ^ (- e)) by (apply Z.pow_pos_nonneg; lia).
      pose proof (div_half_even_error (n * 2 ^ (- e)) b Hb) as H1.
      pose proof (div_half_even_error (10 * div_half_even (n * 2 ^ (- e)) b) (2 ^ (- e)) Hp) as H2.
      nia.
Qed.

(** * Further properties of the pipeline *)

(** ** The path resolver: bare paths *)

Lemma float_ok_nonempty (path : string) : float_ok path = true -> path <> EmptyString.
Proof. intros H ->. discriminate H. Qed.

Lemma isdigit_nonempty (path : string) : isdigit path = true -> path <> EmptyString.
Proof. intros H ->. discriminate H. Qed.

Lemma eqb_empty_false (s : string) : s <> EmptyString -> (s =? EmptyString)%string = false.
Proof. intros H. now destruct (String.eqb_spec s EmptyString). Qed.

(** X1.  A bare path that does not read as a number: a missing key of a dict is
    [None], with no error, and data that are not a dict raise the resolver's
    [ValueError]. *)
Theorem bare_path_missing_key :
  forall (data : json) (path : string),
    bare_path path -> isdigit path = false -> float_ok path = false ->
    (forall d, data = JDict d -> dict_lookup d path = None ->
               extract_json_path data path = Ok JNull) /\
    (is_dict data = false ->
     extract_json_path data path
     = Raise (Exn ValueError ("Cannot access '" ++ path ++ "' on non-dict type"))).
Proof.
  intros data path [Hne [Hdot [Hl Hr]]] Hdig Hfl. split.
  - intros d -> Hnone. unfold extract_json_path, shortcut.
    rewrite (eqb_empty_false _ Hne), Hdot, Hl, Hr, Hnone, Hdig, Hfl.
    unfold dict_get. now rewrite Hnone.
  - intros Hnd. unfold extract_json_path, shortcut.
    rewrite (eqb_empty_false _ Hne), Hdot, Hl, Hr, Hdig, Hfl.
    rewrite split_no_sep by assumption.
    destruct data; try discriminate Hnd; cbn [andb negb walk];
      rewrite (eqb_empty_false _ Hne), Hl; reflexivity.
Qed.

Lemma bare_path_missing_key_witness :
  extract_json_path (JDict [("temp", JInt 21)]) "humidity" = Ok JNull /\
  extract_json_path (JList [JInt 1]) "humidity"
  = Raise (Exn ValueError "Cannot access 'humidity' on non-dict type").
Proof.
  assert (Hb : bare_path "humidity") by (repeat split; (discriminate || reflexivity)).
  split.
  - apply (proj1 (bare_path_missing_key (JDict [("temp", JInt 21)]) "humidity"
                    Hb eq_refl eq_refl) [("temp", JInt 21)]); reflexivity.
  - apply (proj2 (bare_path_missing_key (JList [JInt 1]) "humidity" Hb eq_refl eq_refl)).
    reflexivity.
Defined.

(** X2.  A bare path that reads as a number to [str.isdigit] or to [float] - so
    also ["-5"], ["1e3"], ["inf"] and ["nan"] - and that is not a key of the
    data resolves to its own text, whatever the shape of the data. *)
Theorem numeric_bare_path_is_literal :
  forall (data : json) (path : string),
    char_in "." path = false -> char_in "[" path = false -> char_in "]" path = false ->
    isdigit path = true \/ float_ok path = true ->
    (forall d, data = JDict d -> dict_lookup d path = None) ->
    extract_json_path data path = Ok (JStr path).
Proof.
  intros data path Hdot Hl Hr Hnum Hkey.
  assert (Hne : path <> EmptyString).
  { destruct Hnum; [now apply isdigit_nonempty | now apply float_ok_nonempty]. }
  unfold extract_json_path, shortcut.
  rewrite (eqb_empty_false _ Hne), Hdot, Hl, Hr. cbn [negb andb].
  assert (Hlook : match data with JDict d => dict_lookup d path | _ => None end = None).
  { destruct data; try reflexivity. now apply Hkey. }
  rewrite Hlook.
  destruct (isdigit path); [reflexivity|].
  destruct Hnum as [H|H]; [discriminate | now rewrite H].
Qed.

Lemma numeric_bare_path_is_literal_witness :
  extract_json_path (JDict [("temp", JInt 21)]) "nan" = Ok (JStr "nan") /\
  extract_json_path (JList []) "-5" = Ok (JStr "-5").
Proof.
  split.
  - apply numeric_bare_path_is_literal; try reflexivity; [now right|].
    intros d H. injection H as <-. reflexivity.
  - apply numeric_bare_path_is_literal; try reflexivity; [now right|].
    intros d H. discriminate H.
Defined.

(** ** The path resolver: dotted paths *)

Lemma split_not_nil (sep : ascii) (s : string) : split sep s <> [].
Proof.
  induction s as [|c s IH]; simpl; [discriminate|].
  destruct (Ascii.eqb c sep); [discriminate|].
  destruct (split sep s); [contradiction | discriminate].
Qed.

Lemma split_app (sep : ascii) (a b : string) :
  split sep (a ++ String sep b) = (split sep a ++ split sep b)%list.
Proof.
  induction a as [|c a IH]; simpl.
  - now rewrite Ascii.eqb_refl.
  - destruct (Ascii.eqb c sep); [now rewrite IH|].
    rewrite IH. pose proof (split_not_nil sep a) as Hn.
    destruct (split sep a); [contradiction | reflexivity].
Qed.

Lemma walk_app (l1 l2 : list string) :
  forall current, walk (l1 ++ l2) current = bind (walk l1 current) (walk l2).
Proof.
  induction l1 as [|part l1 IH]; intros current; [reflexivity|].
  cbn [app walk].
  destruct (part =? EmptyString)%string; [apply IH|].
  destruct (char_in "[" part && char_in "]" part).
  - destruct (split_once "[" part) as [array_name bracket_part].
    destruct (if (array_name =? EmptyString)%string then Ok current
              else subscript_key current array_name) as [current1|e]; [|reflexivity].
    cbn [bind].
    destruct (parse_int (rstrip_char "]" bracket_part)) as [index|]; [|reflexivity].
    destruct (subscript_int current1 index) as [v|e]; [apply IH|].
    destruct (isinstance_of e [ValueError; IndexError; TypeError]); reflexivity.
  - destruct current; try reflexivity.
    destruct (dict_lookup d part); [apply IH | reflexivity].
Qed.

Lemma dotted_path_composes_aux (data : json) (p q : string) :
  extract_json_path data (p ++ "." ++ q)
  = bind (walk (split "." p) data) (walk (split "." q)).
Proof.
  unfold extract_json_path.
  assert (Hne : ((p ++ "." ++ q) =? EmptyString)%string = false) by (destruct p; reflexivity).
  rewrite Hne. unfold shortcut.
  assert (Hdot : char_in "." (p ++ "." ++ q) = true).
  { rewrite char_in_app. simpl. apply orb_true_r. }
  rewrite Hdot. cbn [negb andb].
  change (p ++ "." ++ q) with (p ++ String "." q).
  now rewrite split_app, walk_app.
Qed.

(** X3.  Resolving [p.q] resolves the segments of [p] against the data and then
    the segments of [q] against the result; the first failure is the failure
    of the path.  The shortcuts of a bare path play no part: inside a dotted
    path a segment that reads as a number is a key like any other. *)
Theorem dotted_path_composes :
  forall (data : json) (p q : string),
    extract_json_path data (p ++ "." ++ q)
    = bind (walk (split "." p) data) (walk (split "." q)).
Proof. exact dotted_path_composes_aux. Qed.

Example decimal_point_path_is_not_a_literal :
  extract_json_path (JDict []) "4.2" = Raise (Exn KeyError "'4'") /\
  extract_json_path (JDict [("4", JDict [("2", JStr "x")])]) "4.2" = Ok (JStr "x").
Proof. split; reflexivity. Qed.

Lemma walk_skip_empty (parts : list string) :
  forall current,
    walk (filter (fun part => negb (part =? EmptyString)%string) parts) current
    = walk parts current.
Proof.
  induction parts as [|part parts IH]; intros current; [reflexivity|].
  cbn [filter]. destruct (String.eqb_spec part EmptyString) as [->|Hne]; cbn [negb].
  - cbn [walk]. simpl String.eqb. apply IH.
  - cbn [walk]. rewrite (eqb_empty_false _ Hne).
    destruct (char_in "[" part && char_in "]" part).
    + destruct (split_once "[" part) as [array_name bracket_part].
      destruct (if (array_name =? EmptyString)%string then Ok current
                else subscript_key current array_name) as [current1|e]; [|reflexivity].
      cbn [bind].
      destruct (parse_int (rstrip_char "]" bracket_part)) as [index|]; [|reflexivity].
      destruct (subscript_int current1 index) as [v|e]; [apply IH|].
      destruct (isinstance_of e [ValueError; IndexError; TypeError]); reflexivity.
    + destruct current; try reflexivity.
      destruct (dict_lookup d part); [apply IH | reflexivity].
Qed.

(** X4.  Empty segments are skipped: a doubled dot, or a dot at the end of a
    dotted path, changes nothing, and a path made of dots alone is the data. *)
Theorem empty_segments_are_skipped :
  forall (data : json) (p q : string),
    (forall parts,
        walk (filter (fun part => negb (part =? EmptyString)%string) parts) data
        = walk parts data) /\
    extract_json_path data (p ++ ".." ++ q) = extract_json_path data (p ++ "." ++ q) /\
    extract_json_path data (p ++ "." ++ q ++ ".") = extract_json_path data (p ++ "." ++ q) /\
    extract_json_path data "." = Ok data /\
    extract_json_path data ".." = Ok data.
Proof.
  intros data p q. split; [intros parts; apply walk_skip_empty|].
  split; [|split; [|split; reflexivity]].
  - change (p ++ ".." ++ q) with (p ++ "." ++ (String "." q)).
    rewrite !dotted_path_composes_aux.
    change (String "." q) with (EmptyString ++ String "." q). rewrite split_app.
    destruct (walk (split "." p) data); reflexivity.
  - rewrite !dotted_path_composes_aux.
    change (q ++ ".") with (q ++ String "." EmptyString). rewrite split_app.
    destruct (walk (split "." p) data) as [v|]; [|reflexivity]. cbn [bind].
    rewrite walk_app. destruct (walk (split "." q) v); reflexivity.
Qed.

(** ** The path resolver: index segments *)

Lemma digits_of_head (fuel : nat) :
  forall n acc, 0 <= n ->
    exists c r, digits_of (S fuel) n acc = String c r /\ is_decimal c = true.
Proof.
  induction fuel as [|f IH]; intros n acc Hn;
    assert (Hm : 0 <= n mod 10 < 10) by (apply Z.mod_pos_bound; lia);
    destruct (digit_char_decimal _ Hm) as [Hdec _].
  - cbn [digits_of]. destruct (n <? 10); eauto.
  - remember (S f) as f'. cbn [digits_of]. destruct (n <? 10); [eauto|].
    subst f'. apply IH. apply Z.div_pos; lia.
Qed.

(** [int(str(i)) == i]. *)
Lemma parse_int_str_of_Z (i : Z) : parse_int (str_of_Z i) = Some i.
Proof.
  destruct (Z.ltb_spec i 0) as [Hneg|Hpos]; [now apply parse_int_str_of_Z_neg|].
  unfold parse_int, literal_strip.
  assert (Hs : forall_chars (fun c => negb (is_literal_space c)) (str_of_Z i) = true).
  { apply forall_chars_weaken with (p := is_int_char); [|apply str_of_Z_chars].
    intros c Hc. unfold is_int_char in Hc. apply orb_true_iff in Hc as [Hc|Hc].
    - destruct c as [[] [] [] [] [] [] [] []];
        first [ vm_compute in Hc; discriminate Hc | reflexivity ].
    - apply Ascii.eqb_eq in Hc. subst c. reflexivity. }
  rewrite rstrip_by_none, lstrip_by_none by assumption.
  unfold str_of_Z. destruct (Z.ltb_spec i 0); [lia|].
  unfold str_of_nonneg.
  destruct (digits_of_head (Z.to_nat (Z.log2 i)) i EmptyString Hpos) as [c [r [E Hc]]].
  rewrite E. transitivity (digits_value (String c r) 0 false).
  - clear E. destruct c as [[] [] [] [] [] [] [] []];
      first [ vm_compute in Hc; discriminate Hc | reflexivity ].
  - rewrite <- E. now apply str_of_nonneg_value.
Qed.

Lemma indexed_value_get (current : json) (name : string) (target : json) :
  indexed_value current name target ->
  (if (name =? EmptyString)%string then Ok current else subscript_key current name)
  = Ok target.
Proof.
  intros [[-> ->]|[Hne [d [-> Hd]]]]; [reflexivity|].
  rewrite (eqb_empty_false _ Hne). cbn [subscript_key]. now rewrite Hd.
Qed.

(** The step of [walk] on a segment [name[index_str]], once the value it
    indexes is known. *)
Lemma walk_index_segment (current : json) (name index_str : string) (target : json)
      (rest : list string) :
  char_in "[" name = false -> char_in "]" index_str = false ->
  indexed_value current name target ->
  walk ((name ++ "[" ++ index_str ++ "]") :: rest) current
  = bind match parse_int index_str with
         | None => Raise (Exn ValueError ("Invalid array index: " ++ index_str))
         | Some index =>
             match subscript_int target index with
             | Ok v => Ok v
             | Raise e =>
                 if isinstance_of e [ValueError; IndexError; TypeError]
                 then Raise (Exn ValueError ("Invalid array index: " ++ index_str))
                 else Raise e
             end
         end (walk rest).
Proof.
  intros Hbr Hidx Hcur.
  assert (E0 : ((name ++ "[" ++ index_str ++ "]") =? EmptyString)%string = false).
  { destruct name; reflexivity. }
  assert (Hl : char_in "[" (name ++ "[" ++ index_str ++ "]") = true).
  { rewrite char_in_app. simpl. now rewrite orb_true_r. }
  assert (Hr : char_in "]" (name ++ "[" ++ index_str ++ "]") = true).
  { rewrite !char_in_app. simpl. now rewrite !orb_true_r. }
  cbn [walk]. rewrite E0, Hl, Hr. cbn [andb].
  change (name ++ "[" ++ index_str ++ "]") with (name ++ String "[" (index_str ++ str1 "]")).
  rewrite split_once_app by assumption.
  rewrite rstrip_char_app by assumption.
  rewrite (indexed_value_get _ _ _ Hcur). reflexivity.
Qed.

Lemma str_of_Z_no_bracket (i : Z) : char_in "]" (str_of_Z i) = false.
Proof.
  apply (char_in_false_of_forall is_int_char); [reflexivity | apply str_of_Z_chars].
Qed.

Lemma list_at_in_range (xs : list json) (i : Z) :
  0 <= i < Z.of_nat (List.length xs) ->
  exists v, list_at xs i = Some v /\ nth_error xs (Z.to_nat i) = Some v.
Proof.
  intros Hi. unfold list_at.
  destruct (Z.ltb_spec i 0); [lia|].
  destruct (Z.leb_spec 0 i); [|lia].
  destruct (Z.ltb_spec i (Z.of_nat (List.length xs))); [|lia]. cbn [andb].
  destruct (nth_error xs (Z.to_nat i)) as [v|] eqn:E; [eauto|].
  apply nth_error_None in E. lia.
Qed.

Lemma list_at_out_of_range (xs : list json) (i : Z) :
  i < - Z.of_nat (List.length xs) \/ Z.of_nat (List.length xs) <= i ->
  list_at xs i = None.
Proof.
  intros Hi. unfold list_at.
  destruct (Z.ltb_spec i 0).
  - destruct (Z.leb_spec 0 (i + Z.of_nat (List.length xs))); [lia | reflexivity].
  - destruct (Z.leb_spec 0 i); [|lia].
    destruct (Z.ltb_spec i (Z.of_nat (List.length xs))); [lia | reflexivity].
Qed.

(** X5.  A segment [name[i]] over a list: an index from 0 up to the length steps
    to the element at that position; an index at or beyond the length, or
    below minus the length, raises the resolver's [ValueError] "Invalid array
    index: i" - the [IndexError] of the list never leaves the resolver. *)
Theorem list_index_in_range_or_value_error :
  forall (current : json) (name : string) (xs : list json) (i : Z) (rest : list string),
    char_in "[" name = false ->
    indexed_value current name (JList xs) ->
    (0 <= i < Z.of_nat (List.length xs) ->
     exists v, nth_error xs (Z.to_nat i) = Some v /\
               walk ((name ++ "[" ++ str_of_Z i ++ "]") :: rest) current = walk rest v) /\
    (i < - Z.of_nat (List.length xs) \/ Z.of_nat (List.length xs) <= i ->
     walk ((name ++ "[" ++ str_of_Z i ++ "]") :: rest) current
     = Raise (Exn ValueError ("Invalid array index: " ++ str_of_Z i))).
Proof.
  intros current name xs i rest Hbr Hcur. split.
  - intros Hi. destruct (list_at_in_range xs i Hi) as [v [Hat Hnth]].
    exists v. split; [assumption|].
    rewrite (walk_index_segment current name (str_of_Z i) (JList xs) rest Hbr
               (str_of_Z_no_bracket i) Hcur).
    rewrite parse_int_str_of_Z. cbn [subscript_int]. now rewrite Hat.
  - intros Hi.
    rewrite (walk_index_segment current name (str_of_Z i) (JList xs) rest Hbr
               (str_of_Z_no_bracket i) Hcur).
    rewrite parse_int_str_of_Z. cbn [subscript_int].
    now rewrite (list_at_out_of_range xs i Hi).
Qed.

Lemma list_index_in_range_or_value_error_witness :
  extract_json_path (JDict [("items", JList [JStr "a"; JStr "b"])]) "items[1]" = Ok (JStr "b") /\
  extract_json_path (JDict [("items", JList [JStr "a"; JStr "b"])]) "items[2]"
  = Raise (Exn ValueError "Invalid array index: 2") /\
  extract_json_path (JDict [("items", JList [JStr "a"; JStr "b"])]) "items[-3]"
  = Raise (Exn ValueError "Invalid array index: -3").
Proof.
  assert (Hcur : indexed_value (JDict [("items", JList [JStr "a"; JStr "b"])]) "items"
                   (JList [JStr "a"; JStr "b"])).
  { right. split; [discriminate|]. eexists. split; reflexivity. }
  split; [|split].
  - destruct (proj1 (list_index_in_range_or_value_error _ "items" _ 1 [] eq_refl Hcur))
      as [v [Hv Hw]]; [simpl; lia|].
    injection Hv as <-. vm_compute in Hw. vm_compute. exact Hw.
  - assert (Hi : 2 < - Z.of_nat 2 \/ Z.of_nat 2 <= 2) by (right; simpl; lia).
    pose proof (proj2 (list_index_in_range_or_value_error _ "items" _ 2 [] eq_refl Hcur) Hi) as H.
    vm_compute in H. vm_compute. exact H.
  - assert (Hi : -3 < - Z.of_nat 2 \/ Z.of_nat 2 <= -3) by (left; simpl; lia).
    pose proof (proj2 (list_index_in_range_or_value_error _ "items" _ (-3) [] eq_refl Hcur) Hi) as H.
    vm_compute in H. vm_compute. exact H.
Defined.



(** X7.  An index that [int] does not accept raises the resolver's [ValueError];
    a missing key before the bracket raises [KeyError] first, whatever the
    index. *)
Theorem index_text_errors :
  forall (current : json) (name index_str : string) (rest : list string),
    char_in "[" name = false -> char_in "]" index_str = false ->
    (forall target, indexed_value current name target -> parse_int index_str = None ->
       walk ((name ++ "[" ++ index_str ++ "]") :: rest) current
       = Raise (Exn ValueError ("Invalid array index: " ++ index_str))) /\
    (forall d, name <> EmptyString -> current = JDict d -> dict_lookup d name = None ->
       walk ((name ++ "[" ++ index_str ++ "]") :: rest) current
       = Raise (Exn KeyError (repr name))).
Proof.
  intros current name index_str rest Hbr Hidx. split.
  - intros target Hcur Hp.
    rewrite (walk_index_segment current name index_str target rest Hbr Hidx Hcur).
    now rewrite Hp.
  - intros d Hne -> Hd.
    assert (E0 : ((name ++ "[" ++ index_str ++ "]") =? EmptyString)%string = false).
    { destruct name; reflexivity. }
    assert (Hl : char_in "[" (name ++ "[" ++ index_str ++ "]") = true).
    { rewrite char_in_app. simpl. now rewrite orb_true_r. }
    assert (Hr : char_in "]" (name ++ "[" ++ index_str ++ "]") = true).
    { rewrite !char_in_app. simpl. now rewrite !orb_true_r. }
    cbn [walk]. rewrite E0, Hl, Hr. cbn [andb].
    change (name ++ "[" ++ index_str ++ "]") with (name ++ String "[" (index_str ++ str1 "]")).
    rewrite split_once_app by assumption.
    rewrite (eqb_empty_false _ Hne). cbn [subscript_key]. now rewrite Hd.
Qed.

Lemma index_text_errors_witness :
  extract_json_path (JDict [("items", JList [JInt 1])]) "items[first]"
  = Raise (Exn ValueError "Invalid array index: first") /\
  extract_json_path (JDict [("items", JList [JInt 1])]) "rows[0]"
  = Raise (Exn KeyError "'rows'").
Proof.
  split.
  - assert (Hcur : indexed_value (JDict [("items", JList [JInt 1])]) "items" (JList [JInt 1])).
    { right. split; [discriminate|]. eexists. split; reflexivity. }
    pose proof (proj1 (index_text_errors (JDict [("items", JList [JInt 1])]) "items" "first" []
                         eq_refl eq_refl) (JList [JInt 1]) Hcur eq_refl) as H.
    vm_compute in H. vm_compute. exact H.
  - assert (Hne : "rows" <> EmptyString) by discriminate.
    pose proof (proj2 (index_text_errors (JDict [("items", JList [JInt 1])]) "rows" "0" []
                         eq_refl eq_refl) [("items", JList [JInt 1])] Hne eq_refl eq_refl) as H.
    vm_compute in H. vm_compute. exact H.
Defined.

(** ** Dispatch *)

Lemma assoc_none (A : Type) (k : string) (l : list (string * A)) :
  ~ In k (map fst l) -> assoc k l = None.
Proof.
  induction l as [|[k' a] l IH]; simpl; [reflexivity|].
  intros H. destruct (String.eqb_spec k' k) as [->|]; [exfalso; apply H; now left|].
  apply IH. intros Hin. apply H. now right.
Qed.

(** ** Mapping and rendering together *)

Lemma dict_get_set_other (d : dict) (k k' : string) (v default : json) :
  (k =? k')%string = false ->
  dict_get (dict_set d k v) k' default = dict_get d k' default.
Proof. intros H. unfold dict_get. now rewrite dict_lookup_set, H. Qed.

Lemma dict_get_set_same (d : dict) (k : string) (v default : json) :
  dict_get (dict_set d k v) k default = v.
Proof. unfold dict_get. now rewrite dict_lookup_set, String.eqb_refl. Qed.

(** X8.  A field whose path fails to resolve is present in the mapped data with
    the value [None], so the literal default of a renderer does not apply to
    it: [key_value] shows the empty string for a failed [value], and "N/A"
    only when the mapping table has no [value] field at all. *)
Theorem failed_field_bypasses_default :
  forall (data_mapping : list (string * string)) (api_data : json) (mapped_data : dict),
    NoDup (keys_of_mapping data_mapping) ->
    apply_data_mapping data_mapping api_data = Ok mapped_data ->
    (forall field path e default,
        In (field, path) data_mapping ->
        extract_json_path api_data path = Raise e ->
        dict_get mapped_data field default = JNull) /\
    (forall path e,
        In ("value", path) data_mapping ->
        extract_json_path api_data path = Raise e ->
        escs (render_key_value mapped_data)
        = [ safe_str (dict_get mapped_data "title" (JStr "Value")); EmptyString;
            safe_str (dict_get mapped_data "unit" (JStr EmptyString)) ]) /\
    (~ In "value" (keys_of_mapping data_mapping) ->
        escs (render_key_value mapped_data)
        = [ safe_str (dict_get mapped_data "title" (JStr "Value")); "N/A";
            safe_str (dict_get mapped_data "unit" (JStr EmptyString)) ]).
Proof.
  intros m api_data md Hnd Hmd.
  rewrite apply_data_mapping_fold in Hmd. injection Hmd as <-.
  assert (Hfail : forall field path e default,
             In (field, path) m -> extract_json_path api_data path = Raise e ->
             dict_get (fold_left (mapping_step api_data) m []) field default = JNull).
  { intros field path e default Hin He. unfold dict_get.
    rewrite (mapping_fold_lookup api_data m [] field path Hnd Hin).
    unfold resolved_or_null. now rewrite He. }
  split; [exact Hfail|]. split.
  - intros path e Hin He. unfold render_key_value. cbn [escs flat_map app].
    now rewrite (Hfail "value" path e (JStr "N/A") Hin He).
  - intros Hout. unfold render_key_value. cbn [escs flat_map app].
    unfold dict_get at 2. now rewrite mapping_fold_lookup_other.
Qed.

Lemma failed_field_bypasses_default_witness :
  escs (render_key_value [("title", JStr "Temp"); ("value", JNull)])
  = ["Temp"; EmptyString; EmptyString] /\
  escs (render_key_value [("title", JStr "Temp")]) = ["Temp"; "N/A"; EmptyString].
Proof.
  split.
  - assert (Hnd : NoDup (keys_of_mapping [("title", "name"); ("value", "main.temp")])).
    { repeat constructor; simpl; intuition discriminate. }
    pose proof (proj1 (proj2 (failed_field_bypasses_default
                  [("title", "name"); ("value", "main.temp")] (JDict [("name", JStr "Temp")])
                  [("title", JStr "Temp"); ("value", JNull)] Hnd eq_refl))
                  "main.temp" (Exn KeyError "'main'") (or_intror (or_introl eq_refl)) eq_refl) as H.
    exact H.
  - assert (Hnd : NoDup (keys_of_mapping [("title", "name")])).
    { repeat constructor; simpl; intuition discriminate. }
    pose proof (proj2 (proj2 (failed_field_bypasses_default
                  [("title", "name")] (JDict [("name", JStr "Temp")])
                  [("title", JStr "Temp")] Hnd eq_refl))) as H.
    apply H. simpl. intuition discriminate.
Defined.

(** X9.  The order of the mapping table does not matter: two tables with the
    same entries give mapped data that agree on every field. *)
Theorem mapping_order_is_irrelevant :
  forall (m m' : list (string * string)) (api_data : json) (md md' : dict),
    Permutation m m' -> NoDup (keys_of_mapping m) ->
    apply_data_mapping m api_data = Ok md ->
    apply_data_mapping m' api_data = Ok md' ->
    forall field, dict_lookup md field = dict_lookup md' field.
Proof.
  intros m m' api_data md md' Hp Hnd Hmd Hmd' field.
  rewrite apply_data_mapping_fold in Hmd, Hmd'. injection Hmd as <-. injection Hmd' as <-.
  assert (Hnd' : NoDup (keys_of_mapping m')).
  { unfold keys_of_mapping in *. eapply Permutation_NoDup; [|exact Hnd].
    now apply Permutation_map. }
  destruct (in_dec string_dec field (keys_of_mapping m)) as [Hin|Hout].
  - unfold keys_of_mapping in Hin. apply in_map_iff in Hin as [[f path] [Hf Hin]].
    simpl in Hf. subst f.
    rewrite (mapping_fold_lookup api_data m [] field path Hnd Hin).
    symmetry. apply mapping_fold_lookup; [assumption|].
    eapply Permutation_in; eassumption.
  - rewrite !mapping_fold_lookup_other; [reflexivity | | assumption].
    intros Hin. apply Hout. unfold keys_of_mapping in *.
    eapply Permutation_in; [|exact Hin]. apply Permutation_map. now apply Permutation_sym.
Qed.

Lemma mapping_order_is_irrelevant_witness :
  dict_lookup [("a", JInt 1); ("b", JNull)] "b"
  = dict_lookup [("b", JNull); ("a", JInt 1)] "b".
Proof.
  apply (mapping_order_is_irrelevant [("a", "k"); ("b", "x.y")] [("b", "x.y"); ("a", "k")]
           (JDict [("k", JInt 1)])).
  - apply perm_swap.
  - repeat constructor; simpl; intuition discriminate.
  - reflexivity.
  - reflexivity.
Defined.

(** ** The list templates *)

Lemma dict_get_some (d : dict) (k : string) (v default : json) :
  dict_lookup d k = Some v -> dict_get d k default = v.
Proof. intros H. unfold dict_get. now rewrite H. Qed.

(** X10.  A list field that holds anything but a list - [None] after a failed
    mapping, a string, a dict - is answered by the error fragment of the
    template, never by an exception; [rss_summary] treats it like an empty
    list and shows "No articles available". *)
Theorem non_list_field_is_error_fragment :
  forall (clk : clock) (data : dict) (v : json),
    is_list v = false ->
    (dict_lookup data "metrics" = Some v ->
     render_template clk "metric_grid" data = Ok (render_error "Metrics must be an array")) /\
    (dict_lookup data "items" = Some v ->
     render_template clk "status_list" data = Ok (render_error "Items must be an array") /\
     render_template clk "icon_list" data = Ok (render_error "Items must be an array") /\
     render_template clk "rss_headlines" data = Ok (render_error "RSS items must be an array") /\
     exists fragment,
       render_template clk "rss_summary" data = Ok fragment /\
       escs fragment = [safe_str (dict_get data "feed_title" (JStr "RSS Feed"))] /\
       str_in "No articles available" (to_str fragment) = true) /\
    (dict_lookup data "data_points" = Some v ->
     render_template clk "chart_simple" data = Ok (render_error "Data points must be an array")).
Proof.
  intros clk data v Hv. split; [|split].
  - intros Hd. unfold render_template. cbn [assoc template_map]. simpl String.eqb. cbv iota.
    unfold render_metric_grid. rewrite (dict_get_some _ _ _ _ Hd). destruct v; (discriminate || reflexivity).
  - intros Hd. repeat split.
    + unfold render_template. cbn [assoc template_map]. simpl String.eqb. cbv iota.
      unfold render_status_list. rewrite (dict_get_some _ _ _ _ Hd). destruct v; (discriminate || reflexivity).
    + unfold render_template. cbn [assoc template_map]. simpl String.eqb. cbv iota.
      unfold render_icon_list. rewrite (dict_get_some _ _ _ _ Hd). destruct v; (discriminate || reflexivity).
    + unfold render_template. cbn [assoc template_map]. simpl String.eqb. cbv iota.
      unfold render_rss_headlines. rewrite (dict_get_some _ _ _ _ Hd). destruct v; (discriminate || reflexivity).
    + eexists. split.
      { unfold render_template. cbn [assoc template_map]. simpl String.eqb. cbv iota.
        unfold render_rss_summary. rewrite (dict_get_some _ _ _ _ Hd).
        destruct v; try discriminate Hv; reflexivity. }
      split; [reflexivity|].
      cbn [to_str part_text]. apply str_in_app_r, str_in_app_r, str_in_app_l.
      vm_compute. reflexivity.
  - intros Hd. unfold render_template. cbn [assoc template_map]. simpl String.eqb. cbv iota.
    unfold render_chart_simple. rewrite (dict_get_some _ _ _ _ Hd).
    destruct v; (discriminate || reflexivity).
Qed.

Lemma non_list_field_is_error_fragment_witness :
  render_template (Clock "10:00:00" "2024-01-15") "rss_headlines" [("items", JNull)]
  = Ok (render_error "RSS items must be an array") /\
  render_template (Clock "10:00:00" "2024-01-15") "chart_simple" [("data_points", JStr "1,2")]
  = Ok (render_error "Data points must be an array").
Proof.
  split.
  - apply (proj1 (proj2 (non_list_field_is_error_fragment (Clock "10:00:00" "2024-01-15")
                           [("items", JNull)] JNull eq_refl)) eq_refl).
  - apply (proj2 (proj2 (non_list_field_is_error_fragment (Clock "10:00:00" "2024-01-15")
                           [("data_points", JStr "1,2")] (JStr "1,2") eq_refl)) eq_refl).
Defined.

(** X11.  Items beyond the cap of a list template have no influence on the
    fragment: the fragment is the one of the data whose list is cut to its
    first 8 ([metric_grid], [icon_list]) or 10 ([status_list],
    [rss_headlines]) items. *)
Theorem list_templates_truncate :
  forall (data : dict) (l : list json),
    (dict_get data "metrics" (JList []) = JList l ->
     render_metric_grid (dict_set data "metrics" (JList (firstn 8 l)))
     = render_metric_grid data) /\
    (dict_get data "items" (JList []) = JList l ->
     render_status_list (dict_set data "items" (JList (firstn 10 l))) = render_status_list data /\
     render_icon_list (dict_set data "items" (JList (firstn 8 l))) = render_icon_list data /\
     render_rss_headlines (dict_set data "items" (JList (firstn 10 l)))
     = render_rss_headlines data).
Proof.
  intros data l. split; [intros Hl | intros Hl; repeat split].
  - unfold render_metric_grid.
    rewrite dict_get_set_same, !dict_get_set_other, Hl by reflexivity.
    now rewrite firstn_firstn.
  - unfold render_status_list.
    rewrite dict_get_set_same, !dict_get_set_other, Hl by reflexivity.
    now rewrite firstn_firstn.
  - unfold render_icon_list.
    rewrite dict_get_set_same, !dict_get_set_other, Hl by reflexivity.
    now rewrite firstn_firstn.
  - unfold render_rss_headlines.
    rewrite dict_get_set_same, !dict_get_set_other, Hl by reflexivity.
    now rewrite firstn_firstn.
Qed.

Lemma list_templates_truncate_witness :
  render_rss_headlines
    [("items", JList (map JInt [1; 2; 3; 4; 5; 6; 7; 8; 9; 10]))]
  = render_rss_headlines
    [("items", JList (map JInt [1; 2; 3; 4; 5; 6; 7; 8; 9; 10; 11; 12]))].
Proof.
  apply (proj2 (proj2 (proj2 (list_templates_truncate
           [("items", JList (map JInt [1; 2; 3; 4; 5; 6; 7; 8; 9; 10; 11; 12]))]
           (map JInt [1; 2; 3; 4; 5; 6; 7; 8; 9; 10; 11; 12])) eq_refl))).
Defined.

Lemma render_items_app (body : json -> result markup) (a b : list json) :
  render_items body (a ++ b) = (render_items body a ++ render_items body b)%list.
Proof. unfold render_items. apply flat_map_app. Qed.

Lemma render_items_skip (body : json -> result markup) (a b : list json) (x : json) (e : exn) :
  body x = Raise e -> render_items body (a ++ x :: b) = render_items body (a ++ b).
Proof.
  intros Hx. rewrite !render_items_app. f_equal.
  unfold render_items. cbn [flat_map]. now rewrite Hx.
Qed.

(** X12.  An item whose rendering raises is left out and the others are rendered
    as if it were not in the list (for a list within the cap). *)
Theorem failing_item_is_skipped :
  forall (data : dict) (a b : list json) (x : json) (e : exn),
    (dict_get data "metrics" (JList []) = JList (a ++ x :: b) ->
     (List.length (a ++ x :: b) <= 8)%nat ->
     render_metric (dict_get data "metric_title_path" (JStr "name"))
                   (dict_get data "metric_value_path" (JStr "value"))
                   (dict_get data "metric_unit_path" (JStr "unit")) x = Raise e ->
     render_metric_grid data = render_metric_grid (dict_set data "metrics" (JList (a ++ b)))) /\
    (dict_get data "items" (JList []) = JList (a ++ x :: b) ->
     (List.length (a ++ x :: b) <= 10)%nat ->
     render_status_item (dict_get data "item_name_path" (JStr "name"))
                        (dict_get data "item_status_path" (JStr "status"))
                        (dict_get data "item_message_path" (JStr "message")) x = Raise e ->
     render_status_list data = render_status_list (dict_set data "items" (JList (a ++ b)))) /\
    (dict_get data "items" (JList []) = JList (a ++ x :: b) ->
     (List.length (a ++ x :: b) <= 8)%nat ->
     render_icon_item (dict_get data "item_icon_path" (JStr "icon"))
                      (dict_get data "item_title_path" (JStr "title"))
                      (dict_get data "item_description_path" (JStr "description")) x = Raise e ->
     render_icon_list data = render_icon_list (dict_set data "items" (JList (a ++ b)))).
Proof.
  intros data a b x e.
  assert (Hlen : forall n, (List.length (a ++ x :: b) <= n)%nat -> (List.length (a ++ b) <= n)%nat).
  { intros n. rewrite !length_app. simpl. lia. }
  split; [|split]; intros Hl Hn Hx.
  - unfold render_metric_grid.
    rewrite dict_get_set_same, !dict_get_set_other, Hl by reflexivity.
    rewrite !firstn_all2 by auto. now rewrite (render_items_skip _ a b x e Hx).
  - unfold render_status_list.
    rewrite dict_get_set_same, !dict_get_set_other, Hl by reflexivity.
    rewrite !firstn_all2 by auto. now rewrite (render_items_skip _ a b x e Hx).
  - unfold render_icon_list.
    rewrite dict_get_set_same, !dict_get_set_other, Hl by reflexivity.
    rewrite !firstn_all2 by auto. now rewrite (render_items_skip _ a b x e Hx).
Qed.

Lemma failing_item_is_skipped_witness :
  render_metric_grid
    [("metrics", JList [JDict [("name", JStr "cpu"); ("value", JInt 3)]; JStr "oops"])]
  = render_metric_grid
    [("metrics", JList [JDict [("name", JStr "cpu"); ("value", JInt 3)]])].
Proof.
  apply (proj1 (failing_item_is_skipped
           [("metrics", JList [JDict [("name", JStr "cpu"); ("value", JInt 3)]; JStr "oops"])]
           [JDict [("name", JStr "cpu"); ("value", JInt 3)]] [] (JStr "oops")
           (Exn ValueError "Cannot access 'name' on non-dict type")) eq_refl).
  - simpl. lia.
  - reflexivity.
Defined.

Lemma extract_default_key (item : json) (key : string) :
  bare_path key -> isdigit key = false -> float_ok key = false ->
  extract_json_path_of item (JStr key)
  = match item with
    | JDict d => Ok (dict_get d key JNull)
    | _ => Raise (Exn ValueError ("Cannot access '" ++ key ++ "' on non-dict type"))
    end.
Proof.
  intros [Hne [Hdot [Hl Hr]]] Hdig Hfl. cbn [extract_json_path_of].
  unfold extract_json_path, shortcut.
  rewrite (eqb_empty_false _ Hne), Hdot, Hl, Hr, Hdig, Hfl. cbn [negb andb].
  destruct item; try (rewrite split_no_sep by assumption; cbn [walk];
                      rewrite (eqb_empty_false _ Hne), Hl; reflexivity).
  unfold dict_get. destruct (dict_lookup d key); reflexivity.
Qed.

(** X13.  With the default item paths an item of [metric_grid], [status_list] or
    [icon_list] is rendered exactly when it is a dict.  A dict that lacks
    the name or the value is not skipped: the missing key resolves to [None]
    and is shown as the empty string.  An item that is not a dict is skipped. *)
Theorem default_paths_render_every_dict :
  forall (item : json),
    is_ok (render_metric (JStr "name") (JStr "value") (JStr "unit") item) = is_dict item /\
    is_ok (render_status_item (JStr "name") (JStr "status") (JStr "message") item)
    = is_dict item /\
    is_ok (render_icon_item (JStr "icon") (JStr "title") (JStr "description") item)
    = is_dict item /\
    (forall d,
        exists fragment,
          render_metric (JStr "name") (JStr "value") (JStr "unit") (JDict d) = Ok fragment /\
          escs fragment = [ safe_str (dict_get d "name" JNull);
                            safe_str (dict_get d "value" JNull);
                            safe_str (dict_get d "unit" JNull) ]).
Proof.
  intros item.
  assert (Hk : forall key, bare_path key -> bare_path key) by auto.
  assert (Hb : forall key, char_in "." key = false -> char_in "[" key = false ->
                           char_in "]" key = false -> key <> EmptyString -> bare_path key).
  { intros key H1 H2 H3 H4. repeat split; assumption. }
  split; [|split; [|split]].
  - unfold render_metric, extract_or_empty.
    rewrite !extract_default_key by (try apply Hb; (discriminate || reflexivity)).
    destruct item; reflexivity.
  - unfold render_status_item, extract_or_empty.
    rewrite !extract_default_key by (try apply Hb; (discriminate || reflexivity)).
    destruct item; reflexivity.
  - unfold render_icon_item, extract_or_empty.
    rewrite !extract_default_key by (try apply Hb; (discriminate || reflexivity)).
    destruct item; reflexivity.
  - intros d. unfold render_metric, extract_or_empty.
    rewrite !extract_default_key by (try apply Hb; (discriminate || reflexivity)).
    cbn [bind]. eexists. split; reflexivity.
Qed.

(** ** RSS summary and feed information *)

(** X14.  [rss_summary] shows the first item only: the rest of the list has no
    influence on the fragment. *)
Theorem rss_summary_shows_first_item :
  forall (data : dict) (item : json) (rest : list json),
    dict_get data "items" (JList []) = JList (item :: rest) ->
    render_rss_summary data = render_rss_summary (dict_set data "items" (JList [item])).
Proof.
  intros data item rest Hl. unfold render_rss_summary.
  now rewrite dict_get_set_same, !dict_get_set_other, Hl by reflexivity.
Qed.

Lemma rss_summary_shows_first_item_witness :
  render_rss_summary [("items", JList [JStr "first"; JStr "second"])]
  = render_rss_summary [("items", JList [JStr "first"])].
Proof.
  apply (rss_summary_shows_first_item [("items", JList [JStr "first"; JStr "second"])]
           (JStr "first") [JStr "second"] eq_refl).
Defined.

Lemma length_take (n : nat) (s : string) :
  String.length (take n s) = Nat.min n (String.length s).
Proof.
  revert s. induction n as [|n IH]; intros s; [reflexivity|].
  destruct s as [|c s]; [reflexivity|]. simpl. now rewrite IH.
Qed.

Lemma nonempty_length (s : string) : nonempty s = true <-> (0 < String.length s)%nat.
Proof. destruct s; simpl; split; (reflexivity || discriminate || lia). Qed.

(** X15.  A long description is cut and marked: [rss_summary] shows the
    description of the first item as it is up to 200 characters, and as its
    first 200 characters followed by "..." beyond; [rss_feed_info] does the
    same with the description of the feed at 150 characters.  What is shown
    is therefore 203, or 153, characters at most. *)
Theorem long_description_is_cut :
  forall (clk : clock) (data : dict),
    (forall (d : dict) (rest : list json) (fragment : markup),
       dict_get data "items" (JList []) = JList (JDict d :: rest) ->
       render_template clk "rss_summary" data = Ok fragment ->
       let description := safe_str (dict_get d "description" (JStr EmptyString)) in
       exists shown,
         nth_error (escs fragment) 2 = Some shown /\
         (String.length shown <= 203)%nat /\
         ((String.length description <= 200)%nat -> shown = description) /\
         ((200 < String.length description)%nat -> shown = take 200 description ++ "...")) /\
    (forall (fragment : markup),
       render_template clk "rss_feed_info" data = Ok fragment ->
       let feed_description :=
         safe_str (dict_get data "feed_description" (JStr EmptyString)) in
       (0 < String.length feed_description)%nat ->
       exists shown,
         nth_error (escs fragment) 1 = Some shown /\
         (String.length shown <= 153)%nat /\
         ((String.length feed_description <= 150)%nat -> shown = feed_description) /\
         ((150 < String.length feed_description)%nat ->
          shown = take 150 feed_description ++ "...")).
Proof.
  intros clk data. split.
  - intros d rest fragment Hitems Hr description.
    unfold render_template in Hr. cbn [assoc template_map] in Hr.
    simpl String.eqb in Hr. cbv iota in Hr. injection Hr as <-.
    unfold render_rss_summary. rewrite Hitems. fold description.
    exists (truncate 200 description).
    split; [reflexivity|]. unfold truncate.
    destruct (Nat.ltb_spec 200 (String.length description)) as [Hlt|Hge].
    + rewrite length_append, length_take. simpl String.length.
      repeat split; (lia || reflexivity).
    + repeat split; (lia || reflexivity).
  - intros fragment Hr feed_description Hpos.
    unfold render_template in Hr. cbn [assoc template_map] in Hr.
    simpl String.eqb in Hr. cbv iota in Hr.
    unfold render_rss_feed_info in Hr. fold feed_description in Hr.
    destruct (py_len (dict_get data "items" (JList []))) as [n|e]; [|discriminate Hr].
    cbn [bind] in Hr. injection Hr as <-.
    exists (truncate 150 feed_description).
    assert (Hne : nonempty (truncate 150 feed_description) = true).
    { apply nonempty_length. unfold truncate.
      destruct (Nat.ltb_spec 150 (String.length feed_description)); [|exact Hpos].
      rewrite length_append. simpl String.length. lia. }
    rewrite Hne. split; [reflexivity|]. unfold truncate.
    destruct (Nat.ltb_spec 150 (String.length feed_description)) as [Hlt|Hge].
    + rewrite length_append, length_take. simpl String.length.
      repeat split; (lia || reflexivity).
    + repeat split; (lia || reflexivity).
Qed.

Lemma long_description_is_cut_witness :
  (exists fragment,
      render_template (Clock "10:00:00" "2024-01-15") "rss_summary"
        [("items", JList [JDict [("description", JStr (zeros 201))]])] = Ok fragment /\
      nth_error (escs fragment) 2 = Some (zeros 200 ++ "...")) /\
  (exists fragment,
      render_template (Clock "10:00:00" "2024-01-15") "rss_feed_info"
        [("feed_description", JStr (zeros 151))] = Ok fragment /\
      nth_error (escs fragment) 1 = Some (zeros 150 ++ "...")).
Proof.
  split.
  - eexists. split; [reflexivity|].
    destruct (proj1 (long_description_is_cut (Clock "10:00:00" "2024-01-15")
                       [("items", JList [JDict [("description", JStr (zeros 201))]])])
                [("description", JStr (zeros 201))] [] _ eq_refl eq_refl)
      as [shown [Hshown [_ [_ Hcut]]]].
    rewrite Hshown. f_equal. rewrite Hcut by (vm_compute; lia). vm_compute. reflexivity.
  - eexists. split; [reflexivity|].
    destruct (proj2 (long_description_is_cut (Clock "10:00:00" "2024-01-15")
                       [("feed_description", JStr (zeros 151))]) _ eq_refl)
      as [shown [Hshown [_ [_ Hcut]]]]; [vm_compute; lia|].
    rewrite Hshown. f_equal. rewrite Hcut by (vm_compute; lia). vm_compute. reflexivity.
Defined.

(** X16.  The count shown by [rss_feed_info] is [len] of the [items] field: the
    number of elements of a list, 0 without the field - but also the number
    of characters of a string and of keys of a dict; over [None] (a failed
    mapping), a number or a boolean [len] raises [TypeError] and no fragment
    is built. *)
Theorem feed_info_counts_with_len :
  forall (clk : clock) (data : dict),
    (forall l, dict_get data "items" (JList []) = JList l ->
       exists fragment,
         render_template clk "rss_feed_info" data = Ok fragment /\
         raws fragment = [str_of_Z (Z.of_nat (List.length l))]) /\
    (forall s, dict_lookup data "items" = Some (JStr s) ->
       exists fragment,
         render_template clk "rss_feed_info" data = Ok fragment /\
         raws fragment = [str_of_Z (Z.of_nat (String.length s))]) /\
    (forall d, dict_lookup data "items" = Some (JDict d) ->
       exists fragment,
         render_template clk "rss_feed_info" data = Ok fragment /\
         raws fragment = [str_of_Z (Z.of_nat (List.length (keys d)))]) /\
    (forall v, dict_lookup data "items" = Some v ->
       match v with JNull | JBool _ | JInt _ | JFloat _ => True | _ => False end ->
       render_template clk "rss_feed_info" data
       = Raise (Exn TypeError ("object of type '" ++ type_name v ++ "' has no len()"))).
Proof.
  intros clk data.
  split; [|split; [|split]].
  - intros l Hl. eexists. split.
    { unfold render_template. cbn [assoc template_map]. simpl String.eqb. cbv iota.
      unfold render_rss_feed_info. rewrite Hl. cbn [py_len bind]. reflexivity. }
    repeat match goal with |- context [if ?b then _ else _] => destruct b end; reflexivity.
  - intros s Hs. eexists. split.
    { unfold render_template. cbn [assoc template_map]. simpl String.eqb. cbv iota.
      unfold render_rss_feed_info. rewrite (dict_get_some _ _ _ _ Hs). cbn [py_len bind].
      reflexivity. }
    repeat match goal with |- context [if ?b then _ else _] => destruct b end; reflexivity.
  - intros d Hd. eexists. split.
    { unfold render_template. cbn [assoc template_map]. simpl String.eqb. cbv iota.
      unfold render_rss_feed_info. rewrite (dict_get_some _ _ _ _ Hd). cbn [py_len bind].
      reflexivity. }
    unfold keys. rewrite length_map.
    repeat match goal with |- context [if ?b then _ else _] => destruct b end; reflexivity.
  - intros v Hv Hk.
    unfold render_template. cbn [assoc template_map]. simpl String.eqb. cbv iota.
    unfold render_rss_feed_info. rewrite (dict_get_some _ _ _ _ Hv).
    destruct v; try contradiction; reflexivity.
Qed.

Lemma feed_info_counts_with_len_witness :
  (exists fragment,
      render_template (Clock "10:00:00" "2024-01-15") "rss_feed_info"
        [("items", JStr "abc")] = Ok fragment /\ raws fragment = ["3"]) /\
  render_template (Clock "10:00:00" "2024-01-15") "rss_feed_info" [("items", JNull)]
  = Raise (Exn TypeError "object of type 'NoneType' has no len()").
Proof.
  split.
  - destruct (proj1 (proj2 (feed_info_counts_with_len (Clock "10:00:00" "2024-01-15")
                              [("items", JStr "abc")])) "abc" eq_refl) as [fragment [H1 H2]].
    exists fragment. split; [exact H1 | exact H2].
  - apply (proj2 (proj2 (proj2 (feed_info_counts_with_len (Clock "10:00:00" "2024-01-15")
                                  [("items", JNull)]))) JNull eq_refl I).
Defined.

(** ** Status icons and classes *)

Lemma lower_char_idempotent (c : ascii) : lower_char (lower_char c) = lower_char c.
Proof. destruct c as [[] [] [] [] [] [] [] []]; reflexivity. Qed.

Lemma lower_idempotent (s : string) : lower (lower s) = lower s.
Proof.
  unfold lower. induction s as [|c s IH]; [reflexivity|].
  cbn [map_chars]. now rewrite lower_char_idempotent, IH.
Qed.

(** X17.  The status of an item is classified by its text without regard to
    letter case - the [str] of the value, so [None] reads "none".  One of
    the six words of success gets the check mark and the success class; one
    of the five words of failure the cross and the error class; one of the
    four words of warning the warning sign and the warning class; and any
    other status the blue dot together with the success class. *)
Theorem status_classification :
  forall (status : json),
    get_status_icon status = get_status_icon (JStr (lower (py_str status))) /\
    get_status_class status = get_status_class (JStr (lower (py_str status))) /\
    (In (lower (py_str status))
        ["online"; "ok"; "healthy"; "success"; "active"; "running"] ->
     get_status_icon status = icon_success /\
     get_status_class status = "status-indicator--success") /\
    (In (lower (py_str status)) ["offline"; "error"; "failed"; "down"; "inactive"] ->
     get_status_icon status = icon_error /\
     get_status_class status = "status-indicator--error") /\
    (In (lower (py_str status)) ["warning"; "degraded"; "partial"; "slow"] ->
     get_status_icon status = icon_warning /\
     get_status_class status = "status-indicator--warning") /\
    (~ In (lower (py_str status))
          [ "online"; "ok"; "healthy"; "success"; "active"; "running";
            "offline"; "error"; "failed"; "down"; "inactive";
            "warning"; "degraded"; "partial"; "slow" ] ->
     get_status_icon status = icon_other /\
     get_status_class status = "status-indicator--success").
Proof.
  intros status.
  assert (Hin : forall names,
             status_in (JStr (lower (py_str status))) names = status_in status names).
  { intros names. unfold status_in. cbn [py_str]. now rewrite lower_idempotent. }
  split; [unfold get_status_icon; now rewrite !Hin|].
  split; [unfold get_status_class; now rewrite !Hin|].
  unfold get_status_icon, get_status_class, status_in.
  remember (lower (py_str status)) as s eqn:Es. clear Hin Es.
  split; [|split; [|split]].
  - cbn [In]. intros Hmem.
    repeat (destruct Hmem as [<-|Hmem]; [split; reflexivity|]). contradiction.
  - cbn [In]. intros Hmem.
    repeat (destruct Hmem as [<-|Hmem]; [split; reflexivity|]). contradiction.
  - cbn [In]. intros Hmem.
    repeat (destruct Hmem as [<-|Hmem]; [split; reflexivity|]). contradiction.
  - intros Hnot.
    assert (Hno : forall w, In w [ "online"; "ok"; "healthy"; "success"; "active"; "running";
                                   "offline"; "error"; "failed"; "down"; "inactive";
                                   "warning"; "degraded"; "partial"; "slow" ] ->
                            (s =? w)%string = false).
    { intros w Hw. destruct (String.eqb_spec s w) as [->|]; [contradiction | reflexivity]. }
    cbn [existsb].
    rewrite !Hno by (cbn [In]; tauto). split; reflexivity.
Qed.

Lemma status_classification_witness :
  (get_status_icon (JStr "OnLine") = icon_success /\
   get_status_class (JStr "OnLine") = "status-indicator--success") /\
  (get_status_icon (JStr "Failed") = icon_error /\
   get_status_class (JStr "Failed") = "status-indicator--error") /\
  (get_status_icon (JStr "SLOW") = icon_warning /\
   get_status_class (JStr "SLOW") = "status-indicator--warning") /\
  (get_status_icon JNull = icon_other /\
   get_status_class JNull = "status-indicator--success").
Proof.
  split; [|split; [|split]].
  - apply (proj1 (proj2 (proj2 (status_classification (JStr "OnLine"))))).
    vm_compute. tauto.
  - apply (proj1 (proj2 (proj2 (proj2 (status_classification (JStr "Failed")))))).
    vm_compute. tauto.
  - apply (proj1 (proj2 (proj2 (proj2 (proj2 (status_classification (JStr "SLOW"))))))).
    vm_compute. tauto.
  - apply (proj2 (proj2 (proj2 (proj2 (proj2 (status_classification JNull)))))).
    vm_compute. intuition discriminate.
Defined.

Example status_samples :
  get_status_icon (JStr "OnLine") = icon_success /\
  get_status_class (JStr "FAILED") = "status-indicator--error" /\
  get_status_icon (JStr "unknown") = icon_other /\
  get_status_class JNull = "status-indicator--success".
Proof. repeat split; reflexivity. Qed.

(** ** The chart over values that are not numbers *)

Lemma py_compare_type_error (op : cmp_op) (x : json) :
  forall y e, py_compare op x y = Raise e -> exn_cls e = TypeError.
Proof.
  induction x as [| b | z | f | s | l IH | d] using json_list_ind; intros y e;
    try (destruct y; simpl; intros H; first [discriminate H | injection H as <-; reflexivity]).
  destruct y as [| | | | |l'|]; try (simpl; intros H; injection H as <-; reflexivity).
  cbn [py_compare as_int as_number option_map]. revert l'.
  induction IH as [|x l Hx _ IHl]; intros l'.
  - destruct l'; discriminate.
  - destruct l' as [|y l']; [discriminate|].
    destruct (py_eq x y); [apply IHl | apply Hx].
Qed.

Lemma extremum_type_error (op : cmp_op) (rest : list json) :
  forall current e, extremum op current rest = Raise e -> exn_cls e = TypeError.
Proof.
  induction rest as [|item rest IH]; intros current e; simpl; [discriminate|].
  unfold bind. destruct (py_compare op item current) as [b|e'] eqn:E.
  - apply IH.
  - intros H. injection H as <-. exact (py_compare_type_error _ _ _ _ E).
Qed.

(** A number compares with numbers only. *)
Lemma py_compare_same_kind (op : cmp_op) (u v : json) (b : bool) :
  py_compare op u v = Ok b -> is_number u = is_number v.
Proof.
  destruct u, v; simpl; try discriminate; reflexivity.
Qed.

Lemma extremum_same_kind (op : cmp_op) (rest : list json) :
  forall current v,
    extremum op current rest = Ok v ->
    Forall (fun u => is_number u = is_number current) rest.
Proof.
  induction rest as [|item rest IH]; intros current v; cbn [extremum]; [constructor|].
  destruct (py_compare op item current) as [b|e] eqn:E; cbn [bind]; [|discriminate].
  pose proof (py_compare_same_kind _ _ _ _ E) as Hk.
  intros H. constructor; [exact Hk|].
  apply IH in H. destruct b; [now rewrite <- Hk | exact H].
Qed.

(** X18.  A [data_points] list with an element that is not a number - a string, a
    list, [None] - is never charted: [min], [max] or [sum] raises
    [TypeError] and [render_template] raises it in turn. *)
Theorem chart_simple_needs_numbers :
  forall (clk : clock) (data : dict) (l : list json),
    dict_get data "data_points" (JList []) = JList l ->
    Exists (fun x => as_number x = None) l ->
    exists e, render_template clk "chart_simple" data = Raise e /\ exn_cls e = TypeError.
Proof.
  intros clk data l Hl Hex.
  unfold render_template. cbn [assoc template_map]. simpl String.eqb. cbv iota.
  unfold render_chart_simple. rewrite Hl.
  destruct l as [|x l]; [inversion Hex|]. cbn [truthy py_min py_max bind].
  destruct (extremum OpLt x l) as [lo|e] eqn:Emin.
  2:{ exists e. split; [reflexivity | exact (extremum_type_error _ _ _ _ Emin)]. }
  cbn [bind].
  destruct (extremum OpGt x l) as [hi|e] eqn:Emax.
  2:{ exists e. split; [reflexivity | exact (extremum_type_error _ _ _ _ Emax)]. }
  cbn [bind]. unfold py_sum. cbn [sum_from].
  assert (Hx : as_number x = None).
  { pose proof (extremum_same_kind _ _ _ _ Emin) as Hkind.
    inversion Hex as [? ? H0|? ? H0]; subst; [exact H0|].
    apply Exists_exists in H0 as [u [Hu Hnone]].
    rewrite Forall_forall in Hkind. specialize (Hkind u Hu).
    unfold is_number in Hkind. rewrite Hnone in Hkind.
    destruct (as_number x); [discriminate | reflexivity]. }
  unfold py_add. rewrite Hx. cbn [bind]. eexists. split; reflexivity.
Qed.

Lemma chart_simple_needs_numbers_witness :
  exists e,
    render_template (Clock "10:00:00" "2024-01-15") "chart_simple"
      [("data_points", JList [JInt 3; JStr "4"])] = Raise e /\
    exn_cls e = TypeError.
Proof.
  apply (chart_simple_needs_numbers (Clock "10:00:00" "2024-01-15")
           [("data_points", JList [JInt 3; JStr "4"])] [JInt 3; JStr "4"] eq_refl).
  apply Exists_cons_tl, Exists_cons_hd. reflexivity.
Defined.

(** ** Acquisition: the API source *)

Lemma setdefault_lookup (headers : list (string * string)) (k v : string) :
  header_lookup (setdefault headers k v) k
  = match header_lookup headers k with Some v' => Some v' | None => Some v end.
Proof.
  induction headers as [|[k' v'] rest IH]; simpl.
  - now rewrite String.eqb_refl.
  - destruct (String.eqb_spec k' k) as [->|Hne]; simpl.
    + now rewrite String.eqb_refl.
    + destruct (String.eqb_spec k' k); [contradiction | exact IH].
Qed.

Lemma setdefault_keeps (headers : list (string * string)) (k v : string) :
  forall kv, In kv headers -> In kv (setdefault headers k v).
Proof.
  induction headers as [|[k' v'] rest IH]; simpl; [contradiction|].
  intros kv Hin. destruct (k' =? k)%string; [exact Hin|].
  destruct Hin as [<-|Hin]; [now left | right; now apply IH].
Qed.

Lemma setdefault_other (headers : list (string * string)) (k v k0 : string) :
  k0 <> k -> header_lookup (setdefault headers k v) k0 = header_lookup headers k0.
Proof.
  intros Hne. induction headers as [|[k' v'] rest IH]; simpl.
  - destruct (String.eqb_spec k k0); [congruence | reflexivity].
  - destruct (String.eqb_spec k' k) as [->|Hk]; simpl; [reflexivity|].
    now rewrite IH.
Qed.

(** X19.  [fetch_api_data] sends no request when the URL is empty and raises
    [ValueError]; otherwise it sends exactly one request, a GET to the
    configured URL with the configured timeout.  Its headers are the
    configured ones, none dropped or changed, and a [User-Agent] is always
    present: the configured one, or the default when there is none. *)
Theorem fetch_api_data_request :
  forall (net : network) (cfg : config) (log : list request),
    (nonempty (api_url cfg) = false ->
     fetch_api_data net cfg log = (Raise (Exn ValueError "API URL is required"), log)) /\
    (nonempty (api_url cfg) = true ->
     snd (fetch_api_data net cfg log) = (log ++ [api_request cfg])%list) /\
    rq_method (api_request cfg) = GET /\
    rq_url (api_request cfg) = api_url cfg /\
    rq_timeout (api_request cfg) = timeout cfg /\
    (forall k, k <> "User-Agent" ->
       header_lookup (rq_headers (api_request cfg)) k = header_lookup (api_headers cfg) k) /\
    header_lookup (rq_headers (api_request cfg)) "User-Agent"
    = match header_lookup (api_headers cfg) "User-Agent" with
      | Some ua => Some ua
      | None => Some "E-Paper-Dashboard/1.0"
      end.
Proof.
  intros net cfg log. split; [|split; [|repeat split]].
  - intros H. unfold fetch_api_data. now rewrite H.
  - intros H. unfold fetch_api_data. rewrite H. cbn [negb].
    unfold io_try, io_bind, send, io_lift, io_raise. fold (api_request cfg).
    destruct (net (api_request cfg)) as [r|e]; cbn [fst snd].
    + destruct (check_status r) as [[]|e].
      * destruct (response_json r) as [v|e]; [reflexivity|].
        repeat match goal with |- context [if ?b then _ else _] => destruct b end; reflexivity.
      * repeat match goal with |- context [if ?b then _ else _] => destruct b end; reflexivity.
    + repeat match goal with |- context [if ?b then _ else _] => destruct b end; reflexivity.
  - intros k Hk. apply setdefault_other. exact Hk.
  - apply setdefault_lookup.
Qed.

Lemma fetch_api_data_request_witness :
  fetch_api_data sample_online_preview
    (Config "api" EmptyString [] "key_value" [] [] 30) []
  = (Raise (Exn ValueError "API URL is required"), []) /\
  snd (fetch_api_data sample_online_preview
         (Config "api" "http://example.test/data" [("User-Agent", "mine")] "key_value" [] [] 30)
         [])
  = [Request GET "http://example.test/data" [("User-Agent", "mine")] None 30].
Proof.
  split.
  - apply (proj1 (fetch_api_data_request sample_online_preview
                    (Config "api" EmptyString [] "key_value" [] [] 30) [])).
    reflexivity.
  - apply (proj1 (proj2 (fetch_api_data_request sample_online_preview
                    (Config "api" "http://example.test/data" [("User-Agent", "mine")]
                       "key_value" [] [] 30) []))).
    reflexivity.
Defined.

(** X20.  Whatever the network does, an exception that leaves [fetch_api_data] is
    never a [RequestException] nor a [JSONDecodeError]: a failure of the
    request, of the status check or of the decoding that belongs to one of
    these classes leaves as a plain [Exception] whose message starts with
    "API request failed: " or "Invalid JSON response: ". *)
Theorem fetch_api_data_wraps_failures :
  forall (net : network) (cfg : config) (log : list request) (e : exn),
    fst (fetch_api_data net cfg log) = Raise e ->
    isinstance_of e [RequestException; JSONDecodeError] = false /\
    (nonempty (api_url cfg) = true ->
     forall e0,
       net (api_request cfg) = Raise e0 -> isinstance_of e0 [RequestException] = true ->
       e = Exn Exception ("API request failed: " ++ exn_msg e0)).
Proof.
  intros net cfg log e. unfold fetch_api_data.
  destruct (nonempty (api_url cfg)) eqn:Hurl; cbn [negb].
  2:{ intros H. injection H as <-. split; [reflexivity | discriminate]. }
  unfold io_try, io_bind, send, io_lift, io_raise. fold (api_request cfg).
  assert (Hh : forall e1,
             fst ((if isinstance_of e1 [RequestException]
                   then fun log0 : list request =>
                          (@Raise json (Exn Exception ("API request failed: " ++ exn_msg e1)), log0)
                   else if isinstance_of e1 [JSONDecodeError]
                        then fun log0 =>
                               (Raise (Exn Exception ("Invalid JSON response: " ++ exn_msg e1)), log0)
                        else fun log0 => (Raise e1, log0)) (log ++ [api_request cfg])%list)
             = Raise e ->
             isinstance_of e [RequestException; JSONDecodeError] = false).
  { intros e1. destruct (isinstance_of e1 [RequestException]) eqn:E1.
    - intros H. injection H as <-. reflexivity.
    - destruct (isinstance_of e1 [JSONDecodeError]) eqn:E2.
      + intros H. injection H as <-. reflexivity.
      + intros H. injection H as <-. unfold isinstance_of in *. cbn [existsb] in *.
        rewrite orb_false_r in E1, E2. now rewrite E1, E2. }
  destruct (net (api_request cfg)) as [r|e0] eqn:Enet.
  - intros H. split; [|intros _ e0 He0; discriminate He0].
    revert H. destruct (check_status r) as [[]|e1].
    + destruct (response_json r) as [v|e1]; [discriminate | apply Hh].
    + apply Hh.
  - intros H. split; [exact (Hh e0 H)|].
    intros _ e0' He0' Hi. injection He0' as <-. rewrite Hi in H. now injection H as <-.
Qed.

Lemma fetch_api_data_wraps_failures_witness :
  isinstance_of (Exn Exception "API request failed: timed out")
    [RequestException; JSONDecodeError] = false.
Proof.
  apply (fetch_api_data_wraps_failures (fun _ => Raise (Exn Timeout "timed out"))
           (Config "api" "http://example.test/data" [] "key_value" [] [] 30) []
           (Exn Exception "API request failed: timed out")).
  reflexivity.
Defined.

(** ** Acquisition: the direct RSS tier *)

Lemma fetch_rss_direct_log (net : network) (cfg : config) (log : list request) :
  snd (fetch_rss_direct net cfg log) = (log ++ [direct_request cfg])%list /\
  fst (fetch_rss_direct net cfg log) = fst (fetch_rss_direct net cfg []).
Proof.
  unfold fetch_rss_direct, io_try, io_bind, send, io_lift, io_raise, io_ret.
  fold (direct_request cfg).
  destruct (net (direct_request cfg)) as [r|e]; simpl.
  - destruct (check_status r) as [[]|e]; simpl.
    + destruct (content_xml r) as [root|e]; simpl.
      * destruct (xml_find root "channel"); simpl.
        -- destruct (slice_to _ _); simpl; [split; reflexivity|].
           repeat match goal with |- context [if ?b then _ else _] => destruct b end;
             split; reflexivity.
        -- split; reflexivity.
      * repeat match goal with |- context [if ?b then _ else _] => destruct b end;
          split; reflexivity.
    + repeat match goal with |- context [if ?b then _ else _] => destruct b end;
        split; reflexivity.
  - repeat match goal with |- context [if ?b then _ else _] => destruct b end;
      split; reflexivity.
Qed.

Lemma rss_items_shape (items : list xml) :
  Forall (fun it => exists d, it = JDict d /\ keys d = rss_item_keys)
         (map (fun i => rss_item i) items).
Proof.
  induction items as [|x items IH]; simpl; constructor; [|exact IH].
  eexists. split; reflexivity.
Qed.

(** X21.  A feed the direct tier can read: the result is a dict with the keys
    [title], [description], [link] and [items]; every item is a dict with
    the same six keys; and the number of items is the number of [item]
    elements of the channel, capped by [max_items] - 10 when the feed
    options give none, no cap at all when they give [None]. *)
Theorem fetch_rss_direct_result :
  forall (net : network) (cfg : config) (r : response) (root channel : xml),
    net (direct_request cfg) = Ok r ->
    raise_for_status r = None ->
    content_xml r = Ok root ->
    xml_find root "channel" = Some channel ->
    (forall k, dict_get (rss_config cfg) "max_items" (JInt 10) = JInt k -> 0 <= k ->
       exists items,
         fst (fetch_rss_direct net cfg []) =
           Ok (JDict [ ("title", JStr (get_element_text channel "title"));
                       ("description", JStr (get_element_text channel "description"));
                       ("link", JStr (get_element_text channel "link"));
                       ("items", JList items) ]) /\
         List.length items
         = Nat.min (Z.to_nat k) (List.length (xml_findall channel "item")) /\
         Forall (fun it => exists d, it = JDict d /\ keys d = rss_item_keys) items) /\
    (dict_lookup (rss_config cfg) "max_items" = Some JNull ->
       exists items,
         fst (fetch_rss_direct net cfg []) =
           Ok (JDict [ ("title", JStr (get_element_text channel "title"));
                       ("description", JStr (get_element_text channel "description"));
                       ("link", JStr (get_element_text channel "link"));
                       ("items", JList items) ]) /\
         List.length items = List.length (xml_findall channel "item")).
Proof.
  intros net cfg r root channel Hnet Hst Hxml Hch.
  assert (Hrun : forall items,
             slice_to (map (fun i => rss_item i) (xml_findall channel "item"))
                      (dict_get (rss_config cfg) "max_items" (JInt 10)) = Ok items ->
             fst (fetch_rss_direct net cfg []) =
               Ok (JDict [ ("title", JStr (get_element_text channel "title"));
                           ("description", JStr (get_element_text channel "description"));
                           ("link", JStr (get_element_text channel "link"));
                           ("items", JList items) ])).
  { intros items Hs.
    unfold fetch_rss_direct, io_try, io_bind, send, io_lift, io_raise, io_ret, check_status.
    fold (direct_request cfg). rewrite Hnet, Hst, Hxml. cbn [fst snd]. rewrite Hch, Hs.
    reflexivity. }
  split.
  - intros k Hk Hpos.
    exists (firstn (Z.to_nat k) (map (fun i => rss_item i) (xml_findall channel "item"))).
    split; [|split].
    + apply Hrun. rewrite Hk. unfold slice_to. cbn [as_int].
      destruct (Z.ltb_spec k 0); [lia | reflexivity].
    + now rewrite length_firstn, length_map.
    + apply Forall_forall. intros it Hin.
      pose proof (rss_items_shape (xml_findall channel "item")) as Hall.
      rewrite Forall_forall in Hall. apply Hall.
      eapply (In_nth_error) in Hin. destruct Hin as [n Hn].
      rewrite nth_error_firstn in Hn. destruct (Nat.ltb n (Z.to_nat k)); [|discriminate].
      eapply nth_error_In. exact Hn.
  - intros Hnull.
    exists (map (fun i => rss_item i) (xml_findall channel "item")).
    split; [|now rewrite length_map].
    apply Hrun. unfold dict_get. now rewrite Hnull.
Qed.

Lemma fetch_rss_direct_result_witness :
  exists items,
    fst (fetch_rss_direct sample_offline_preview sample_rss_config []) =
      Ok (JDict [ ("title", JStr "Test RSS Feed"); ("description", JStr EmptyString);
                  ("link", JStr EmptyString); ("items", JList items) ]) /\
    List.length items = 1%nat.
Proof.
  destruct (proj1 (fetch_rss_direct_result sample_offline_preview sample_rss_config
                     (Response None (Raise (Exn RequestsJSONDecodeError "Expecting value"))
                        (Ok sample_feed_xml))
                     sample_feed_xml
                     (Element "channel" None
                        [Element "title" (Some "Test RSS Feed") [];
                         Element "item" None [Element "title" (Some " Test Article 1 ") []]])
                     eq_refl eq_refl eq_refl eq_refl) 5 eq_refl ltac:(lia))
    as [items [H1 [H2 _]]].
  exists items. split; [exact H1 | exact H2].
Defined.

(** X22.  What the direct tier raises.  A document without a [channel] raises the
    plain [Exception] "Invalid RSS format: no channel element found", as it
    is.  A [ParseError] or a [RequestException] never leaves the tier: it is
    raised again as a plain [Exception] with the prefix "RSS XML parsing
    failed: " or "RSS request failed: ". *)
Theorem fetch_rss_direct_failures :
  forall (net : network) (cfg : config) (log : list request),
    (forall r root,
        net (direct_request cfg) = Ok r -> raise_for_status r = None ->
        content_xml r = Ok root -> xml_find root "channel" = None ->
        fst (fetch_rss_direct net cfg log)
        = Raise (Exn Exception "Invalid RSS format: no channel element found")) /\
    (forall r e,
        net (direct_request cfg) = Ok r -> raise_for_status r = None ->
        content_xml r = Raise e -> isinstance_of e [ParseError] = true ->
        fst (fetch_rss_direct net cfg log)
        = Raise (Exn Exception ("RSS XML parsing failed: " ++ exn_msg e))) /\
    (forall e, fst (fetch_rss_direct net cfg log) = Raise e ->
               isinstance_of e [ParseError; RequestException] = false).
Proof.
  intros net cfg log. split; [|split].
  - intros r root Hnet Hst Hxml Hch.
    unfold fetch_rss_direct, io_try, io_bind, send, io_lift, io_raise, io_ret, check_status.
    fold (direct_request cfg). rewrite Hnet, Hst, Hxml. cbn [fst snd]. rewrite Hch.
    reflexivity.
  - intros r e Hnet Hst Hxml Hp.
    unfold fetch_rss_direct, io_try, io_bind, send, io_lift, io_raise, io_ret, check_status.
    fold (direct_request cfg). rewrite Hnet, Hst, Hxml. cbn [fst snd]. now rewrite Hp.
  - intros e.
    unfold fetch_rss_direct, io_try, io_bind, send, io_lift, io_raise, io_ret, check_status.
    fold (direct_request cfg).
    assert (Hh : forall e1 (lg : list request),
               fst ((if isinstance_of e1 [ParseError]
                     then fun log0 : list request =>
                            (@Raise json (Exn Exception ("RSS XML parsing failed: " ++ exn_msg e1)),
                             log0)
                     else if isinstance_of e1 [RequestException]
                          then fun log0 =>
                                 (Raise (Exn Exception ("RSS request failed: " ++ exn_msg e1)), log0)
                          else fun log0 => (Raise e1, log0)) lg)
               = Raise e ->
               isinstance_of e [ParseError; RequestException] = false).
    { intros e1 lg. destruct (isinstance_of e1 [ParseError]) eqn:E1.
      - intros H. injection H as <-. reflexivity.
      - destruct (isinstance_of e1 [RequestException]) eqn:E2.
        + intros H. injection H as <-. reflexivity.
        + intros H. injection H as <-. unfold isinstance_of in *. cbn [existsb] in *.
          rewrite orb_false_r in E1, E2. now rewrite E1, E2. }
    destruct (net (direct_request cfg)) as [r|e0]; [|apply Hh].
    destruct (raise_for_status r) as [e1|]; [apply Hh|].
    destruct (content_xml r) as [root|e1]; [|apply Hh]. cbn [fst snd].
    destruct (xml_find root "channel") as [channel|]; [|apply Hh].
    destruct (slice_to _ _) as [items|e1]; [discriminate | apply Hh].
Qed.

Lemma fetch_rss_direct_failures_witness :
  fst (fetch_rss_direct
         (fun _ => Ok (Response None (Ok JNull) (Ok (Element "html" None []))))
         sample_rss_config [])
  = Raise (Exn Exception "Invalid RSS format: no channel element found").
Proof.
  apply (proj1 (fetch_rss_direct_failures
                  (fun _ => Ok (Response None (Ok JNull) (Ok (Element "html" None []))))
                  sample_rss_config [])
           (Response None (Ok JNull) (Ok (Element "html" None [])))
           (Element "html" None [])); reflexivity.
Defined.

(** ** Acquisition: the preview tier and its fallback *)

Lemma starts_with_map (f : ascii -> ascii) (p s : string) :
  starts_with p s = true -> starts_with (map_chars f p) (map_chars f s) = true.
Proof.
  revert s. induction p as [|a p IH]; intros s; [reflexivity|].
  destruct s as [|b s]; [discriminate|]. simpl.
  intros H. apply andb_true_iff in H as [Hab Hps].
  apply Ascii.eqb_eq in Hab. subst b. now rewrite Ascii.eqb_refl, IH.
Qed.

Lemma str_in_map (f : ascii -> ascii) (n h : string) :
  str_in n h = true -> str_in (map_chars f n) (map_chars f h) = true.
Proof.
  induction h as [|c h IH].
  - simpl. rewrite !orb_false_r. destruct n; [reflexivity | discriminate].
  - cbn [str_in]. intros H. apply orb_true_iff in H as [H|H].
    + cbn [map_chars str_in]. change (String (f c) (map_chars f h)) with (map_chars f (String c h)).
      now rewrite (starts_with_map f _ _ H).
    + cbn [map_chars str_in]. rewrite (IH H). apply orb_true_r.
Qed.

(** The test of the second [except] clause is one test: a message that
    contains "Connection" also contains "connection" once in lower case. *)
Lemma connection_test_is_case_blind (msg : string) :
  str_in "Connection" msg || str_in "connection" (lower msg)
  = str_in "connection" (lower msg).
Proof.
  destruct (str_in "Connection" msg) eqn:E; [|reflexivity].
  apply (str_in_map lower_char) in E. symmetry. exact E.
Qed.

(** X23.  An exception raised inside the [try] of [fetch_rss_data] - by the POST,
    by the status check or by the decoding - leads to the direct tier when
    it is a [ConnectionError] or when its message contains "connection" in
    any letter case (a timeout that names its connection pool, an HTTP error
    whose URL holds the word); the requests sent are then the POST and the
    GET of the direct tier.  Any other exception is raised again as a plain
    [Exception] "RSS API request failed: ..." with the POST as the only
    request. *)
Theorem rss_fallback_by_message :
  forall (net : network) (cfg : config) (e : exn),
    nonempty (api_url cfg) = true ->
    preview_raises net cfg e ->
    fetch_rss_data net cfg [] =
      if isinstance_of e [RequestsConnectionError] || str_in "connection" (lower (exn_msg e))
      then (fst (fetch_rss_direct net cfg []), [preview_request cfg; direct_request cfg])
      else (Raise (Exn Exception ("RSS API request failed: " ++ exn_msg e)),
            [preview_request cfg]).
Proof.
  intros net cfg e Hurl Hraise.
  assert (Hd : fetch_rss_direct net cfg [preview_request cfg]
               = (fst (fetch_rss_direct net cfg []), [preview_request cfg; direct_request cfg])).
  { destruct (fetch_rss_direct_log net cfg [preview_request cfg]) as [H1 H2].
    destruct (fetch_rss_direct net cfg [preview_request cfg]) as [res lg].
    simpl in H1, H2. now subst. }
  assert (Hhandler :
            (if isinstance_of e [RequestsConnectionError] then fetch_rss_direct net cfg
             else if str_in "Connection" (exn_msg e) || str_in "connection" (lower (exn_msg e))
                  then fetch_rss_direct net cfg
                  else io_raise (Exn Exception ("RSS API request failed: " ++ exn_msg e)))
              [preview_request cfg]
            = if isinstance_of e [RequestsConnectionError]
                 || str_in "connection" (lower (exn_msg e))
              then (fst (fetch_rss_direct net cfg []),
                    [preview_request cfg; direct_request cfg])
              else (Raise (Exn Exception ("RSS API request failed: " ++ exn_msg e)),
                    [preview_request cfg])).
  { rewrite connection_test_is_case_blind.
    destruct (isinstance_of e [RequestsConnectionError]); cbn [orb]; [exact Hd|].
    destruct (str_in "connection" (lower (exn_msg e))); [exact Hd | reflexivity]. }
  unfold fetch_rss_data. rewrite Hurl. cbn [negb].
  unfold io_try, io_bind, send, io_lift, check_status. fold (preview_request cfg).
  cbn [app].
  destruct Hraise as [Hnet|[[r [Hnet Hst]]|[r [Hnet [Hst Hjs]]]]].
  - rewrite Hnet. exact Hhandler.
  - rewrite Hnet, Hst. exact Hhandler.
  - rewrite Hnet, Hst, Hjs. exact Hhandler.
Qed.

Lemma rss_fallback_by_message_witness :
  fetch_rss_data
    (fun rq => match rq_method rq with
               | POST => Raise (Exn Timeout "HTTPConnectionPool(host='localhost'): Read timed out.")
               | GET => Ok (Response None (Ok JNull) (Ok sample_feed_xml))
               end)
    sample_rss_config []
  = (fst (fetch_rss_direct
            (fun rq => match rq_method rq with
                       | POST => Raise (Exn Timeout
                                          "HTTPConnectionPool(host='localhost'): Read timed out.")
                       | GET => Ok (Response None (Ok JNull) (Ok sample_feed_xml))
                       end)
            sample_rss_config []),
     [preview_request sample_rss_config; direct_request sample_rss_config]) /\
  fetch_rss_data
    (fun _ => Ok (Response (Some (Exn HTTPError "500 Server Error")) (Ok JNull)
                    (Ok sample_feed_xml)))
    sample_rss_config []
  = (Raise (Exn Exception "RSS API request failed: 500 Server Error"),
     [preview_request sample_rss_config]).
Proof.
  split.
  - apply (rss_fallback_by_message _ sample_rss_config
             (Exn Timeout "HTTPConnectionPool(host='localhost'): Read timed out.") eq_refl).
    left. reflexivity.
  - apply (rss_fallback_by_message
             (fun _ => Ok (Response (Some (Exn HTTPError "500 Server Error")) (Ok JNull)
                             (Ok sample_feed_xml)))
             sample_rss_config (Exn HTTPError "500 Server Error") eq_refl).
    right. left. eexists. split; reflexivity.
Defined.

(** X24.  An answer of the preview service that decodes to anything but a dict
    with a [feed] key is fatal: [fetch_rss_data] raises a plain [Exception]
    "RSS API request failed: ..." and does not try the direct tier.  For a
    dict without the key the message is "Invalid RSS API response format". *)
Theorem rss_preview_without_feed_is_fatal :
  forall (net : network) (cfg : config) (r : response) (data : json),
    nonempty (api_url cfg) = true ->
    net (preview_request cfg) = Ok r ->
    raise_for_status r = None ->
    response_json r = Ok data ->
    (forall d, data = JDict d -> dict_lookup d "feed" = None) ->
    (exists msg,
        fetch_rss_data net cfg [] =
          (Raise (Exn Exception ("RSS API request failed: " ++ msg)), [preview_request cfg])) /\
    (is_dict data = true ->
     fetch_rss_data net cfg [] =
       (Raise (Exn Exception "RSS API request failed: Invalid RSS API response format"),
        [preview_request cfg])).
Proof.
  intros net cfg r data Hurl Hnet Hst Hjs Hfeed.
  unfold fetch_rss_data. rewrite Hurl. cbn [negb].
  unfold io_try, io_bind, send, io_lift, io_raise, check_status. fold (preview_request cfg).
  rewrite Hnet, Hst, Hjs. cbn [app fst snd].
  destruct data as [| b | z | f | s | l | d]; cbn [py_contains type_name].
  - split; [eexists; reflexivity | discriminate].
  - split; [eexists; reflexivity | discriminate].
  - split; [eexists; reflexivity | discriminate].
  - split; [eexists; reflexivity | discriminate].
  - split; [|discriminate]. destruct (str_in "feed" s); cbn [negb]; eexists; reflexivity.
  - split; [|discriminate].
    destruct (existsb (py_eq (JStr "feed")) l); cbn [negb]; eexists; reflexivity.
  - rewrite (Hfeed d eq_refl). cbn [negb]. split; [eexists; reflexivity | reflexivity].
Qed.

Lemma rss_preview_without_feed_is_fatal_witness :
  fetch_rss_data
    (fun _ => Ok (Response None (Ok (JDict [("error", JStr "no feed")])) (Ok sample_feed_xml)))
    sample_rss_config []
  = (Raise (Exn Exception "RSS API request failed: Invalid RSS API response format"),
     [preview_request sample_rss_config]).
Proof.
  apply (proj2 (rss_preview_without_feed_is_fatal
                  (fun _ => Ok (Response None (Ok (JDict [("error", JStr "no feed")]))
                                  (Ok sample_feed_xml)))
                  sample_rss_config
                  (Response None (Ok (JDict [("error", JStr "no feed")])) (Ok sample_feed_xml))
                  (JDict [("error", JStr "no feed")]) eq_refl eq_refl eq_refl eq_refl
                  (fun d H => match H in _ = y return
                                    match y with JDict d' => dict_lookup d' "feed" = None
                                            | _ => True end
                              with eq_refl => eq_refl end))).
  reflexivity.
Defined.

(** ** The top level and the network *)

Lemma fetch_api_data_log (net : network) (cfg : config) (log : list request) :
  snd (fetch_api_data net cfg log)
  = if nonempty (api_url cfg) then (log ++ [api_request cfg])%list else log.
Proof.
  unfold fetch_api_data.
  destruct (nonempty (api_url cfg)); cbn [negb]; [|reflexivity].
  unfold io_try, io_bind, send, io_lift, io_raise. fold (api_request cfg).
  destruct (net (api_request cfg)) as [r|e]; cbn [fst snd].
  - destruct (check_status r) as [[]|e].
    + destruct (response_json r) as [v|e]; [reflexivity|].
      repeat match goal with |- context [if ?b then _ else _] => destruct b end; reflexivity.
    + repeat match goal with |- context [if ?b then _ else _] => destruct b end; reflexivity.
  - repeat match goal with |- context [if ?b then _ else _] => destruct b end; reflexivity.
Qed.

Lemma fetch_rss_data_log (net : network) (cfg : config) :
  snd (fetch_rss_data net cfg []) = [] \/
  snd (fetch_rss_data net cfg []) = [preview_request cfg] \/
  snd (fetch_rss_data net cfg []) = [preview_request cfg; direct_request cfg].
Proof.
  assert (Hd : snd (fetch_rss_direct net cfg [preview_request cfg])
               = [preview_request cfg; direct_request cfg]).
  { now destruct (fetch_rss_direct_log net cfg [preview_request cfg]) as [-> _]. }
  assert (Hh : forall e,
             snd ((if isinstance_of e [RequestsConnectionError] then fetch_rss_direct net cfg
                   else if str_in "Connection" (exn_msg e)
                           || str_in "connection" (lower (exn_msg e))
                        then fetch_rss_direct net cfg
                        else io_raise (Exn Exception ("RSS API request failed: " ++ exn_msg e)))
                    [preview_request cfg]) = [preview_request cfg] \/
             snd ((if isinstance_of e [RequestsConnectionError] then fetch_rss_direct net cfg
                   else if str_in "Connection" (exn_msg e)
                           || str_in "connection" (lower (exn_msg e))
                        then fetch_rss_direct net cfg
                        else io_raise (Exn Exception ("RSS API request failed: " ++ exn_msg e)))
                    [preview_request cfg]) = [preview_request cfg; direct_request cfg]).
  { intros e. destruct (isinstance_of e [RequestsConnectionError]); [now right|].
    destruct (str_in "Connection" (exn_msg e) || str_in "connection" (lower (exn_msg e)));
      [now right | now left]. }
  unfold fetch_rss_data.
  destruct (nonempty (api_url cfg)); cbn [negb]; [right | now left].
  unfold io_try, io_bind, send, io_lift, check_status. fold (preview_request cfg).
  cbn [app].
  destruct (net (preview_request cfg)) as [r|e]; [|apply Hh].
  destruct (raise_for_status r) as [e|]; [apply Hh|].
  destruct (response_json r) as [data|e]; [|apply Hh].
  destruct (py_contains "feed" data) as [b|e]; [|apply Hh].
  destruct b; cbn [negb].
  - destruct (subscript_key data "feed") as [v|e]; [now left | apply Hh].
  - apply (Hh (Exn Exception "Invalid RSS API response format")).
Qed.

Lemma execute_log (net : network) (cfg : config) (clk : clock) :
  snd (execute net cfg clk)
  = snd ((if (data_source cfg =? "rss")%string
          then fetch_rss_data net cfg else fetch_api_data net cfg) []).
Proof.
  unfold execute, pipeline, io_bind, io_lift.
  destruct ((if (data_source cfg =? "rss")%string
             then fetch_rss_data net cfg else fetch_api_data net cfg) []) as [[data|e] lg];
    [|reflexivity].
  cbn [snd]. destruct (apply_data_mapping (data_mapping cfg) data) as [md|e]; [|reflexivity].
  destruct (render_template clk (template_type cfg) md); reflexivity.
Qed.

(** X25.  The network traffic of one [execute]: at most two requests, at most one
    for the API source; every request goes to the configured URL or to the
    local preview service; and none is sent when the configured URL is
    empty. *)
Theorem execute_request_budget :
  forall (net : network) (cfg : config) (clk : clock),
    (List.length (snd (execute net cfg clk)) <= 2)%nat /\
    ((data_source cfg =? "rss")%string = false ->
     (List.length (snd (execute net cfg clk)) <= 1)%nat) /\
    Forall (fun rq => rq_url rq = api_url cfg \/ rq_url rq = rss_api_url)
           (snd (execute net cfg clk)) /\
    (nonempty (api_url cfg) = false -> snd (execute net cfg clk) = []).
Proof.
  intros net cfg clk. rewrite execute_log.
  destruct (data_source cfg =? "rss")%string.
  - assert (Hempty : nonempty (api_url cfg) = false -> snd (fetch_rss_data net cfg []) = []).
    { intros Hurl. unfold fetch_rss_data. now rewrite Hurl. }
    destruct (fetch_rss_data_log net cfg) as [E|[E|E]]; rewrite E in *.
    + split; [simpl; lia|]. split; [intros; simpl; lia|]. split; [constructor | reflexivity].
    + split; [simpl; lia|]. split; [intros; discriminate|]. split; [|exact Hempty].
      constructor; [now right | constructor].
    + split; [simpl; lia|]. split; [intros; discriminate|]. split; [|exact Hempty].
      constructor; [now right|]. constructor; [now left | constructor].
  - rewrite fetch_api_data_log. destruct (nonempty (api_url cfg)).
    + split; [simpl; lia|]. split; [intros; simpl; lia|]. split; [|intros; discriminate].
      constructor; [now left | constructor].
    + split; [simpl; lia|]. split; [intros; simpl; lia|]. split; [constructor | reflexivity].
Qed.

Lemma execute_request_budget_witness :
  snd (execute sample_online_preview
         (Config "rss" EmptyString [] "rss_headlines" [] [] 30)
         (Clock "10:00:00" "2024-01-15")) = [].
Proof.
  apply (proj2 (proj2 (proj2 (execute_request_budget sample_online_preview
                                (Config "rss" EmptyString [] "rss_headlines" [] [] 30)
                                (Clock "10:00:00" "2024-01-15"))))).
  reflexivity.
Defined.

(** X26.  The template identifier is looked up only after acquisition.  With an
    unknown identifier [execute] still fetches the data; when the fetch
    succeeds the fragment is the "Unknown template type" error, and when it
    fails the fragment reports the fetch failure instead. *)
Theorem execute_checks_template_after_fetch :
  forall (net : network) (cfg : config) (clk : clock),
    ~ In (template_type cfg) template_ids ->
    (data_source cfg =? "rss")%string = false ->
    nonempty (api_url cfg) = true ->
    snd (execute net cfg clk) = [api_request cfg] /\
    (forall data, fst (fetch_api_data net cfg []) = Ok data ->
       fst (execute net cfg clk)
       = to_str (render_error ("Unknown template type: " ++ template_type cfg))) /\
    (forall e, fst (fetch_api_data net cfg []) = Raise e ->
       fst (execute net cfg clk)
       = to_str (render_error ("Widget execution failed: " ++ exn_msg e))).
Proof.
  intros net cfg clk Hunk Hsrc Hurl. split; [|split].
  - rewrite execute_log, Hsrc, fetch_api_data_log, Hurl. reflexivity.
  - intros data Hd. unfold execute, pipeline, io_bind, io_lift. rewrite Hsrc.
    destruct (fetch_api_data net cfg []) as [res lg]. simpl in Hd. subst res.
    rewrite apply_data_mapping_fold. unfold render_template.
    now rewrite (assoc_none _ _ (template_map clk) Hunk).
  - intros e He. unfold execute, pipeline, io_bind, io_lift. rewrite Hsrc.
    destruct (fetch_api_data net cfg []) as [res lg]. simpl in He. now subst res.
Qed.

Lemma execute_checks_template_after_fetch_witness :
  snd (execute sample_online_preview
         (Config "api" "http://example.org/data" [] "<pie>" [] [] 30)
         (Clock "10:00:00" "2024-01-15"))
  = [api_request (Config "api" "http://example.org/data" [] "<pie>" [] [] 30)] /\
  fst (execute sample_online_preview
         (Config "api" "http://example.org/data" [] "<pie>" [] [] 30)
         (Clock "10:00:00" "2024-01-15"))
  = to_str (render_error "Unknown template type: <pie>").
Proof.
  assert (Hunk : ~ In "<pie>" template_ids).
  { unfold template_ids. simpl. intuition discriminate. }
  pose proof (execute_checks_template_after_fetch sample_online_preview
                (Config "api" "http://example.org/data" [] "<pie>" [] [] 30)
                (Clock "10:00:00" "2024-01-15") Hunk eq_refl eq_refl) as [Hlog [Hok _]].
  split; [exact Hlog|].
  exact (Hok (JDict [("feed", JDict [("title", JStr "Test RSS Feed")])]) eq_refl).
Defined.
